(** * Verification of the generation client of [script.js]

    A shallow embedding of [src/script.js]: the request/retry loop of
    [generateResponse], the response resolver [displayResult], and the two
    event handlers [handleFormSubmit] and [handleSummarize].

    Conventions of the embedding.
    - A JavaScript string is a sequence of UTF-16 code units.  It is kept in
      a [string], each code unit stored in its generalised UTF-8 form (one to
      three bytes), so that concatenation is [append] and every literal of
      the source, all of them ASCII, is written as it is.
    - The provider's response body is typed the way the provider documents
      it and the code reads it: every field the code guards (with [?.], [!]
      or [&&]) is an [option], a text is a string and a list is an array.
      A body that is not JSON and a body that is the JSON value [null] are
      kept apart from it ([JsonOutcome]).  A body that holds a value of
      another type where the provider documents a string or an array is
      outside the model.
    - The result of [JSON.parse] is a dynamically typed [JSValue].  Its
      string conversion throws on some values: [convertible] decides which,
      and [ToString] is the string the conversion gives on the others.
    - Module-level variables, the elements of the page and the observable
      effects (network calls, timers, console, alerts) live in a [World],
      threaded through the [JS] monad.  The asynchronous functions are
      modelled as run to completion, one after the other. *)

From Stdlib Require Import String Ascii List ZArith Bool Arith Lia.
From Stdlib Require Import DecimalString.
From Equations Require Import Equations.
Import ListNotations.

Local Open Scope string_scope.
Local Open Scope list_scope.

Set Implicit Arguments.

(** ** Strings *)

Module Str.

Definition chars (s : string) : list ascii := list_ascii_of_string s.
Definition of_chars (l : list ascii) : string := string_of_list_ascii l.

(** Decimal rendering of a non-negative integer, as [`${n}`] does. *)
Definition of_nat (n : nat) : string :=
  NilEmpty.string_of_uint (Nat.to_uint n).

Definition code (c : ascii) : N := N_of_ascii c.

Definition is_digit (c : ascii) : bool :=
  (48 <=? code c)%N && (code c <=? 57)%N.

(** The generalised UTF-8 form of one UTF-16 code unit. *)
Definition encode_unit (u : N) : list ascii :=
  if (u <? 128)%N then [ascii_of_N u]
  else if (u <? 2048)%N then
    [ascii_of_N (192 + N.shiftr u 6); ascii_of_N (128 + N.land u 63)]
  else
    [ascii_of_N (224 + N.shiftr u 12);
     ascii_of_N (128 + N.land (N.shiftr u 6) 63);
     ascii_of_N (128 + N.land u 63)].

(** Length of the ECMAScript [WhiteSpace] or [LineTerminator] code unit at
    the head of [cs], in bytes; [0] when there is none. *)
Definition space_at (cs : list ascii) : nat :=
  match map code cs with
  | (9 | 10 | 11 | 12 | 13 | 32)%N :: _ => 1
  | 194%N :: 160%N :: _ => 2                      (* U+00A0 *)
  | 225%N :: 154%N :: 128%N :: _ => 3             (* U+1680 *)
  | 226%N :: 128%N :: b :: _ =>                   (* U+2000-200A, 2028, 2029, 202F *)
      if ((128 <=? b) && (b <=? 138) || (b =? 168) || (b =? 169) || (b =? 175))%N
      then 3 else 0
  | 226%N :: 129%N :: 159%N :: _ => 3             (* U+205F *)
  | 227%N :: 128%N :: 128%N :: _ => 3             (* U+3000 *)
  | 239%N :: 187%N :: 191%N :: _ => 3             (* U+FEFF *)
  | _ => 0
  end.

(** Line terminators, the characters [.] of a regular expression refuses:
    LF, CR, U+2028 and U+2029. *)
Definition terminator_at (cs : list ascii) : bool :=
  match map code cs with
  | (10 | 13)%N :: _ => true
  | 226%N :: 128%N :: (168 | 169)%N :: _ => true
  | _ => false
  end.

Fixpoint trim_start_fuel (fuel : nat) (cs : list ascii) : list ascii :=
  match fuel with
  | O => cs
  | S fuel' =>
      match space_at cs with
      | O => cs
      | n => trim_start_fuel fuel' (skipn n cs)
      end
  end.

Definition trim_start (cs : list ascii) : list ascii :=
  trim_start_fuel (length cs) cs.

Definition all_space (cs : list ascii) : bool :=
  match trim_start cs with [] => true | _ => false end.

Fixpoint trim_end (cs : list ascii) : list ascii :=
  match cs with
  | [] => []
  | c :: rest => if all_space cs then [] else c :: trim_end rest
  end.

(** [String.prototype.trim]. *)
Definition trim (s : string) : string :=
  of_chars (trim_end (trim_start (chars s))).

(** [s.replace(/\n/g, by)]. *)
Fixpoint replace_newlines (by_ : string) (s : string) : string :=
  match s with
  | EmptyString => EmptyString
  | String c rest =>
      if (code c =? 10)%N then by_ ++ replace_newlines by_ rest
      else String c (replace_newlines by_ rest)
  end.

Definition starts_with (prefix cs : list ascii) : bool :=
  if list_eq_dec ascii_dec (firstn (length prefix) cs) prefix then true else false.

Definition is_star (c : ascii) : bool := (code c =? 42)%N.

(** Is there a closing [**] ahead that [.*?] can reach, that is, before
    any line terminator? *)
Fixpoint has_close (cs : list ascii) : bool :=
  match cs with
  | [] => false
  | c :: rest =>
      match rest with
      | c2 :: _ =>
          if is_star c && is_star c2 then true
          else if terminator_at cs then false
          else has_close rest
      | [] => false
      end
  end.

(** The global replacement of a lazy capture between two [**] by the
    capture between [<strong>] and [</strong>], scanning from the left;
    [inside] holds between an opening [**] and its closing one. *)
Fixpoint replace_bold (inside : bool) (cs : list ascii) : list ascii :=
  match cs with
  | [] => []
  | c :: cs' =>
      match cs' with
      | c2 :: rest =>
          if is_star c && is_star c2 then
            if inside then chars "</strong>" ++ replace_bold false rest
            else if has_close rest then chars "<strong>" ++ replace_bold true rest
            else c :: replace_bold false cs'
          else c :: replace_bold inside cs'
      | [] => [c]
      end
  end.

(** The global replacement of a marker followed by a greedy capture of
    the rest of the line (the two heading patterns of [displayResult]) by
    the capture between an opening and a closing tag.  [skip] counts the characters of the marker still to drop,
    [inside] holds within the capture. *)
Fixpoint replace_line (marker open_ close_ : list ascii)
    (skip : nat) (inside : bool) (cs : list ascii) : list ascii :=
  match cs with
  | [] => if inside then close_ else []
  | c :: cs' =>
      match skip with
      | S k => replace_line marker open_ close_ k inside cs'
      | O =>
          if inside then
            if terminator_at cs
            then close_ ++ c :: replace_line marker open_ close_ 0 false cs'
            else c :: replace_line marker open_ close_ 0 true cs'
          else if starts_with marker cs
          then open_ ++ replace_line marker open_ close_ (length marker - 1) true cs'
          else c :: replace_line marker open_ close_ 0 false cs'
      end
  end.

Definition replace_heading (marker tag : string) (s : string) : string :=
  of_chars (replace_line (chars marker) (chars ("<" ++ tag ++ ">"))
              (chars ("</" ++ tag ++ ">")) 0 false (chars s)).

Definition newline : string := String (ascii_of_N 10) EmptyString.

(** Source literals that hold double quotes are written here with
    apostrophes in their place; no literal of the source holds an
    apostrophe of its own inside such a text. *)
Fixpoint dq (s : string) : string :=
  match s with
  | EmptyString => EmptyString
  | String c rest =>
      String (if (code c =? 39)%N then ascii_of_N 34 else c) (dq rest)
  end.

End Str.

(** ** JavaScript values *)

Local Open Scope string_scope.
Set Warnings "-register-all".

(** The values [JSON.parse] builds, and [undefined].  A number keeps the
    lexeme it was read from: its value as a double is the engine's matter
    (see [Engine]).  An object keeps its members in source order, duplicates
    included; the last one wins on lookup. *)
Inductive JSValue : Type :=
| JUndefined
| JNull
| JBoolean (b : bool)
| JNumber (lexeme : string)
| JString (s : string)
| JArray (elements : list JSValue)
| JObject (members : list (string * JSValue)).

(** An exception value: an [Error] object, with the [cause] it may carry. *)
Inductive JSError : Type :=
  mkError { name : string; message : string; cause : option JSError }.

(** [new Error(message)]. *)
Definition Error (message : string) : JSError :=
  {| name := "Error"; message := message; cause := None |}.

(** What the source leaves to the JavaScript engine: the string conversion
    of the double a JSON number denotes, whether that double is zero, and
    the [TypeError] thrown when [undefined] is destructured. *)
Class Engine : Type := {
  Number_toString : string -> string;
  Number_isZero : string -> bool;
  destructuring_undefined : JSError
}.

Section Values.
Context {engine : Engine}.

(** [ToBoolean]: the truthiness the operators [!], [&&] and [||] test. *)
Definition ToBoolean (v : JSValue) : bool :=
  match v with
  | JUndefined | JNull => false
  | JBoolean b => b
  | JNumber n => negb (Number_isZero n)
  | JString s => negb (String.eqb s "")
  | JArray _ | JObject _ => true
  end.

(** [ToString], as a template literal applies it to a substitution: the
    string it gives when the conversion does not throw, which
    [convertible] below decides. *)
Fixpoint ToString (v : JSValue) : string :=
  match v with
  | JUndefined => "undefined"
  | JNull => "null"
  | JBoolean true => "true"
  | JBoolean false => "false"
  | JNumber n => Number_toString n
  | JString s => s
  | JArray elements =>
      (fix join (l : list JSValue) : string :=
         match l with
         | [] => ""
         | x :: rest =>
             let item := match x with
                         | JUndefined | JNull => ""
                         | _ => ToString x
                         end in
             match rest with
             | [] => item
             | _ => item ++ "," ++ join rest
             end
         end) elements
  | JObject _ => "[object Object]"
  end.

End Values.

Fixpoint lookup_last (key : string) (members : list (string * JSValue))
    : option JSValue :=
  match members with
  | [] => None
  | (k, v) :: rest =>
      match lookup_last key rest with
      | Some v' => Some v'
      | None => if String.eqb k key then Some v else None
      end
  end.

(** Whether [ToString] returns on a value that [JSON.parse] built.  An
    object is converted by the first callable of its [toString] and
    [valueOf] that returns a primitive.  A member named [toString] hides
    the method of the prototype and, coming from JSON, is not callable;
    [valueOf], own or inherited, then gives no primitive: the conversion
    throws a [TypeError].  An array is converted by [join], which converts
    each element other than [null] and [undefined] in turn. *)
Fixpoint convertible (v : JSValue) : bool :=
  match v with
  | JObject members =>
      match lookup_last "toString" members with
      | Some _ => false
      | None => true
      end
  | JArray elements => forallb convertible elements
  | _ => true
  end.

(** [v[key]] for a [key] that no built-in prototype defines (the source
    reads [final_summary] only): the member of an object, [undefined] on any
    other value, and a [TypeError], here [None], on [null] and [undefined]. *)
Definition GetV (v : JSValue) (key : string) : option JSValue :=
  match v with
  | JUndefined | JNull => None
  | JObject members =>
      match lookup_last key members with
      | Some x => Some x
      | None => Some JUndefined
      end
  | _ => Some JUndefined
  end.

(** ** [JSON.parse] *)

(** The JSON grammar of ECMA-404, as [JSON.parse] reads it: no reviver is
    passed in the source.  [None] stands for the [SyntaxError] it throws. *)
Module JSONParser.
Import Str.
Local Open Scope list_scope.
Local Open Scope N_scope.

Definition is_ws (c : ascii) : bool :=
  match code c with
  | 9 | 10 | 13 | 32 => true
  | _ => false
  end.

Fixpoint skip_ws (cs : list ascii) : list ascii :=
  match cs with
  | [] => []
  | c :: rest => if is_ws c then skip_ws rest else cs
  end.

Fixpoint take_digits (cs : list ascii) : list ascii * list ascii :=
  match cs with
  | [] => ([], [])
  | c :: rest =>
      if is_digit c
      then let (ds, r) := take_digits rest in (c :: ds, r)
      else ([], cs)
  end.

Definition hex_value (c : ascii) : option N :=
  let n := code c in
  if is_digit c then Some (n - 48)
  else if (65 <=? n) && (n <=? 70) then Some (n - 55)
  else if (97 <=? n) && (n <=? 102) then Some (n - 87)
  else None.

Definition hex4 (h1 h2 h3 h4 : ascii) : option N :=
  match hex_value h1, hex_value h2, hex_value h3, hex_value h4 with
  | Some a, Some b, Some c, Some d => Some (((a * 16 + b) * 16 + c) * 16 + d)
  | _, _, _, _ => None
  end.

(** The character a two-character escape denotes. *)
Definition unescape (c : ascii) : option ascii :=
  match code c with
  | 34 => Some (ascii_of_N 34)      (* the quote *)
  | 92 => Some (ascii_of_N 92)      (* the backslash *)
  | 47 => Some (ascii_of_N 47)      (* the solidus *)
  | 98 => Some (ascii_of_N 8)       (* b *)
  | 102 => Some (ascii_of_N 12)     (* f *)
  | 110 => Some (ascii_of_N 10)     (* n *)
  | 114 => Some (ascii_of_N 13)     (* r *)
  | 116 => Some (ascii_of_N 9)      (* t *)
  | _ => None
  end.

Definition prepend (pre : list ascii)
    (r : option (list ascii * list ascii)) : option (list ascii * list ascii) :=
  match r with
  | Some (s, rest) => Some (pre ++ s, rest)
  | None => None
  end.

(** The characters of a string literal, after its opening quote. *)
Fixpoint parse_chars (cs : list ascii) : option (list ascii * list ascii) :=
  match cs with
  | [] => None
  | c :: rest =>
      if code c =? 34 then Some ([], rest)
      else if code c =? 92 then
        match rest with
        | [] => None
        | e :: rest' =>
            if code e =? 117 then
              match rest' with
              | h1 :: h2 :: h3 :: h4 :: rest'' =>
                  match hex4 h1 h2 h3 h4 with
                  | Some u => prepend (encode_unit u) (parse_chars rest'')
                  | None => None
                  end
              | _ => None
              end
            else
              match unescape e with
              | Some ch => prepend [ch] (parse_chars rest')
              | None => None
              end
        end
      else if code c <? 32 then None
      else prepend [c] (parse_chars rest)
  end.

Definition parse_int (cs : list ascii) : option (list ascii * list ascii) :=
  match cs with
  | [] => None
  | c :: rest =>
      if code c =? 48 then Some ([c], rest)
      else if is_digit c
      then let (ds, r) := take_digits rest in Some (c :: ds, r)
      else None
  end.

Definition parse_frac (cs : list ascii) : option (list ascii * list ascii) :=
  match cs with
  | [] => Some ([], [])
  | c :: rest =>
      if code c =? 46 then
        match take_digits rest with
        | ([], _) => None
        | (ds, r) => Some (c :: ds, r)
        end
      else Some ([], cs)
  end.

Definition parse_exp (cs : list ascii) : option (list ascii * list ascii) :=
  match cs with
  | [] => Some ([], [])
  | c :: rest =>
      if (code c =? 101) || (code c =? 69) then
        let (sign, rest') :=
          match rest with
          | s :: r => if (code s =? 43) || (code s =? 45) then ([s], r) else ([], rest)
          | [] => ([], [])
          end in
        match take_digits rest' with
        | ([], _) => None
        | (ds, r) => Some (c :: sign ++ ds, r)
        end
      else Some ([], cs)
  end.

Definition parse_number (cs : list ascii) : option (string * list ascii) :=
  let (sign, cs1) :=
    match cs with
    | c :: rest => if code c =? 45 then ([c], rest) else ([], cs)
    | [] => ([], [])
    end in
  match parse_int cs1 with
  | None => None
  | Some (i, cs2) =>
      match parse_frac cs2 with
      | None => None
      | Some (f, cs3) =>
          match parse_exp cs3 with
          | None => None
          | Some (e, cs4) => Some (of_chars (sign ++ i ++ f ++ e), cs4)
          end
      end
  end.

Definition parse_literal (cs : list ascii) : option (JSValue * list ascii) :=
  if starts_with (chars "null") cs then Some (JNull, skipn 4 cs)
  else if starts_with (chars "true") cs then Some (JBoolean true, skipn 4 cs)
  else if starts_with (chars "false") cs then Some (JBoolean false, skipn 5 cs)
  else
    match parse_number cs with
    | Some (n, rest) => Some (JNumber n, rest)
    | None => None
    end.

Fixpoint parse_value (fuel : nat) (cs : list ascii) {struct fuel}
    : option (JSValue * list ascii) :=
  match fuel with
  | O => None
  | S fuel' =>
      match cs with
      | [] => None
      | c :: rest =>
          if code c =? 34 then
            match parse_chars rest with
            | Some (s, r) => Some (JString (of_chars s), r)
            | None => None
            end
          else if code c =? 91 then
            match skip_ws rest with
            | [] => None
            | d :: rest' =>
                if code d =? 93 then Some (JArray [], rest')
                else
                  match parse_elements fuel' (d :: rest') with
                  | Some (vs, r) => Some (JArray vs, r)
                  | None => None
                  end
            end
          else if code c =? 123 then
            match skip_ws rest with
            | [] => None
            | d :: rest' =>
                if code d =? 125 then Some (JObject [], rest')
                else
                  match parse_members fuel' (d :: rest') with
                  | Some (ms, r) => Some (JObject ms, r)
                  | None => None
                  end
            end
          else parse_literal cs
      end
  end

with parse_elements (fuel : nat) (cs : list ascii) {struct fuel}
    : option (list JSValue * list ascii) :=
  match fuel with
  | O => None
  | S fuel' =>
      match parse_value fuel' cs with
      | None => None
      | Some (v, rest) =>
          match skip_ws rest with
          | [] => None
          | d :: rest' =>
              if code d =? 44 then
                match parse_elements fuel' (skip_ws rest') with
                | Some (vs, r) => Some (v :: vs, r)
                | None => None
                end
              else if code d =? 93 then Some ([v], rest')
              else None
          end
      end
  end

with parse_members (fuel : nat) (cs : list ascii) {struct fuel}
    : option (list (string * JSValue) * list ascii) :=
  match fuel with
  | O => None
  | S fuel' =>
      match cs with
      | [] => None
      | q :: rest =>
          if code q =? 34 then
            match parse_chars rest with
            | None => None
            | Some (k, rest1) =>
                match skip_ws rest1 with
                | [] => None
                | colon :: rest2 =>
                    if code colon =? 58 then
                      match parse_value fuel' (skip_ws rest2) with
                      | None => None
                      | Some (v, rest3) =>
                          match skip_ws rest3 with
                          | [] => None
                          | d :: rest4 =>
                              if code d =? 44 then
                                match parse_members fuel' (skip_ws rest4) with
                                | Some (ms, r) => Some ((of_chars k, v) :: ms, r)
                                | None => None
                                end
                              else if code d =? 125 then Some ([(of_chars k, v)], rest4)
                              else None
                          end
                      end
                    else None
                end
            end
          else None
      end
  end.

(** Every level of the recursion but one in two consumes a character. *)
Definition fuel_for (cs : list ascii) : nat := 2 * length cs + 2.

End JSONParser.

Definition JSON_parse (text : string) : option JSValue :=
  let cs := JSONParser.skip_ws (Str.chars text) in
  match JSONParser.parse_value (JSONParser.fuel_for cs) cs with
  | Some (v, rest) =>
      match JSONParser.skip_ws rest with
      | [] => Some v
      | _ => None
      end
  | None => None
  end.

(** ** Requests and responses *)

Definition apiKey : string := "GEMINI_API_KEY".
Definition modelName : string := "gemini-2.5-flash-lite".
Definition apiUrlBase : string :=
  "https://generativelanguage.googleapis.com/v1beta/models/" ++ modelName
  ++ ":generateContent?key=" ++ apiKey.

Inductive Schema : Type :=
| SchemaObject (properties : list (string * Schema)) (propertyOrdering : list string)
| SchemaArray (items : Schema)
| SchemaString
| SchemaNumber (description : string).

Definition structuredSchema : Schema :=
  SchemaObject
    [("reasoning_steps", SchemaArray SchemaString);
     ("final_summary", SchemaString);
     ("confidence_score", SchemaNumber "Score from 0 to 100.")]
    ["reasoning_steps"; "final_summary"; "confidence_score"].

(** The request body.  A property the code does not set is [None]. *)
Module Request.
Record Part := { text : string }.
Record Content := { parts : list Part }.
Inductive Tool := google_search.
Record GenerationConfig := {
  responseMimeType : string;
  responseSchema : Schema
}.
Record Payload := {
  contents : list Content;
  systemInstruction : Content;
  tools : option (list Tool);
  generationConfig : option GenerationConfig
}.
End Request.

(** The response body, typed as the provider documents it and as the code
    reads it: a field the code guards is an [option], [None] when it is
    missing, [null] or [undefined]. *)
Module Response.
Record Web := { uri : option string; title : option string }.
Record Attribution := { web : option Web }.
Record GroundingMetadata := { groundingAttributions : option (list Attribution) }.
Record Part := { text : option string }.
Record Content := { parts : option (list Part) }.
Record Candidate := {
  content : option Content;
  groundingMetadata : option GroundingMetadata
}.
Record ErrorInfo := { message : option string }.
Record Body := {
  candidates : option (list Candidate);
  error : option ErrorInfo
}.
(** The object [{}]. *)
Definition empty : Body := {| candidates := None; error := None |}.
End Response.

(** What [response.json()] settles to: a rejection, when the body is not
    JSON; the value [null], with the [TypeError] the engine throws when a
    property of it is read; or a body the code reads properties of.  A
    JSON value that is neither [null] nor an object has none of the
    properties the code reads: it reads as the empty object. *)
Inductive JsonOutcome : Type :=
| Unparsable (reason : JSError)
| ParsedNull (typeError : JSError)
| Parsed (body : Response.Body).

(** What [fetch] settles to: a rejection, or a response with its status and
    what its [json()] settles to. *)
Record HttpResponse := {
  status : nat;
  json : JsonOutcome
}.

(** [response.ok]: the status is in the range 200-299. *)
Definition ok (response : HttpResponse) : bool :=
  (200 <=? status response)%nat && (status response <=? 299)%nat.

Inductive FetchOutcome : Type :=
| Rejected (reason : JSError)
| Resolved (response : HttpResponse).

Record Source := { uri : option string; title : option string }.
Record GenerationResult := { text : string; sources : list Source }.

(** The truthiness of a property that holds a string when it is there. *)
Definition truthy (s : option string) : bool :=
  match s with
  | Some s => negb (String.eqb s "")
  | None => false
  end.

(** The string conversion of such a property. *)
Definition text_of (s : option string) : string :=
  match s with
  | Some s => s
  | None => "undefined"
  end.

(** ** The page and the world *)

(** A link appended to the citation list. *)
Record Anchor := {
  href : string;
  target : string;
  className : string;
  anchor_text : string          (* its [textContent] *)
}.

(** An element of the page, with the properties the code reads or writes.
    [hidden] is the presence of the class [hidden] in its [classList]. *)
Record Element := {
  innerHTML : string;
  childNodes : list Anchor;
  textContent : string;
  hidden : bool;
  disabled : bool;
  checked : bool;
  value : string
}.

Module El.
(** [e.innerHTML = html]: the former children go. *)
Definition set_innerHTML (html : string) (e : Element) : Element :=
  {| innerHTML := html; childNodes := []; textContent := textContent e;
     hidden := hidden e; disabled := disabled e; checked := checked e;
     value := value e |}.
Definition appendChild (a : Anchor) (e : Element) : Element :=
  {| innerHTML := innerHTML e; childNodes := (childNodes e ++ [a])%list;
     textContent := textContent e; hidden := hidden e;
     disabled := disabled e; checked := checked e; value := value e |}.
Definition set_textContent (t : string) (e : Element) : Element :=
  {| innerHTML := innerHTML e; childNodes := childNodes e; textContent := t;
     hidden := hidden e; disabled := disabled e; checked := checked e;
     value := value e |}.
Definition set_hidden (b : bool) (e : Element) : Element :=
  {| innerHTML := innerHTML e; childNodes := childNodes e;
     textContent := textContent e; hidden := b; disabled := disabled e;
     checked := checked e; value := value e |}.
(** [e.classList.add('hidden')] and [e.classList.remove('hidden')]. *)
Definition classList_add_hidden : Element -> Element := set_hidden true.
Definition classList_remove_hidden : Element -> Element := set_hidden false.
Definition set_disabled (b : bool) (e : Element) : Element :=
  {| innerHTML := innerHTML e; childNodes := childNodes e;
     textContent := textContent e; hidden := hidden e; disabled := b;
     checked := checked e; value := value e |}.
Definition set_checked (b : bool) (e : Element) : Element :=
  {| innerHTML := innerHTML e; childNodes := childNodes e;
     textContent := textContent e; hidden := hidden e;
     disabled := disabled e; checked := b; value := value e |}.
End El.

(** The elements the script looks up, under the name of the constant that
    holds them or, for those looked up in place, of their id. *)
Record Page := {
  generateButton : Element        (* #generate-button *);
  buttonText : Element            (* #button-text *);
  loadingIndicator : Element      (* #loading-indicator *);
  responseContainer : Element     (* #response-container *);
  citationContainer : Element     (* #citation-container *);
  citationsDiv : Element          (* #citations *);
  structuredCheckbox : Element    (* #structured-output *);
  jsonSchemaDisplay : Element     (* #json-schema-display *);
  summarySection : Element        (* #summary-section *);
  summaryContainer : Element      (* #summary-container *);
  summaryText : Element           (* #summary-text *);
  google_grounding : Element      (* #google-grounding *);
  user_query : Element            (* #user-query *);
  system_instruction : Element    (* #system-instruction *);
  summarize_button : Element      (* #summarize-button *);
  summary_loading : Element       (* #summary-loading *)
}.

Definition on_generateButton (f : Element -> Element) (p : Page) : Page :=
  {| generateButton := f (generateButton p); buttonText := buttonText p;
     loadingIndicator := loadingIndicator p; responseContainer :=
     responseContainer p; citationContainer := citationContainer p;
     citationsDiv := citationsDiv p; structuredCheckbox :=
     structuredCheckbox p; jsonSchemaDisplay := jsonSchemaDisplay p;
     summarySection := summarySection p; summaryContainer :=
     summaryContainer p; summaryText := summaryText p; google_grounding :=
     google_grounding p; user_query := user_query p; system_instruction :=
     system_instruction p; summarize_button := summarize_button p;
     summary_loading := summary_loading p |}.
Definition on_buttonText (f : Element -> Element) (p : Page) : Page :=
  {| generateButton := generateButton p; buttonText := f (buttonText p);
     loadingIndicator := loadingIndicator p; responseContainer :=
     responseContainer p; citationContainer := citationContainer p;
     citationsDiv := citationsDiv p; structuredCheckbox :=
     structuredCheckbox p; jsonSchemaDisplay := jsonSchemaDisplay p;
     summarySection := summarySection p; summaryContainer :=
     summaryContainer p; summaryText := summaryText p; google_grounding :=
     google_grounding p; user_query := user_query p; system_instruction :=
     system_instruction p; summarize_button := summarize_button p;
     summary_loading := summary_loading p |}.
Definition on_loadingIndicator (f : Element -> Element) (p : Page) : Page :=
  {| generateButton := generateButton p; buttonText := buttonText p;
     loadingIndicator := f (loadingIndicator p); responseContainer :=
     responseContainer p; citationContainer := citationContainer p;
     citationsDiv := citationsDiv p; structuredCheckbox :=
     structuredCheckbox p; jsonSchemaDisplay := jsonSchemaDisplay p;
     summarySection := summarySection p; summaryContainer :=
     summaryContainer p; summaryText := summaryText p; google_grounding :=
     google_grounding p; user_query := user_query p; system_instruction :=
     system_instruction p; summarize_button := summarize_button p;
     summary_loading := summary_loading p |}.
Definition on_responseContainer (f : Element -> Element) (p : Page) : Page :=
  {| generateButton := generateButton p; buttonText := buttonText p;
     loadingIndicator := loadingIndicator p; responseContainer := f
     (responseContainer p); citationContainer := citationContainer p;
     citationsDiv := citationsDiv p; structuredCheckbox :=
     structuredCheckbox p; jsonSchemaDisplay := jsonSchemaDisplay p;
     summarySection := summarySection p; summaryContainer :=
     summaryContainer p; summaryText := summaryText p; google_grounding :=
     google_grounding p; user_query := user_query p; system_instruction :=
     system_instruction p; summarize_button := summarize_button p;
     summary_loading := summary_loading p |}.
Definition on_citationContainer (f : Element -> Element) (p : Page) : Page :=
  {| generateButton := generateButton p; buttonText := buttonText p;
     loadingIndicator := loadingIndicator p; responseContainer :=
     responseContainer p; citationContainer := f (citationContainer p);
     citationsDiv := citationsDiv p; structuredCheckbox :=
     structuredCheckbox p; jsonSchemaDisplay := jsonSchemaDisplay p;
     summarySection := summarySection p; summaryContainer :=
     summaryContainer p; summaryText := summaryText p; google_grounding :=
     google_grounding p; user_query := user_query p; system_instruction :=
     system_instruction p; summarize_button := summarize_button p;
     summary_loading := summary_loading p |}.
Definition on_citationsDiv (f : Element -> Element) (p : Page) : Page :=
  {| generateButton := generateButton p; buttonText := buttonText p;
     loadingIndicator := loadingIndicator p; responseContainer :=
     responseContainer p; citationContainer := citationContainer p;
     citationsDiv := f (citationsDiv p); structuredCheckbox :=
     structuredCheckbox p; jsonSchemaDisplay := jsonSchemaDisplay p;
     summarySection := summarySection p; summaryContainer :=
     summaryContainer p; summaryText := summaryText p; google_grounding :=
     google_grounding p; user_query := user_query p; system_instruction :=
     system_instruction p; summarize_button := summarize_button p;
     summary_loading := summary_loading p |}.
Definition on_structuredCheckbox (f : Element -> Element) (p : Page) : Page :=
  {| generateButton := generateButton p; buttonText := buttonText p;
     loadingIndicator := loadingIndicator p; responseContainer :=
     responseContainer p; citationContainer := citationContainer p;
     citationsDiv := citationsDiv p; structuredCheckbox := f
     (structuredCheckbox p); jsonSchemaDisplay := jsonSchemaDisplay p;
     summarySection := summarySection p; summaryContainer :=
     summaryContainer p; summaryText := summaryText p; google_grounding :=
     google_grounding p; user_query := user_query p; system_instruction :=
     system_instruction p; summarize_button := summarize_button p;
     summary_loading := summary_loading p |}.
Definition on_jsonSchemaDisplay (f : Element -> Element) (p : Page) : Page :=
  {| generateButton := generateButton p; buttonText := buttonText p;
     loadingIndicator := loadingIndicator p; responseContainer :=
     responseContainer p; citationContainer := citationContainer p;
     citationsDiv := citationsDiv p; structuredCheckbox :=
     structuredCheckbox p; jsonSchemaDisplay := f (jsonSchemaDisplay p);
     summarySection := summarySection p; summaryContainer :=
     summaryContainer p; summaryText := summaryText p; google_grounding :=
     google_grounding p; user_query := user_query p; system_instruction :=
     system_instruction p; summarize_button := summarize_button p;
     summary_loading := summary_loading p |}.
Definition on_summarySection (f : Element -> Element) (p : Page) : Page :=
  {| generateButton := generateButton p; buttonText := buttonText p;
     loadingIndicator := loadingIndicator p; responseContainer :=
     responseContainer p; citationContainer := citationContainer p;
     citationsDiv := citationsDiv p; structuredCheckbox :=
     structuredCheckbox p; jsonSchemaDisplay := jsonSchemaDisplay p;
     summarySection := f (summarySection p); summaryContainer :=
     summaryContainer p; summaryText := summaryText p; google_grounding :=
     google_grounding p; user_query := user_query p; system_instruction :=
     system_instruction p; summarize_button := summarize_button p;
     summary_loading := summary_loading p |}.
Definition on_summaryContainer (f : Element -> Element) (p : Page) : Page :=
  {| generateButton := generateButton p; buttonText := buttonText p;
     loadingIndicator := loadingIndicator p; responseContainer :=
     responseContainer p; citationContainer := citationContainer p;
     citationsDiv := citationsDiv p; structuredCheckbox :=
     structuredCheckbox p; jsonSchemaDisplay := jsonSchemaDisplay p;
     summarySection := summarySection p; summaryContainer := f
     (summaryContainer p); summaryText := summaryText p; google_grounding
     := google_grounding p; user_query := user_query p; system_instruction
     := system_instruction p; summarize_button := summarize_button p;
     summary_loading := summary_loading p |}.
Definition on_summaryText (f : Element -> Element) (p : Page) : Page :=
  {| generateButton := generateButton p; buttonText := buttonText p;
     loadingIndicator := loadingIndicator p; responseContainer :=
     responseContainer p; citationContainer := citationContainer p;
     citationsDiv := citationsDiv p; structuredCheckbox :=
     structuredCheckbox p; jsonSchemaDisplay := jsonSchemaDisplay p;
     summarySection := summarySection p; summaryContainer :=
     summaryContainer p; summaryText := f (summaryText p);
     google_grounding := google_grounding p; user_query := user_query p;
     system_instruction := system_instruction p; summarize_button :=
     summarize_button p; summary_loading := summary_loading p |}.
Definition on_google_grounding (f : Element -> Element) (p : Page) : Page :=
  {| generateButton := generateButton p; buttonText := buttonText p;
     loadingIndicator := loadingIndicator p; responseContainer :=
     responseContainer p; citationContainer := citationContainer p;
     citationsDiv := citationsDiv p; structuredCheckbox :=
     structuredCheckbox p; jsonSchemaDisplay := jsonSchemaDisplay p;
     summarySection := summarySection p; summaryContainer :=
     summaryContainer p; summaryText := summaryText p; google_grounding :=
     f (google_grounding p); user_query := user_query p;
     system_instruction := system_instruction p; summarize_button :=
     summarize_button p; summary_loading := summary_loading p |}.
Definition on_summarize_button (f : Element -> Element) (p : Page) : Page :=
  {| generateButton := generateButton p; buttonText := buttonText p;
     loadingIndicator := loadingIndicator p; responseContainer :=
     responseContainer p; citationContainer := citationContainer p;
     citationsDiv := citationsDiv p; structuredCheckbox :=
     structuredCheckbox p; jsonSchemaDisplay := jsonSchemaDisplay p;
     summarySection := summarySection p; summaryContainer :=
     summaryContainer p; summaryText := summaryText p; google_grounding :=
     google_grounding p; user_query := user_query p; system_instruction :=
     system_instruction p; summarize_button := f (summarize_button p);
     summary_loading := summary_loading p |}.
Definition on_summary_loading (f : Element -> Element) (p : Page) : Page :=
  {| generateButton := generateButton p; buttonText := buttonText p;
     loadingIndicator := loadingIndicator p; responseContainer :=
     responseContainer p; citationContainer := citationContainer p;
     citationsDiv := citationsDiv p; structuredCheckbox :=
     structuredCheckbox p; jsonSchemaDisplay := jsonSchemaDisplay p;
     summarySection := summarySection p; summaryContainer :=
     summaryContainer p; summaryText := summaryText p; google_grounding :=
     google_grounding p; user_query := user_query p; system_instruction :=
     system_instruction p; summarize_button := summarize_button p;
     summary_loading := f (summary_loading p) |}.

(** The effects a run leaves behind, in order. *)
Inductive Event : Type :=
| Fetch (url : string) (payload : Request.Payload)   (* a POST of the payload *)
| ConsoleError (label : string) (error : JSError)
| Wait (delay : Z)                                (* a wait of [delay] ms *)
| Alert (text : string)
| PreventDefault.

(** The two module-level variables, the page, and the environment: what the
    [n]-th network call of the session settles to, how many were made, and
    the effects so far. *)
Record World := {
  currentResponse : JSValue;
  currentSystemPrompt : string;
  page : Page;
  network : nat -> Request.Payload -> FetchOutcome;
  fetches : nat;
  trace : list Event
}.

Definition set_currentResponse (v : JSValue) (w : World) : World :=
  {| currentResponse := v; currentSystemPrompt := currentSystemPrompt w;
     page := page w; network := network w; fetches := fetches w;
     trace := trace w |}.

Definition set_currentSystemPrompt (s : string) (w : World) : World :=
  {| currentResponse := currentResponse w; currentSystemPrompt := s;
     page := page w; network := network w; fetches := fetches w;
     trace := trace w |}.

Definition on_page (f : Page -> Page) (w : World) : World :=
  {| currentResponse := currentResponse w;
     currentSystemPrompt := currentSystemPrompt w;
     page := f (page w); network := network w; fetches := fetches w;
     trace := trace w |}.

Definition emit (e : Event) (w : World) : World :=
  {| currentResponse := currentResponse w;
     currentSystemPrompt := currentSystemPrompt w;
     page := page w; network := network w; fetches := fetches w;
     trace := (trace w ++ [e])%list |}.

Definition count_fetch (w : World) : World :=
  {| currentResponse := currentResponse w;
     currentSystemPrompt := currentSystemPrompt w;
     page := page w; network := network w; fetches := S (fetches w);
     trace := trace w |}.

(** ** The monad of the script: state and exceptions *)

Inductive Completion (A : Type) : Type :=
| Normal (a : A)
| Throw (e : JSError).
Arguments Normal {A} a.
Arguments Throw {A} e.

Definition JS (A : Type) : Type := World -> Completion A * World.

Definition ret {A} (a : A) : JS A := fun w => (Normal a, w).

Definition bind {A B} (m : JS A) (k : A -> JS B) : JS B :=
  fun w =>
    match m w with
    | (Normal a, w') => k a w'
    | (Throw e, w') => (Throw e, w')
    end.

Definition throw {A} (e : JSError) : JS A := fun w => (Throw e, w).

Definition modify (f : World -> World) : JS unit := fun w => (Normal tt, f w).

Definition gets {A} (f : World -> A) : JS A := fun w => (Normal (f w), w).

Definition settle {A} (c : Completion A) : JS A := fun w => (c, w).

(** [try { body } catch (error) { handler }]. *)
Definition try_catch {A} (body : JS A) (handler : JSError -> JS A) : JS A :=
  fun w =>
    match body w with
    | (Normal a, w') => (Normal a, w')
    | (Throw e, w') => handler e w'
    end.

(** [try { body } finally { cleanup }], for a [cleanup] that does not
    return. *)
Definition try_finally {A} (body : JS A) (cleanup : JS unit) : JS A :=
  fun w =>
    let (c, w') := body w in
    match cleanup w' with
    | (Normal _, w'') => (c, w'')
    | (Throw e, w'') => (Throw e, w'')
    end.

Declare Scope js_scope.
Delimit Scope js_scope with js.
Notation "x <- m ;; k" := (bind m (fun x => k))
  (at level 100, m at next level, right associativity) : js_scope.
Notation "m ;; k" := (bind m (fun _ => k))
  (at level 100, right associativity) : js_scope.
Local Open Scope js_scope.

Definition update (on_ : (Element -> Element) -> Page -> Page)
    (f : Element -> Element) : JS unit :=
  modify (on_page (on_ f)).

Definition console_error (label : string) (error : JSError) : JS unit :=
  modify (emit (ConsoleError label error)).

(** [await new Promise(resolve => setTimeout(resolve, delay))]. *)
Definition sleep (delay : Z) : JS unit := modify (emit (Wait delay)).

(** [await fetch(url, { method: 'POST', ..., body: JSON.stringify(payload) })]. *)
Definition fetch (url : string) (payload : Request.Payload) : JS HttpResponse :=
  fun w =>
    let w' := count_fetch (emit (Fetch url payload) w) in
    match network w (fetches w) payload with
    | Rejected reason => (Throw reason, w')
    | Resolved response => (Normal response, w')
    end.

(** ** [generateResponse] *)

(** Lines 69-85: the payload. *)
Definition buildPayload (userQuery systemPrompt : string)
    (isGrounded isStructured : bool) : Request.Payload :=
  let payload :=
    {| Request.contents := [ {| Request.parts := [ {| Request.text := userQuery |} ] |} ];
       Request.systemInstruction := {| Request.parts := [ {| Request.text := systemPrompt |} ] |};
       Request.tools := None;
       Request.generationConfig := None |} in
  let payload :=
    if isGrounded
    then {| Request.contents := Request.contents payload;
            Request.systemInstruction := Request.systemInstruction payload;
            Request.tools := Some [Request.google_search];
            Request.generationConfig := Request.generationConfig payload |}
    else payload in
  let payload :=
    if isStructured
    then {| Request.contents := Request.contents payload;
            Request.systemInstruction := Request.systemInstruction payload;
            Request.tools := Request.tools payload;
            Request.generationConfig :=
              Some {| Request.responseMimeType := "application/json";
                      Request.responseSchema := structuredSchema |} |}
    else payload in
  payload.

(** [array?.[0]]. *)
Definition first {A} (array : option (list A)) : option A :=
  match array with
  | Some (x :: _) => Some x
  | _ => None
  end.

(** Lines 123-126: the arrow function mapped over the attributions. *)
Definition toSource (attribution : Response.Attribution) : Source :=
  {| uri := match Response.web attribution with
            | Some web => Response.uri web
            | None => None
            end;
     title := match Response.web attribution with
              | Some web => Response.title web
              | None => None
              end |}.

(** Line 127: the predicate of the filter. *)
Definition keepSource (source : Source) : bool :=
  truthy (uri source) && truthy (title source).

(** Lines 105-130: from the parsed body to the result. *)
Definition extractResult (result : Response.Body) : Completion GenerationResult :=
  match first (Response.candidates result) with
  | None => Throw (Error "No candidates returned by the model.")
  | Some candidate =>
      let textPart :=
        match Response.content candidate with
        | Some content => first (Response.parts content)
        | None => None
        end in
      match textPart with
      | None => Throw (Error "Generated text content is missing.")
      | Some textPart =>
          if negb (truthy (Response.text textPart))
          then Throw (Error "Generated text content is missing.")
          else
            let text := text_of (Response.text textPart) in
            let sources :=
              match Response.groundingMetadata candidate with
              | Some groundingMetadata =>
                  match Response.groundingAttributions groundingMetadata with
                  | Some attributions => filter keepSource (map toSource attributions)
                  | None => []
                  end
              | None => []
              end in
            Normal {| text := text; sources := sources |}
      end
  end.

(** Lines 98-130: what the body of the [try] makes of a response.  On a
    body that is [null], reading [errorData.error] (line 100) or
    [result.candidates] (line 105) throws. *)
Definition handleResponse (response : HttpResponse) : Completion GenerationResult :=
  if negb (ok response) then
    match json response with
    | ParsedNull typeError => Throw typeError
    | (Unparsable _ | Parsed _) as settled =>
        let errorData :=
          match settled with
          | Parsed body => body
          | _ => Response.empty
          end in
        let errorMessage :=
          let message :=
            match Response.error errorData with
            | Some error => Response.message error
            | None => None
            end in
          if truthy message then text_of message
          else "HTTP error! status: " ++ Str.of_nat (status response) in
        Throw (Error ("API Error (" ++ Str.of_nat (status response) ++ "): "
                      ++ errorMessage))
    end
  else
    match json response with
    | Parsed result => extractResult result
    | ParsedNull typeError => Throw typeError
    | Unparsable reason => Throw reason
    end.

(** The message of the provider in a body: the one of its [error], when it
    is there and is not empty. *)
Definition providerMessage (body : Response.Body) : option string :=
  match Response.error body with
  | Some info =>
      match Response.message info with
      | Some detail => if String.eqb detail "" then None else Some detail
      | None => None
      end
  | None => None
  end.

(** Lines 92-130: the body of the [try]. *)
Definition attempt (payload : Request.Payload) : JS GenerationResult :=
  response <- fetch apiUrlBase payload ;;
  settle (handleResponse response).

Definition maxRetries : nat := 5.

Definition exhausted : JSError :=
  Error "Max retries reached. Failed to generate content.".

(** Lines 90-142: the loop, from the value [retryCount] has at its head.
    [None] is the [undefined] a function returns when its body ends. *)
Equations? retryLoop (payload : Request.Payload) (retryCount : nat) (w : World)
    : Completion (option GenerationResult) * World
    by wf (maxRetries - retryCount) lt :=
  retryLoop payload retryCount w with lt_dec retryCount maxRetries := {
    | right _ => (Normal None, w)
    | left _ with attempt payload w := {
        | (Normal result, w1) => (Normal (Some result), w1)
        | (Throw error, w1) =>
            let w2 := emit (ConsoleError
                              ("Attempt " ++ Str.of_nat (retryCount + 1) ++ " failed:")
                              error) w1 in
            let retryCount' := S retryCount in
            if le_dec maxRetries retryCount' then (Throw exhausted, w2)
            else
              let delay := (2 ^ Z.of_nat retryCount' * 1000)%Z in
              retryLoop payload retryCount' (emit (Wait delay) w2)
      }
  }.
Proof.
  unfold maxRetries in *.
  do 5 (destruct retryCount as [|retryCount]; [lia|]).
  lia.
Qed.

Definition generateResponse (userQuery systemPrompt : string)
    (isGrounded isStructured : bool) : JS (option GenerationResult) :=
  let payload := buildPayload userQuery systemPrompt isGrounded isStructured in
  let retryCount := 0 in
  retryLoop payload retryCount.

(** ** The resolver and the handlers *)

Section Script.
Context {engine : Engine}.

(** Lines 55-66. *)
Definition setUILoading (isLoading : bool) : JS unit :=
  update on_generateButton (El.set_disabled isLoading) ;;
  if isLoading then
    update on_buttonText (El.set_textContent "Generating...") ;;
    update on_loadingIndicator El.classList_remove_hidden ;;
    update on_responseContainer
      (El.set_innerHTML
         (Str.dq "<div class='loading-spinner'></div> <span class='ml-2'>Thinking...</span>")) ;;
    update on_citationContainer El.classList_add_hidden
  else
    update on_buttonText (El.set_textContent "Generate Response") ;;
    update on_loadingIndicator El.classList_add_hidden.

(** [array.forEach((item, index) => f(item, index))], from [index] on. *)
Fixpoint forEach {A} (f : A -> nat -> JS unit) (array : list A) (index : nat)
    : JS unit :=
  match array with
  | [] => ret tt
  | item :: rest => f item index ;; forEach f rest (S index)
  end.

(** Lines 167-170: the four replacements, in the order of the source. *)
Definition markdownToHtml (text : string) : string :=
  let htmlText := Str.of_chars (Str.replace_bold false (Str.chars text)) in
  let htmlText := Str.replace_heading "### " "h3" htmlText in
  let htmlText := Str.replace_heading "## " "h2" htmlText in
  let htmlText := Str.replace_newlines "<br>" htmlText in
  htmlText.

(** Lines 157-159, up to the first effect: the value read from the
    parsed object, or [None] when [JSON.parse], the property access or
    the string conversion of the template of line 159 throws; the page
    and [currentResponse] are written once none of them has thrown.
    [JSON.stringify] of a parsed value does not throw and its result is
    not used. *)
Definition parsed_final_summary (text : string) : option JSValue :=
  match JSON_parse text with
  | Some jsonObject =>
      match GetV jsonObject "final_summary" with
      | Some final_summary =>
          if convertible final_summary then Some final_summary else None
      | None => None
      end
  | None => None
  end.

(** Line 159: the markup shown for the value of [final_summary]. *)
Definition summaryHtml (final_summary : JSValue) : string :=
  Str.dq "<pre class='code-block'>" ++ ToString final_summary ++ "</pre>".

(** Line 162: the error indicator, followed by the raw text. *)
Definition parseErrorHtml (text : string) : string :=
  Str.dq "<p class='text-red-600 font-bold'>Error parsing JSON output. Raw Text:</p><p class='whitespace-pre-wrap'>"
  ++ text ++ "</p>".

(** Lines 178-182: the link built for a source. *)
Definition citationLink (source : Source) (index : nat) : Anchor :=
  {| href := text_of (uri source);
     target := "_blank";
     className := "text-primary hover:underline block truncate";
     anchor_text := Str.of_nat (index + 1) ++ ". " ++ text_of (title source) |}.

(** Lines 145-186. *)
Definition displayResult (text : string) (sources : list Source)
    (isStructured : bool) : JS unit :=
  update on_citationsDiv (El.set_innerHTML "") ;;
  update on_citationContainer El.classList_add_hidden ;;
  update on_summaryContainer El.classList_add_hidden ;;
  update on_summarySection El.classList_remove_hidden ;;
  modify (set_currentResponse (JString text)) ;;
  (if isStructured then
     match parsed_final_summary text with
     | Some final_summary =>
         update on_responseContainer (El.set_innerHTML (summaryHtml final_summary)) ;;
         modify (set_currentResponse final_summary)
     | None =>
         update on_responseContainer (El.set_innerHTML (parseErrorHtml text))
     end
   else
     update on_responseContainer
       (El.set_innerHTML ("<p>" ++ markdownToHtml text ++ "</p>"))) ;;
  match sources with
  | [] => ret tt
  | _ :: _ =>
      update on_citationContainer El.classList_remove_hidden ;;
      forEach
        (fun source index =>
           update on_citationsDiv (El.appendChild (citationLink source index)))
        sources 0
  end.

(** [const { text, sources } = await call]: destructuring [undefined]
    throws. *)
Definition destructure (call : JS (option GenerationResult)) : JS GenerationResult :=
  r <- call ;;
  match r with
  | Some result => ret result
  | None => throw destructuring_undefined
  end.

(** Lines 189-215. *)
Definition handleFormSubmit : JS unit :=
  modify (emit PreventDefault) ;;
  userQuery <- gets (fun w => Str.trim (value (user_query (page w)))) ;;
  systemPrompt <- gets (fun w => Str.trim (value (system_instruction (page w)))) ;;
  isGrounded <- gets (fun w => checked (google_grounding (page w))) ;;
  isStructured <- gets (fun w => checked (structuredCheckbox (page w))) ;;
  if String.eqb userQuery "" then
    update on_responseContainer
      (El.set_innerHTML (Str.dq "<p class='text-red-500'>Please enter a user query.</p>"))
  else
    modify (set_currentSystemPrompt systemPrompt) ;;
    setUILoading true ;;
    try_finally
      (try_catch
         (result <- destructure
                      (generateResponse userQuery systemPrompt isGrounded isStructured) ;;
          displayResult (text result) (sources result) isStructured)
         (fun error =>
            console_error "Critical Generation Error:" error ;;
            update on_responseContainer
              (El.set_innerHTML
                 (Str.dq "<p class='text-red-500'>Generation failed: " ++ message error
                  ++ ". Check the console for details.</p>"))))
      (setUILoading false).

Definition summarySystemPrompt : string :=
  "You are a helpful assistant that creates concise, clear summaries.".

(** Line 226. *)
Definition summaryPromptFor (response : JSValue) : string :=
  "Please provide a concise summary (2-3 sentences) of the following text:"
  ++ Str.newline ++ Str.newline ++ ToString response.

(** Lines 218-245.  The value of [currentResponse] that line 226 converts
    is the empty string of line 19 or a value [displayResult] stored,
    whose conversion returns. *)
Definition handleSummarize : JS unit :=
  response <- gets currentResponse ;;
  if negb (ToBoolean response) then
    modify (emit (Alert "No response to summarize"))
  else
    let summaryPrompt := summaryPromptFor response in
    update on_summarize_button (El.set_disabled true) ;;
    update on_summary_loading El.classList_remove_hidden ;;
    try_finally
      (try_catch
         (result <- destructure
                      (generateResponse summaryPrompt summarySystemPrompt false false) ;;
          let summaryResult := text result in
          update on_summaryText
            (El.set_innerHTML (Str.replace_newlines "<br>" summaryResult)) ;;
          update on_summaryContainer El.classList_remove_hidden)
         (fun error =>
            console_error "Summary Generation Error:" error ;;
            update on_summaryText
              (El.set_innerHTML
                 (Str.dq "<p class='text-red-500'>Failed to generate summary: "
                  ++ message error ++ "</p>")) ;;
            update on_summaryContainer El.classList_remove_hidden))
      (update on_summarize_button (El.set_disabled false) ;;
       update on_summary_loading El.classList_add_hidden).

(** Lines 247-249. *)
Definition closeSummary : JS unit :=
  update on_summaryContainer El.classList_add_hidden.

(** Lines 34-42: the listener of the structured-output checkbox, run once
    the box has taken its new state. *)
Definition onStructuredChange : JS unit :=
  isChecked <- gets (fun w => checked (structuredCheckbox (page w))) ;;
  if isChecked then
    update on_jsonSchemaDisplay El.classList_remove_hidden ;;
    update on_google_grounding (El.set_checked false)
  else
    update on_jsonSchemaDisplay El.classList_add_hidden.

(** Lines 44-50: the listener of the grounding checkbox. *)
Definition onGroundingChange : JS unit :=
  isChecked <- gets (fun w => checked (google_grounding (page w))) ;;
  if isChecked then
    update on_structuredCheckbox (El.set_checked false) ;;
    update on_jsonSchemaDisplay El.classList_add_hidden
  else ret tt.

End Script.

(** The exception the body of the [try] ends in, on a given outcome of the
    network call; [None] when the attempt succeeds. *)
Definition failure (o : FetchOutcome) : option JSError :=
  match o with
  | Rejected reason => Some reason
  | Resolved response =>
      match handleResponse response with
      | Throw e => Some e
      | Normal _ => None
      end
  end.

(** Every network attempt fails. *)
Definition alwaysFails (net : nat -> Request.Payload -> FetchOutcome) : Prop :=
  forall n payload, failure (net n payload) <> None.

(** The effects of a failed attempt: the call, then the log entry. *)
Definition failedAttempt (payload : Request.Payload) (number : nat) (e : JSError)
    : list Event :=
  [Fetch apiUrlBase payload;
   ConsoleError ("Attempt " ++ Str.of_nat number ++ " failed:") e].

(** The world a failed attempt leaves: the call is counted and traced, the
    exception is logged under the attempt's number. *)
Definition afterFailure (payload : Request.Payload) (number : nat) (e : JSError)
    (w : World) : World :=
  emit (ConsoleError ("Attempt " ++ Str.of_nat number ++ " failed:") e)
    (count_fetch (emit (Fetch apiUrlBase payload) w)).

(** A terminal error wraps an underlying one when it carries it as its
    [cause]. *)
Definition wraps (terminal underlying : JSError) : Prop :=
  cause terminal = Some underlying.

(** The structured-output directive. *)
Definition structuredDirective : Request.GenerationConfig :=
  {| Request.responseMimeType := "application/json";
     Request.responseSchema := structuredSchema |}.

(** The sources in the words of the specification: every attribution is
    mapped to its pair, those missing [uri] or [title] are excluded, the
    others are kept in their order. *)
Definition claimedSources (attributions : list Response.Attribution) : list Source :=
  flat_map
    (fun attribution =>
       match Response.web attribution with
       | Some {| Response.uri := Some u; Response.title := Some t |} =>
           [ {| uri := Some u; title := Some t |} ]
       | _ => []
       end)
    attributions.

(** The same, an attribution being excluded also when its [uri] or its
    [title] is the empty string. *)
Definition keptSources (attributions : list Response.Attribution) : list Source :=
  flat_map
    (fun attribution =>
       match Response.web attribution with
       | Some {| Response.uri := Some u; Response.title := Some t |} =>
           if String.eqb u "" || String.eqb t "" then []
           else [ {| uri := Some u; title := Some t |} ]
       | _ => []
       end)
    attributions.

(** The children the loop of lines 177-184 appends, from [index] on. *)
Fixpoint appendLinks (sources : list Source) (index : nat) (e : Element) : Element :=
  match sources with
  | [] => e
  | source :: rest => appendLinks rest (S index) (El.appendChild (citationLink source index) e)
  end.

(** What [displayResult] leaves in [currentResponse]. *)
Definition storedResponse (text : string) (isStructured : bool) : JSValue :=
  if isStructured then
    match parsed_final_summary text with
    | Some final_summary => final_summary
    | None => JString text
    end
  else JString text.

(** The world in which [handleFormSubmit] calls [generateResponse], when
    the query is not empty: the event's default prevented (line 190), the
    trimmed instruction stored (line 202), the page set to loading
    (line 203). *)
Definition submitted (w : World) : World :=
  snd (setUILoading true
         (set_currentSystemPrompt (Str.trim (value (system_instruction (page w))))
            (emit PreventDefault w))).

Section Resolved.
Context {engine : Engine}.

(** What [displayResult] leaves in the response container. *)
Definition shownHtml (text : string) (isStructured : bool) : string :=
  if isStructured then
    match parsed_final_summary text with
    | Some final_summary => summaryHtml final_summary
    | None => parseErrorHtml text
    end
  else "<p>" ++ markdownToHtml text ++ "</p>".

(** The world [displayResult] leaves, field by field: the closed form
    that [displayResult_eq] proves of the code. *)
Definition resolved (text : string) (sources : list Source) (isStructured : bool)
    (w : World) : World :=
  {| currentResponse := storedResponse text isStructured;
     currentSystemPrompt := currentSystemPrompt w;
     page :=
       {| generateButton := generateButton (page w);
          buttonText := buttonText (page w);
          loadingIndicator := loadingIndicator (page w);
          responseContainer :=
            El.set_innerHTML (shownHtml text isStructured) (responseContainer (page w));
          citationContainer :=
            El.set_hidden (match sources with [] => true | _ :: _ => false end)
              (citationContainer (page w));
          citationsDiv :=
            appendLinks sources 0 (El.set_innerHTML "" (citationsDiv (page w)));
          structuredCheckbox := structuredCheckbox (page w);
          jsonSchemaDisplay := jsonSchemaDisplay (page w);
          summarySection := El.set_hidden false (summarySection (page w));
          summaryContainer := El.set_hidden true (summaryContainer (page w));
          summaryText := summaryText (page w);
          google_grounding := google_grounding (page w);
          user_query := user_query (page w);
          system_instruction := system_instruction (page w);
          summarize_button := summarize_button (page w);
          summary_loading := summary_loading (page w) |};
     network := network w;
     fetches := fetches w;
     trace := trace w |}.

End Resolved.

(** ** Sample sessions *)

(** An engine for the examples below: it renders a number by its lexeme, as
    every engine does for the short integer literals the examples hold. *)
Definition sampleEngine : Engine :=
  {| Number_toString := fun lexeme => lexeme;
     Number_isZero := fun lexeme => String.eqb lexeme "0";
     destructuring_undefined :=
       {| name := "TypeError"; message := "undefined is not an object"; cause := None |} |}.

Definition blank : Element :=
  {| innerHTML := ""; childNodes := []; textContent := ""; hidden := true;
     disabled := false; checked := false; value := "" |}.

Definition field (text : string) : Element :=
  {| innerHTML := ""; childNodes := []; textContent := ""; hidden := false;
     disabled := false; checked := false; value := text |}.

Definition checkbox (isChecked : bool) : Element :=
  {| innerHTML := ""; childNodes := []; textContent := ""; hidden := false;
     disabled := false; checked := isChecked; value := "on" |}.

(** The page with the form filled in. *)
Definition formPage (query instruction : string) (grounded structured : bool) : Page :=
  {| generateButton := blank; buttonText := blank; loadingIndicator := blank;
     responseContainer := blank; citationContainer := blank;
     citationsDiv := blank; structuredCheckbox := checkbox structured;
     jsonSchemaDisplay := blank; summarySection := blank;
     summaryContainer := blank; summaryText := blank;
     google_grounding := checkbox grounded; user_query := field query;
     system_instruction := field instruction; summarize_button := blank;
     summary_loading := blank |}.

(** The state the script starts in (lines 19-20), on a given page and
    network. *)
Definition freshWorld (p : Page) (net : nat -> Request.Payload -> FetchOutcome) : World :=
  {| currentResponse := JString ""; currentSystemPrompt := ""; page := p;
     network := net; fetches := 0; trace := [] |}.

Definition offlineError : JSError :=
  {| name := "TypeError"; message := "Failed to fetch"; cause := None |}.

(** A network that is down. *)
Definition offline : nat -> Request.Payload -> FetchOutcome :=
  fun _ _ => Rejected offlineError.

(** A provider that answers every call with status 503 and no JSON body. *)
Definition unavailable : nat -> Request.Payload -> FetchOutcome :=
  fun _ _ =>
    Resolved {| status := 503;
                json := Unparsable {| name := "SyntaxError"; message := "Unexpected end of JSON input";
                               cause := None |} |}.

Definition bodyOf (answer : string) (metadata : option Response.GroundingMetadata)
    : Response.Body :=
  {| Response.candidates :=
       Some [ {| Response.content :=
                   Some {| Response.parts := Some [ {| Response.text := Some answer |} ] |};
                 Response.groundingMetadata := metadata |} ];
     Response.error := None |}.

(** The body of a refusal that carries a message of the provider, and a
    response with status 429 that carries one. *)
Definition bodyOfError (detail : string) : Response.Body :=
  {| Response.candidates := None;
     Response.error := Some {| Response.message := Some detail |} |}.

Definition quotaExceeded : HttpResponse :=
  {| status := 429; json := Parsed (bodyOfError "Quota exceeded.") |}.

(** A provider that answers every call with status 200 and the given text
    and grounding metadata. *)
Definition answering (answer : string) (metadata : option Response.GroundingMetadata)
    : nat -> Request.Payload -> FetchOutcome :=
  fun _ _ => Resolved {| status := 200; json := Parsed (bodyOf answer metadata) |}.

Definition attributed (u t : option string) : Response.Attribution :=
  {| Response.web := Some {| Response.uri := u; Response.title := t |} |}.

(** The sessions of the examples: the form filled in, on a network that is
    down and on a provider that is unavailable. *)
Definition offlineWorld : World :=
  freshWorld (formPage "What is 2+2?" "Be brief." false false) offline.

Definition unavailableWorld : World :=
  freshWorld (formPage "What is 2+2?" "Be brief." false false) unavailable.

(** A grounded answer with two attributions, the second without title. *)
Definition twoAttributions : list Response.Attribution :=
  [attributed (Some "https://example.org/a") (Some "A");
   attributed (Some "https://example.org/b") None].

Definition groundedWorld : World :=
  freshWorld (formPage "What is 2+2?" "Be brief." true false)
    (answering "4."
       (Some {| Response.groundingAttributions := Some twoAttributions |})).

(** A grounded answer whose only attribution has an empty [uri]. *)
Definition emptyUri : list Response.Attribution :=
  [attributed (Some "") (Some "T")].

Definition emptyUriWorld : World :=
  freshWorld (formPage "What is 2+2?" "Be brief." true false)
    (answering "4." (Some {| Response.groundingAttributions := Some emptyUri |})).

(** A structured answer that follows the schema. *)
Definition structuredAnswer : string :=
  Str.dq "{'reasoning_steps':['a','b'],'final_summary':'Answer: 4','confidence_score':95}".

(** An answer whose [final_summary] is an object with a member named
    [toString]. *)
Definition shadowedAnswer : string :=
  Str.dq "{'final_summary':{'toString':1}}".

(** ** Observations on a trace *)

(** The network calls of a list of effects, in order. *)
Definition requestsOf (events : list Event) : list (string * Request.Payload) :=
  flat_map (fun ev => match ev with
                      | Fetch url payload => [(url, payload)]
                      | _ => []
                      end) events.

(** The waits of a list of effects, in order. *)
Definition waitsOf (events : list Event) : list Z :=
  flat_map (fun ev => match ev with
                      | Wait delay => [delay]
                      | _ => []
                      end) events.

(** Line 139: the wait that follows the failure that brings the counter to
    [retryCount]. *)
Definition backoffDelay (retryCount : nat) : Z :=
  (2 ^ Z.of_nat retryCount * 1000)%Z.

(** Line 60: the markup shown while a generation is in flight. *)
Definition loadingHtml : string :=
  Str.dq "<div class='loading-spinner'></div> <span class='ml-2'>Thinking...</span>".

(** A network that is down for the first [failures] calls of the session
    and answers the later ones. *)
Definition flaky (failures : nat) (answer : string)
    (metadata : option Response.GroundingMetadata)
    : nat -> Request.Payload -> FetchOutcome :=
  fun n _ =>
    if (n <? failures)%nat then Rejected offlineError
    else Resolved {| status := 200; json := Parsed (bodyOf answer metadata) |}.

(** The sessions of the examples on such a network. *)
Definition flakyWorld : World :=
  freshWorld (formPage "What is 2+2?" "Be brief." false false) (flaky 2 "4." None).

(** The links of lines 177-184 for a list of sources, numbered from
    [index]. *)
Fixpoint linksFrom (sources : list Source) (index : nat) : list Anchor :=
  match sources with
  | [] => []
  | source :: rest => citationLink source index :: linksFrom rest (S index)
  end.

(** The form with a query of blanks only. *)
Definition blankQueryWorld : World :=
  freshWorld (formPage "   " "Be brief." false false) offline.

(** A provider that answers at once. *)
Definition answeringWorld : World :=
  freshWorld (formPage "What is 2+2?" "Be brief." false false) (answering "4." None).

(** Sessions in which a response is there to summarize. *)
Definition answeredOffline : World :=
  set_currentResponse (JString "Answer: 4") offlineWorld.

Definition answeredOnline : World :=
  set_currentResponse (JString "Answer: 4")
    (freshWorld (formPage "What is 2+2?" "Be brief." false false)
       (answering "Four." None)).

(** The request of the summarize action for a given response. *)
Definition summaryPayload {engine : Engine} (response : JSValue) : Request.Payload :=
  {| Request.contents :=
       [ {| Request.parts := [ {| Request.text := summaryPromptFor response |} ] |} ];
     Request.systemInstruction :=
       {| Request.parts := [ {| Request.text := summarySystemPrompt |} ] |};
     Request.tools := None;
     Request.generationConfig := None |}.

(** A page on which both boxes are checked, once the listener of the
    structured-output box has run. *)
Definition afterStructuredListener : World :=
  snd (onStructuredChange
         (freshWorld (formPage "What is 2+2?" "Be brief." true true) offline)).

(** ** Texts without markup *)

(** A text is unmarked when it holds none of the characters the
    replacements of lines 167-170 look for: the star, the hash and the line
    feed. *)
Definition unmarkedChar (c : ascii) : bool :=
  negb ((Str.code c =? 42) || (Str.code c =? 35) || (Str.code c =? 10))%N.

Definition unmarked (s : string) : bool := forallb unmarkedChar (Str.chars s).

(** It is inline when, besides, no line terminator starts at any of its
    positions: it holds no carriage return, no line separator and no
    paragraph separator, the line feed being excluded already.  A dot of a
    regular expression matches each of its characters. *)
Fixpoint inlineChars (cs : list ascii) : bool :=
  match cs with
  | [] => true
  | c :: rest => unmarkedChar c && negb (Str.terminator_at cs) && inlineChars rest
  end.

Definition inline (s : string) : bool := inlineChars (Str.chars s).

(** A title in which the byte 226 starts a character that is no line
    terminator: an em dash, U+2014. *)
Definition dashedTitle : string :=
  "2 + 2 " ++ String (ascii_of_N 226) (String (ascii_of_N 128) (String (ascii_of_N 148) " 4")).

Definition lineFeed : ascii := ascii_of_N 10.

(** A provider that answers a structured request as the schema asks. *)
Definition structuredWorld : World :=
  freshWorld (formPage "What is 2+2?" "Be brief." false true)
    (answering structuredAnswer None).

(** A provider that answers a structured request with an empty object. *)
Definition schemaLessWorld : World :=
  freshWorld (formPage "What is 2+2?" "Be brief." false true) (answering "{}" None).

(** ** The parser does not run out of fuel *)

Module ParserFacts.
Import Str JSONParser.
Local Open Scope list_scope.

Lemma skip_ws_length cs : length (skip_ws cs) <= length cs.
Proof.
  induction cs as [|c cs IH]; simpl; [lia|].
  destruct (is_ws c); simpl; lia.
Qed.

Lemma take_digits_length cs : forall ds rest,
  take_digits cs = (ds, rest) -> length rest <= length cs.
Proof.
  induction cs as [|c cs IH]; simpl; intros ds rest H.
  - injection H as <- <-. simpl. lia.
  - destruct (is_digit c).
    + destruct (take_digits cs) as [ds' r] eqn:E.
      injection H as <- <-. specialize (IH _ _ eq_refl). lia.
    + injection H as <- <-. simpl. lia.
Qed.

Lemma prepend_some pre r s rest :
  prepend pre r = Some (s, rest) -> exists s', r = Some (s', rest).
Proof.
  unfold prepend. destruct r as [[s' rest']|]; [|discriminate].
  intros [= <- <-]. eauto.
Qed.

Lemma parse_chars_length n : forall cs s rest,
  length cs <= n -> parse_chars cs = Some (s, rest) -> length rest < length cs.
Proof.
  induction n as [|n IH]; intros cs s rest Hn H.
  - destruct cs; [discriminate|simpl in Hn; lia].
  - destruct cs as [|c cs]; [discriminate|].
    simpl in H. simpl in Hn.
    destruct (code c =? 34)%N.
    { injection H as <- <-. simpl. lia. }
    destruct (code c =? 92)%N.
    + destruct cs as [|e cs]; [discriminate|].
      destruct (code e =? 117)%N.
      * destruct cs as [|h1 [|h2 [|h3 [|h4 cs]]]]; try discriminate.
        destruct (hex4 h1 h2 h3 h4); [|discriminate].
        apply prepend_some in H. destruct H as [s' H].
        apply IH in H; simpl in *; lia.
      * destruct (unescape e); [|discriminate].
        apply prepend_some in H. destruct H as [s' H].
        apply IH in H; simpl in *; lia.
    + destruct (code c <? 32)%N; [discriminate|].
      apply prepend_some in H. destruct H as [s' H].
      apply IH in H; simpl in *; lia.
Qed.

Lemma starts_with_length prefix cs :
  starts_with prefix cs = true -> length prefix <= length cs.
Proof.
  unfold starts_with.
  destruct (list_eq_dec ascii_dec (firstn (length prefix) cs) prefix) as [E|_];
    [|discriminate].
  intros _. apply (f_equal (@length ascii)) in E.
  rewrite length_firstn in E. lia.
Qed.

Lemma parse_number_length cs n rest :
  parse_number cs = Some (n, rest) -> length rest < length cs.
Proof.
  unfold parse_number.
  destruct (match cs with
            | [] => ([], [])
            | c :: rest0 => if (code c =? 45)%N then ([c], rest0) else ([], cs)
            end) as [sign cs1] eqn:Hsign.
  assert (length cs1 <= length cs) as H1.
  { destruct cs as [|c cs0]; [injection Hsign as <- <-; simpl; lia|].
    destruct (code c =? 45)%N; injection Hsign as <- <-; simpl; lia. }
  destruct (parse_int cs1) as [[i cs2]|] eqn:Hint; [|discriminate].
  assert (length cs2 < length cs1) as H2.
  { unfold parse_int in Hint. destruct cs1 as [|c cs0]; [discriminate|].
    destruct (code c =? 48)%N; [injection Hint as <- <-; simpl; lia|].
    destruct (is_digit c); [|discriminate].
    destruct (take_digits cs0) as [ds r] eqn:E. injection Hint as <- <-.
    apply take_digits_length in E. simpl. lia. }
  destruct (parse_frac cs2) as [[f cs3]|] eqn:Hfrac; [|discriminate].
  assert (length cs3 <= length cs2) as H3.
  { unfold parse_frac in Hfrac. destruct cs2 as [|c cs0];
      [injection Hfrac as <- <-; simpl; lia|].
    destruct (code c =? 46)%N; [|injection Hfrac as <- <-; simpl; lia].
    destruct (take_digits cs0) as [ds r] eqn:E.
    apply take_digits_length in E.
    destruct ds; [discriminate|]. injection Hfrac as <- <-. simpl. lia. }
  destruct (parse_exp cs3) as [[e cs4]|] eqn:Hexp; [|discriminate].
  assert (length cs4 <= length cs3) as H4.
  { unfold parse_exp in Hexp. destruct cs3 as [|c cs0];
      [injection Hexp as <- <-; simpl; lia|].
    destruct ((code c =? 101)%N || (code c =? 69)%N);
      [|injection Hexp as <- <-; simpl; lia].
    destruct (match cs0 with
              | [] => ([], [])
              | s :: r => if (code s =? 43)%N || (code s =? 45)%N
                          then ([s], r) else ([], cs0)
              end) as [sg rest'] eqn:Hsg.
    assert (length rest' <= length cs0).
    { destruct cs0 as [|s r]; [injection Hsg as <- <-; simpl; lia|].
      destruct ((code s =? 43)%N || (code s =? 45)%N);
        injection Hsg as <- <-; simpl; lia. }
    destruct (take_digits rest') as [ds r] eqn:E.
    apply take_digits_length in E.
    destruct ds; [discriminate|]. injection Hexp as <- <-. simpl. lia. }
  intros [= <- <-]. lia.
Qed.

Lemma parse_literal_length cs v rest :
  parse_literal cs = Some (v, rest) -> length rest < length cs.
Proof.
  unfold parse_literal.
  destruct (starts_with (chars "null") cs) eqn:E1.
  { apply starts_with_length in E1. simpl in E1.
    intros H. assert (rest = skipn 4 cs) as -> by congruence.
    rewrite length_skipn. lia. }
  destruct (starts_with (chars "true") cs) eqn:E2.
  { apply starts_with_length in E2. simpl in E2.
    intros H. assert (rest = skipn 4 cs) as -> by congruence.
    rewrite length_skipn. lia. }
  destruct (starts_with (chars "false") cs) eqn:E3.
  { apply starts_with_length in E3. simpl in E3.
    intros H. assert (rest = skipn 5 cs) as -> by congruence.
    rewrite length_skipn. lia. }
  destruct (parse_number cs) as [[n r]|] eqn:E; [|discriminate].
  intros [= <- <-]. apply parse_number_length in E. exact E.
Qed.

(** A value, a list of elements and a list of members each consume at
    least one character. *)
Lemma parse_length fuel :
  (forall cs v rest, parse_value fuel cs = Some (v, rest) -> length rest < length cs) /\
  (forall cs vs rest, parse_elements fuel cs = Some (vs, rest) -> length rest < length cs) /\
  (forall cs ms rest, parse_members fuel cs = Some (ms, rest) -> length rest < length cs).
Proof.
  induction fuel as [|fuel (IHv & IHe & IHm)];
    [repeat split; intros; discriminate|].
  repeat split.
  - intros cs v rest. simpl.
    destruct cs as [|c cs]; [discriminate|].
    destruct (code c =? 34)%N.
    { destruct (parse_chars cs) as [[s r]|] eqn:E; [|discriminate].
      intros [= <- <-]. apply (@parse_chars_length (length cs)) in E; simpl; lia. }
    destruct (code c =? 91)%N.
    { pose proof (skip_ws_length cs) as Hws.
      destruct (skip_ws cs) as [|d rest'] eqn:E; [discriminate|].
      destruct (code d =? 93)%N; [intros [= <- <-]; simpl in *; lia|].
      destruct (parse_elements fuel (d :: rest')) as [[vs r]|] eqn:E'; [|discriminate].
      intros [= <- <-]. apply IHe in E'. simpl in *. lia. }
    destruct (code c =? 123)%N.
    { pose proof (skip_ws_length cs) as Hws.
      destruct (skip_ws cs) as [|d rest'] eqn:E; [discriminate|].
      destruct (code d =? 125)%N; [intros [= <- <-]; simpl in *; lia|].
      destruct (parse_members fuel (d :: rest')) as [[ms r]|] eqn:E'; [|discriminate].
      intros [= <- <-]. apply IHm in E'. simpl in *. lia. }
    apply parse_literal_length.
  - intros cs vs rest. simpl.
    destruct (parse_value fuel cs) as [[v r]|] eqn:E; [|discriminate].
    apply IHv in E.
    pose proof (skip_ws_length r) as Hws.
    destruct (skip_ws r) as [|d rest'] eqn:E1; [discriminate|].
    destruct (code d =? 44)%N.
    { pose proof (skip_ws_length rest') as Hws'.
      destruct (parse_elements fuel (skip_ws rest')) as [[vs' r']|] eqn:E2; [|discriminate].
      intros [= <- <-]. apply IHe in E2. simpl in *. lia. }
    destruct (code d =? 93)%N; [|discriminate].
    intros [= <- <-]. simpl in *. lia.
  - intros cs ms rest. simpl.
    destruct cs as [|q cs]; [discriminate|].
    destruct (code q =? 34)%N; [|discriminate].
    destruct (parse_chars cs) as [[k rest1]|] eqn:E; [|discriminate].
    apply (@parse_chars_length (length cs)) in E; [|lia].
    pose proof (skip_ws_length rest1) as Hws1.
    destruct (skip_ws rest1) as [|colon rest2] eqn:E1; [discriminate|].
    destruct (code colon =? 58)%N; [|discriminate].
    pose proof (skip_ws_length rest2) as Hws2.
    destruct (parse_value fuel (skip_ws rest2)) as [[v rest3]|] eqn:E2; [|discriminate].
    apply IHv in E2.
    pose proof (skip_ws_length rest3) as Hws3.
    destruct (skip_ws rest3) as [|d rest4] eqn:E3; [discriminate|].
    destruct (code d =? 44)%N.
    { pose proof (skip_ws_length rest4) as Hws4.
      destruct (parse_members fuel (skip_ws rest4)) as [[ms' r']|] eqn:E4; [|discriminate].
      intros [= <- <-]. apply IHm in E4. simpl in *. lia. }
    destruct (code d =? 125)%N; [|discriminate].
    intros [= <- <-]. simpl in *. lia.
Qed.

(** One step of each of the three functions. *)
Lemma parse_value_S fuel cs :
  parse_value (S fuel) cs =
  (match cs with
   | [] => None
   | c :: rest =>
       if (code c =? 34)%N then
         match parse_chars rest with
         | Some (s, r) => Some (JString (of_chars s), r)
         | None => None
         end
       else if (code c =? 91)%N then
         match skip_ws rest with
         | [] => None
         | d :: rest' =>
             if (code d =? 93)%N then Some (JArray [], rest')
             else
               match parse_elements fuel (d :: rest') with
               | Some (vs, r) => Some (JArray vs, r)
               | None => None
               end
         end
       else if (code c =? 123)%N then
         match skip_ws rest with
         | [] => None
         | d :: rest' =>
             if (code d =? 125)%N then Some (JObject [], rest')
             else
               match parse_members fuel (d :: rest') with
               | Some (ms, r) => Some (JObject ms, r)
               | None => None
               end
         end
       else parse_literal cs
   end).
Proof. reflexivity. Qed.

Lemma parse_elements_S fuel cs :
  parse_elements (S fuel) cs =
  (match parse_value fuel cs with
   | None => None
   | Some (v, rest) =>
       match skip_ws rest with
       | [] => None
       | d :: rest' =>
           if (code d =? 44)%N then
             match parse_elements fuel (skip_ws rest') with
             | Some (vs, r) => Some (v :: vs, r)
             | None => None
             end
           else if (code d =? 93)%N then Some ([v], rest')
           else None
       end
   end).
Proof. reflexivity. Qed.

Lemma parse_members_S fuel cs :
  parse_members (S fuel) cs =
  (match cs with
   | [] => None
   | q :: rest =>
       if (code q =? 34)%N then
         match parse_chars rest with
         | None => None
         | Some (k, rest1) =>
             match skip_ws rest1 with
             | [] => None
             | colon :: rest2 =>
                 if (code colon =? 58)%N then
                   match parse_value fuel (skip_ws rest2) with
                   | None => None
                   | Some (v, rest3) =>
                       match skip_ws rest3 with
                       | [] => None
                       | d :: rest4 =>
                           if (code d =? 44)%N then
                             match parse_members fuel (skip_ws rest4) with
                             | Some (ms, r) => Some ((of_chars k, v) :: ms, r)
                             | None => None
                             end
                           else if (code d =? 125)%N
                           then Some ([(of_chars k, v)], rest4)
                           else None
                       end
                   end
                 else None
             end
         end
       else None
   end).
Proof. reflexivity. Qed.

(** Past twice the length of the input, more fuel changes nothing. *)
Lemma parse_stable fuel :
  (forall cs, 2 * length cs + 1 <= fuel ->
     parse_value (S fuel) cs = parse_value fuel cs) /\
  (forall cs, 2 * length cs + 2 <= fuel ->
     parse_elements (S fuel) cs = parse_elements fuel cs) /\
  (forall cs, 2 * length cs + 2 <= fuel ->
     parse_members (S fuel) cs = parse_members fuel cs).
Proof.
  induction fuel as [|fuel (IHv & IHe & IHm)];
    [repeat split; intros cs H; lia|].
  destruct (parse_length fuel) as (Lv & Le & Lm).
  repeat split.
  - intros cs Hlen.
    rewrite (parse_value_S (S fuel)), (parse_value_S fuel).
    destruct cs as [|c cs]; [reflexivity|].
    destruct (code c =? 34)%N; [reflexivity|].
    pose proof (skip_ws_length cs) as Hws.
    destruct (code c =? 91)%N.
    { destruct (skip_ws cs) as [|d rest']; [reflexivity|].
      destruct (code d =? 93)%N; [reflexivity|].
      rewrite IHe; [reflexivity|simpl in *; lia]. }
    destruct (code c =? 123)%N; [|reflexivity].
    destruct (skip_ws cs) as [|d rest']; [reflexivity|].
    destruct (code d =? 125)%N; [reflexivity|].
    rewrite IHm; [reflexivity|simpl in *; lia].
  - intros cs Hlen.
    rewrite (parse_elements_S (S fuel)), (parse_elements_S fuel).
    rewrite IHv by lia.
    destruct (parse_value fuel cs) as [[v rest]|] eqn:E; [|reflexivity].
    apply Lv in E.
    pose proof (skip_ws_length rest) as Hws.
    destruct (skip_ws rest) as [|d rest']; [reflexivity|].
    destruct (code d =? 44)%N; [|reflexivity].
    pose proof (skip_ws_length rest') as Hws'.
    rewrite IHe; [reflexivity|simpl in *; lia].
  - intros cs Hlen.
    rewrite (parse_members_S (S fuel)), (parse_members_S fuel).
    destruct cs as [|q cs]; [reflexivity|].
    destruct (code q =? 34)%N; [|reflexivity].
    destruct (parse_chars cs) as [[k rest1]|] eqn:E; [|reflexivity].
    apply (@parse_chars_length (length cs)) in E; [|lia].
    pose proof (skip_ws_length rest1) as Hws1.
    destruct (skip_ws rest1) as [|colon rest2]; [reflexivity|].
    destruct (code colon =? 58)%N; [|reflexivity].
    pose proof (skip_ws_length rest2) as Hws2.
    rewrite IHv by (simpl in *; lia).
    destruct (parse_value fuel (skip_ws rest2)) as [[v rest3]|] eqn:E2; [|reflexivity].
    apply Lv in E2.
    pose proof (skip_ws_length rest3) as Hws3.
    destruct (skip_ws rest3) as [|d rest4]; [reflexivity|].
    destruct (code d =? 44)%N; [|reflexivity].
    pose proof (skip_ws_length rest4) as Hws4.
    rewrite IHm; [reflexivity|simpl in *; lia].
Qed.

(** The fuel [JSON_parse] gives is enough: with any more of it the parser
    returns the same result. *)
Lemma parse_value_enough_fuel cs extra :
  parse_value (fuel_for cs + extra) cs = parse_value (fuel_for cs) cs.
Proof.
  induction extra as [|extra IH]; [rewrite Nat.add_0_r; reflexivity|].
  rewrite Nat.add_succ_r.
  destruct (parse_stable (fuel_for cs + extra)) as (Hv & _ & _).
  rewrite Hv; [exact IH|unfold fuel_for; lia].
Qed.

End ParserFacts.

(** ** Properties of the retry loop *)

Lemma attempt_eq payload w :
  attempt payload w =
    (match network w (fetches w) payload with
     | Rejected reason => Throw reason
     | Resolved response => handleResponse response
     end,
     count_fetch (emit (Fetch apiUrlBase payload) w)).
Proof.
  unfold attempt, bind, fetch, settle.
  destruct (network w (fetches w) payload); reflexivity.
Qed.

Lemma retryLoop_eq payload retryCount w :
  retryLoop payload retryCount w =
    if lt_dec retryCount maxRetries then
      match attempt payload w with
      | (Normal result, w1) => (Normal (Some result), w1)
      | (Throw error, w1) =>
          let w2 := emit (ConsoleError
                            ("Attempt " ++ Str.of_nat (retryCount + 1) ++ " failed:")
                            error) w1 in
          if le_dec maxRetries (S retryCount) then (Throw exhausted, w2)
          else retryLoop payload (S retryCount)
                 (emit (Wait (2 ^ Z.of_nat (S retryCount) * 1000)) w2)
      end
    else (Normal None, w).
Proof.
  funelim (retryLoop payload retryCount w).
  - rewrite Heq. reflexivity.
  - rewrite Heq0, Heq. reflexivity.
  - rewrite Heq0, Heq. reflexivity.
Qed.

Lemma retryLoop_failed payload retryCount w e :
  retryCount < maxRetries ->
  failure (network w (fetches w) payload) = Some e ->
  retryLoop payload retryCount w =
    let w2 := emit (ConsoleError
                      ("Attempt " ++ Str.of_nat (retryCount + 1) ++ " failed:") e)
                (count_fetch (emit (Fetch apiUrlBase payload) w)) in
    if le_dec maxRetries (S retryCount) then (Throw exhausted, w2)
    else retryLoop payload (S retryCount)
           (emit (Wait (2 ^ Z.of_nat (S retryCount) * 1000)) w2).
Proof.
  intros Hlt Hfail.
  rewrite retryLoop_eq at 1.
  destruct (lt_dec retryCount maxRetries) as [_|Hge]; [|contradiction].
  rewrite attempt_eq.
  unfold failure in Hfail.
  destruct (network w (fetches w) payload) as [reason|response].
  - injection Hfail as ->. reflexivity.
  - destruct (handleResponse response); [discriminate|].
    injection Hfail as ->. reflexivity.
Qed.

(** The loop touches neither the variables of the module nor the page. *)
Lemma retryLoop_frame k : forall payload retryCount w,
  maxRetries - retryCount = k ->
  let w' := snd (retryLoop payload retryCount w) in
  currentResponse w' = currentResponse w /\
  currentSystemPrompt w' = currentSystemPrompt w /\
  page w' = page w /\
  network w' = network w.
Proof.
  induction k as [|k IH]; intros payload retryCount w Hk; cbv zeta;
    rewrite retryLoop_eq;
    (destruct (lt_dec retryCount maxRetries) as [Hlt|Hge]; [|simpl; auto]).
  - lia.
  - rewrite attempt_eq.
    destruct (match network w (fetches w) payload with
              | Rejected reason => Throw reason
              | Resolved response => handleResponse response
              end) as [result|error]; [simpl; auto|].
    cbv zeta.
    destruct (le_dec maxRetries (S retryCount)) as [Hle|Hgt]; [simpl; auto|].
    destruct (IH payload (S retryCount)
                (emit (Wait (2 ^ Z.of_nat (S retryCount) * 1000))
                   (emit (ConsoleError
                            ("Attempt " ++ Str.of_nat (retryCount + 1) ++ " failed:")
                            error)
                      (count_fetch (emit (Fetch apiUrlBase payload) w)))))
      as (H1 & H2 & H3 & H4); [lia|].
    rewrite H1, H2, H3, H4. simpl. auto.
Qed.

(** A successful run returns what [extractResult] makes of the body of the
    response to its last call, the first one the loop accepted: every call
    before it failed. *)
Lemma retryLoop_success k : forall payload retryCount w result w',
  maxRetries - retryCount = k ->
  retryLoop payload retryCount w = (Normal (Some result), w') ->
  exists n response body,
    fetches w <= n /\
    fetches w' = S n /\
    (forall i, fetches w <= i < n -> failure (network w i payload) <> None) /\
    network w n payload = Resolved response /\
    ok response = true /\
    json response = Parsed body /\
    extractResult body = Normal result.
Proof.
  induction k as [|k IH]; intros payload retryCount w result w' Hk;
    rewrite retryLoop_eq;
    (destruct (lt_dec retryCount maxRetries) as [Hlt|Hge]; [|discriminate]).
  - lia.
  - rewrite attempt_eq.
    destruct (match network w (fetches w) payload with
              | Rejected reason => Throw reason
              | Resolved response => handleResponse response
              end) as [r|e] eqn:Hattempt.
    + intros [= -> <-].
      destruct (network w (fetches w) payload) as [reason|response] eqn:Hnet;
        [discriminate|].
      unfold handleResponse in Hattempt.
      destruct (ok response) eqn:Hok; cbn [negb] in Hattempt.
      * destruct (json response) as [reason|typeError|body] eqn:Hjson;
          try discriminate.
        exists (fetches w), response, body. cbn [fetches count_fetch emit].
        repeat split; auto. intros i Hi. lia.
      * destruct (json response); discriminate.
    + cbv zeta.
      destruct (le_dec maxRetries (S retryCount)) as [Hle|Hgt]; [discriminate|].
      intros Hrec. apply IH in Hrec; [|lia].
      destruct Hrec as (n & response & body & Hn & Hlast & Hbefore & Hres & Hrest).
      cbn [fetches network count_fetch emit] in Hn, Hbefore, Hres.
      exists n, response, body.
      split; [lia|]. split; [exact Hlast|].
      split; [|split; [exact Hres|exact Hrest]].
      intros i Hi.
      destruct (Nat.eq_dec i (fetches w)) as [->|Hne]; [|apply Hbefore; lia].
      unfold failure.
      destruct (network w (fetches w) payload) as [reason|response'];
        [discriminate|].
      rewrite Hattempt. discriminate.
Qed.

(** The loop, entered below the limit, ends in a [return] or a [throw]:
    the function never returns [undefined]. *)
Lemma retryLoop_defined k : forall payload retryCount w,
  maxRetries - retryCount = k ->
  retryCount < maxRetries ->
  fst (retryLoop payload retryCount w) <> Normal None.
Proof.
  induction k as [|k IH]; intros payload retryCount w Hk Hlt; [lia|].
  rewrite retryLoop_eq.
  destruct (lt_dec retryCount maxRetries) as [_|Hge]; [|contradiction].
  destruct (attempt payload w) as [[result|error] w1]; [discriminate|].
  cbv zeta.
  destruct (le_dec maxRetries (S retryCount)) as [Hle|Hgt]; [discriminate|].
  apply IH; lia.
Qed.

Lemma alwaysFails_at net n payload :
  alwaysFails net -> exists e, failure (net n payload) = Some e.
Proof.
  intros H. specialize (H n payload).
  destruct (failure (net n payload)) as [e|]; [eauto|contradiction].
Qed.

(** On a network that always fails the loop runs five attempts, with the
    four waits between them, and throws. *)
Lemma retryLoop_exhausts payload w :
  alwaysFails (network w) ->
  exists e1 e2 e3 e4 e5,
    failure (network w (fetches w) payload) = Some e1 /\
    failure (network w (1 + fetches w) payload) = Some e2 /\
    failure (network w (2 + fetches w) payload) = Some e3 /\
    failure (network w (3 + fetches w) payload) = Some e4 /\
    failure (network w (4 + fetches w) payload) = Some e5 /\
    retryLoop payload 0 w =
      (Throw exhausted,
       afterFailure payload 5 e5 (emit (Wait 16000)
         (afterFailure payload 4 e4 (emit (Wait 8000)
           (afterFailure payload 3 e3 (emit (Wait 4000)
             (afterFailure payload 2 e2 (emit (Wait 2000)
               (afterFailure payload 1 e1 w))))))))).
Proof.
  intros Hfail.
  destruct (alwaysFails_at (fetches w) payload Hfail) as [e1 H1].
  destruct (alwaysFails_at (1 + fetches w) payload Hfail) as [e2 H2].
  destruct (alwaysFails_at (2 + fetches w) payload Hfail) as [e3 H3].
  destruct (alwaysFails_at (3 + fetches w) payload Hfail) as [e4 H4].
  destruct (alwaysFails_at (4 + fetches w) payload Hfail) as [e5 H5].
  exists e1, e2, e3, e4, e5.
  repeat (split; [assumption|]).
  rewrite (@retryLoop_failed payload 0 w e1); [|unfold maxRetries; lia|exact H1].
  cbv zeta. destruct (le_dec maxRetries 1) as [Hle|_]; [unfold maxRetries in Hle; lia|].
  rewrite (@retryLoop_failed payload 1 _ e2); [|unfold maxRetries; lia|exact H2].
  cbv zeta. destruct (le_dec maxRetries 2) as [Hle|_]; [unfold maxRetries in Hle; lia|].
  rewrite (@retryLoop_failed payload 2 _ e3); [|unfold maxRetries; lia|exact H3].
  cbv zeta. destruct (le_dec maxRetries 3) as [Hle|_]; [unfold maxRetries in Hle; lia|].
  rewrite (@retryLoop_failed payload 3 _ e4); [|unfold maxRetries; lia|exact H4].
  cbv zeta. destruct (le_dec maxRetries 4) as [Hle|_]; [unfold maxRetries in Hle; lia|].
  rewrite (@retryLoop_failed payload 4 _ e5); [|unfold maxRetries; lia|exact H5].
  cbv zeta. destruct (le_dec maxRetries 5) as [_|Hgt]; [|unfold maxRetries in Hgt; lia].
  reflexivity.
Qed.

(** Whatever the loop does, it only adds to the trace. *)
Lemma retryLoop_trace k : forall payload retryCount w,
  maxRetries - retryCount = k ->
  exists events, trace (snd (retryLoop payload retryCount w)) = (trace w ++ events)%list.
Proof.
  induction k as [|k IH]; intros payload retryCount w Hk;
    rewrite retryLoop_eq;
    (destruct (lt_dec retryCount maxRetries) as [Hlt|Hge];
     [|exists []; simpl; rewrite app_nil_r; reflexivity]).
  - lia.
  - rewrite attempt_eq.
    destruct (match network w (fetches w) payload with
              | Rejected reason => Throw reason
              | Resolved response => handleResponse response
              end) as [result|error].
    + eexists. reflexivity.
    + cbv zeta.
      destruct (le_dec maxRetries (S retryCount)) as [Hle|Hgt].
      * eexists. simpl. rewrite <- app_assoc. reflexivity.
      * edestruct (IH payload (S retryCount)) as [events ->]; [lia|].
        eexists. simpl. rewrite <- !app_assoc. reflexivity.
Qed.

(** The first effect of [generateResponse] is the call that carries the
    payload it built. *)
Lemma generateResponse_first_call userQuery systemPrompt isGrounded isStructured w :
  exists rest,
    trace (snd (generateResponse userQuery systemPrompt isGrounded isStructured w)) =
      (trace w
       ++ Fetch apiUrlBase (buildPayload userQuery systemPrompt isGrounded isStructured)
       :: rest)%list.
Proof.
  unfold generateResponse. cbv zeta.
  set (payload := buildPayload userQuery systemPrompt isGrounded isStructured).
  rewrite retryLoop_eq.
  destruct (lt_dec 0 maxRetries) as [_|Hge]; [|unfold maxRetries in Hge; lia].
  rewrite attempt_eq.
  destruct (match network w (fetches w) payload with
            | Rejected reason => Throw reason
            | Resolved response => handleResponse response
            end) as [result|error].
  - exists []. reflexivity.
  - cbv zeta.
    destruct (le_dec maxRetries 1) as [Hle|_]; [unfold maxRetries in Hle; lia|].
    edestruct (@retryLoop_trace 4 payload 1) as [events ->]; [reflexivity|].
    eexists. simpl. rewrite <- !app_assoc. reflexivity.
Qed.

(** ** The payload *)

(** C1.  The claim: with both [groundingEnabled] and
    [structuredOutputEnabled] true, the payload that [generateResponse]
    builds holds the structured-output directive and does not hold the
    web-search tool.  The code attaches both: the request it sends holds the
    directive and the tool, although the comment of line 84 says that
    structured generation overrides search grounding. *)
Theorem generateResponse_sends_tool_with_schema userQuery systemPrompt w :
  exists payload rest,
    trace (snd (generateResponse userQuery systemPrompt true true w)) =
      (trace w ++ Fetch apiUrlBase payload :: rest)%list /\
    payload = buildPayload userQuery systemPrompt true true /\
    Request.generationConfig payload = Some structuredDirective /\
    Request.tools payload = Some [Request.google_search].
Proof.
  destruct (generateResponse_first_call userQuery systemPrompt true true w) as [rest H].
  exists (buildPayload userQuery systemPrompt true true), rest.
  repeat split; assumption.
Qed.

(** ** Retries *)

(** C2.  If every network attempt fails, [generateResponse] makes exactly
    five attempts, waits 2000, 4000, 8000 and 16000 ms before the attempts
    2 to 5, and then throws the terminal error: there is no sixth call. *)
Theorem generateResponse_five_attempts
    userQuery systemPrompt isGrounded isStructured w :
  alwaysFails (network w) ->
  exists e1 e2 e3 e4 e5 w',
    generateResponse userQuery systemPrompt isGrounded isStructured w =
      (Throw (Error "Max retries reached. Failed to generate content."), w') /\
    trace w' =
      (trace w
       ++ failedAttempt (buildPayload userQuery systemPrompt isGrounded isStructured) 1 e1
       ++ [Wait 2000]
       ++ failedAttempt (buildPayload userQuery systemPrompt isGrounded isStructured) 2 e2
       ++ [Wait 4000]
       ++ failedAttempt (buildPayload userQuery systemPrompt isGrounded isStructured) 3 e3
       ++ [Wait 8000]
       ++ failedAttempt (buildPayload userQuery systemPrompt isGrounded isStructured) 4 e4
       ++ [Wait 16000]
       ++ failedAttempt (buildPayload userQuery systemPrompt isGrounded isStructured) 5 e5)%list /\
    fetches w' = 5 + fetches w.
Proof.
  intros Hfail.
  destruct (retryLoop_exhausts
              (buildPayload userQuery systemPrompt isGrounded isStructured) w Hfail)
    as (e1 & e2 & e3 & e4 & e5 & _ & _ & _ & _ & _ & Hrun).
  exists e1, e2, e3, e4, e5. eexists.
  split; [exact Hrun|].
  split; [|reflexivity].
  simpl. rewrite <- !app_assoc. reflexivity.
Qed.

(** C3, as amended.  When the fifth attempt fails, the error thrown to the
    caller is a new [Error] with the fixed message of line 136 and no
    cause; the last underlying cause goes to the console only, in the entry
    of the fifth attempt, the last effect of the run. *)
Theorem generateResponse_terminal_error
    userQuery systemPrompt isGrounded isStructured w :
  alwaysFails (network w) ->
  exists underlying events w',
    failure (network w (4 + fetches w)
               (buildPayload userQuery systemPrompt isGrounded isStructured))
      = Some underlying /\
    generateResponse userQuery systemPrompt isGrounded isStructured w =
      (Throw {| name := "Error";
                message := "Max retries reached. Failed to generate content.";
                cause := None |}, w') /\
    trace w' = (events ++ [ConsoleError "Attempt 5 failed:" underlying])%list.
Proof.
  intros Hfail.
  destruct (retryLoop_exhausts
              (buildPayload userQuery systemPrompt isGrounded isStructured) w Hfail)
    as (e1 & e2 & e3 & e4 & e5 & _ & _ & _ & _ & H5 & Hrun).
  exists e5. eexists. eexists.
  split; [exact H5|].
  split; [exact Hrun|].
  simpl. reflexivity.
Qed.

(** ** The resolver *)

Section Resolver.
Context {engine : Engine}.

Lemma forEach_links sources : forall index w,
  forEach
    (fun source index =>
       update on_citationsDiv (El.appendChild (citationLink source index)))
    sources index w
  = (Normal tt, on_page (on_citationsDiv (appendLinks sources index)) w).
Proof.
  induction sources as [|source rest IH]; intros index w.
  - destruct w as [cr csp [] net n tr]. reflexivity.
  - simpl. unfold bind at 1. unfold update at 1. unfold modify at 1.
    rewrite IH. destruct w as [cr csp [] net n tr]. reflexivity.
Qed.

Lemma displayResult_eq text sources isStructured w :
  displayResult text sources isStructured w
    = (Normal tt, resolved text sources isStructured w).
Proof.
  unfold displayResult, resolved, shownHtml, storedResponse, bind, update, modify, ret.
  destruct isStructured; [destruct (parsed_final_summary text)|];
    (destruct sources as [|source rest];
     [destruct w as [cr csp [] net n tr]; reflexivity|]);
    rewrite forEach_links;
    destruct w as [cr csp [] net n tr]; reflexivity.
Qed.

Lemma displayResult_stores text sources isStructured w :
  currentResponse (snd (displayResult text sources isStructured w))
    = storedResponse text isStructured /\
  currentSystemPrompt (snd (displayResult text sources isStructured w))
    = currentSystemPrompt w.
Proof. rewrite displayResult_eq. split; reflexivity. Qed.

Lemma displayResult_shows text sources isStructured w :
  innerHTML (responseContainer (page (snd (displayResult text sources isStructured w))))
    = shownHtml text isStructured.
Proof. rewrite displayResult_eq. reflexivity. Qed.

(** [JSON.parse] builds no [undefined]. *)
Lemma parse_value_defined fuel cs v rest :
  JSONParser.parse_value fuel cs = Some (v, rest) -> v <> JUndefined.
Proof.
  destruct fuel as [|fuel]; [discriminate|].
  destruct cs as [|c cs]; [discriminate|].
  simpl. unfold JSONParser.parse_literal.
  repeat match goal with
         | |- context [if ?b then _ else _] => destruct b
         | |- context [match ?x with _ => _ end] => destruct x
         end;
    intros H; try discriminate; injection H as <- _; discriminate.
Qed.

Lemma JSON_parse_defined text : JSON_parse text <> Some JUndefined.
Proof.
  unfold JSON_parse.
  destruct (JSONParser.parse_value _ _) as [[v rest]|] eqn:Hparse; [|discriminate].
  apply parse_value_defined in Hparse.
  destruct (JSONParser.skip_ws rest); [congruence|discriminate].
Qed.

(** Reading [final_summary] throws on [null] only. *)
Lemma GetV_parsed text document :
  JSON_parse text = Some document ->
  document <> JNull ->
  exists final_summary, GetV document "final_summary" = Some final_summary.
Proof.
  intros Hparse Hnull.
  pose proof (JSON_parse_defined text) as Hdef. rewrite Hparse in Hdef.
  destruct document; simpl; eauto; try congruence.
  destruct (lookup_last "final_summary" members); eauto.
Qed.

(** The [try] of lines 156-160 throws when the text does not parse, when
    it parses to [null], or when the conversion of the value of
    [final_summary] throws. *)
Lemma parsed_final_summary_fails text :
  parsed_final_summary text = None <->
  JSON_parse text = None \/ JSON_parse text = Some JNull \/
  exists document final_summary,
    JSON_parse text = Some document /\
    GetV document "final_summary" = Some final_summary /\
    convertible final_summary = false.
Proof.
  unfold parsed_final_summary.
  destruct (JSON_parse text) as [document|] eqn:Hparse; [|tauto].
  destruct (GetV document "final_summary") as [final_summary|] eqn:Hget.
  - destruct (convertible final_summary) eqn:Hconvertible.
    + split; [discriminate|].
      intros [H|[H|(d & f & Hd & Hf & Hc)]]; try discriminate.
      * injection H as ->. discriminate.
      * injection Hd as <-. congruence.
    + split; [|reflexivity]. intros _. right. right.
      exists document, final_summary. auto.
  - split; [|reflexivity]. intros _. right. left.
    pose proof (JSON_parse_defined text) as Hdef. rewrite Hparse in Hdef.
    destruct document; try discriminate; [congruence|reflexivity|].
    simpl in Hget. destruct (lookup_last "final_summary" members); discriminate.
Qed.

(** What [displayResult] stores is a value whose conversion returns. *)
Lemma storedResponse_convertible text isStructured :
  convertible (storedResponse text isStructured) = true.
Proof.
  unfold storedResponse, parsed_final_summary.
  destruct isStructured; [|reflexivity].
  destruct (JSON_parse text) as [document|]; [|reflexivity].
  destruct (GetV document "final_summary") as [final_summary|]; [|reflexivity].
  destruct (convertible final_summary) eqn:Hconvertible; [exact Hconvertible|reflexivity].
Qed.

(** The two markups of structured mode differ from their third character
    on. *)
Lemma summaryHtml_not_error final_summary text :
  summaryHtml final_summary <> parseErrorHtml text.
Proof. unfold summaryHtml, parseErrorHtml. simpl. discriminate. Qed.


Lemma reset_appendLinks html sources : forall index e,
  El.set_innerHTML html (appendLinks sources index e) = El.set_innerHTML html e.
Proof.
  induction sources as [|source rest IH]; intros index e; simpl;
    [|rewrite IH]; reflexivity.
Qed.

Lemma displayResult_run text sources isStructured w :
  displayResult text sources isStructured w
    = (Normal tt, snd (displayResult text sources isStructured w)).
Proof. rewrite displayResult_eq. reflexivity. Qed.

(** C4, as amended.  For every structured-mode result whose text fails to
    parse as JSON, [displayResult] catches the error itself and returns:
    it shows the error indicator followed by the raw text, and it leaves
    the raw text in [currentResponse], stored at line 152 before the
    parse is tried. *)
Theorem displayResult_parse_failure text sources w :
  JSON_parse text = None ->
  exists w',
    displayResult text sources true w = (Normal tt, w') /\
    innerHTML (responseContainer (page w')) = parseErrorHtml text /\
    currentResponse w' = JString text.
Proof.
  intros Hparse.
  exists (snd (displayResult text sources true w)).
  split; [apply displayResult_run|].
  rewrite displayResult_shows.
  destruct (displayResult_stores text sources true w) as [-> _].
  unfold shownHtml, storedResponse, parsed_final_summary. rewrite Hparse.
  split; reflexivity.
Qed.

(** C5, as amended.  For every structured-mode result whose text parses
    as JSON to a document other than [null], [displayResult] returns, and
    what it shows and stores turns on the value of the document's
    [final_summary].  When the string conversion of that value returns,
    the text shown and [currentResponse] are both that value, not the
    document: it is shown through its string conversion, inside a code
    block.  When the conversion throws, as it does on an object with a
    member named [toString], the error indicator is shown with the raw
    text, and [currentResponse] keeps the raw text. *)
Theorem displayResult_parse_success text document sources w :
  JSON_parse text = Some document ->
  document <> JNull ->
  exists final_summary w',
    GetV document "final_summary" = Some final_summary /\
    displayResult text sources true w = (Normal tt, w') /\
    if convertible final_summary then
      innerHTML (responseContainer (page w')) = summaryHtml final_summary /\
      currentResponse w' = final_summary
    else
      innerHTML (responseContainer (page w')) = parseErrorHtml text /\
      currentResponse w' = JString text.
Proof.
  intros Hparse Hnull.
  destruct (@GetV_parsed text document Hparse Hnull) as [final_summary Hget].
  exists final_summary, (snd (displayResult text sources true w)).
  split; [exact Hget|].
  split; [apply displayResult_run|].
  rewrite displayResult_shows.
  destruct (displayResult_stores text sources true w) as [-> _].
  unfold shownHtml, storedResponse, parsed_final_summary. rewrite Hparse, Hget.
  destruct (convertible final_summary); split; reflexivity.
Qed.

(** C8, as amended.  In structured mode [displayResult] takes the error
    path exactly when the text is not valid JSON, or parses to [null], or
    parses to a document whose value of [final_summary] has a string
    conversion that throws; no other mismatch of shape fails: for a
    document that is an object without [final_summary], the string
    conversion of [undefined] is shown and [undefined] is stored. *)
Theorem displayResult_error_path text sources w :
  (innerHTML (responseContainer (page (snd (displayResult text sources true w))))
     = parseErrorHtml text
   <-> JSON_parse text = None \/ JSON_parse text = Some JNull \/
       exists document final_summary,
         JSON_parse text = Some document /\
         GetV document "final_summary" = Some final_summary /\
         convertible final_summary = false) /\
  (forall members,
     JSON_parse text = Some (JObject members) ->
     lookup_last "final_summary" members = None ->
     innerHTML (responseContainer (page (snd (displayResult text sources true w))))
       = summaryHtml JUndefined /\
     currentResponse (snd (displayResult text sources true w)) = JUndefined).
Proof.
  split.
  - rewrite displayResult_shows, <- parsed_final_summary_fails.
    unfold shownHtml.
    destruct (parsed_final_summary text) as [final_summary|]; [|tauto].
    split; [|discriminate].
    intros H. apply summaryHtml_not_error in H. contradiction.
  - intros members Hparse Hlookup.
    rewrite displayResult_shows.
    destruct (displayResult_stores text sources true w) as [-> _].
    unfold shownHtml, storedResponse, parsed_final_summary. rewrite Hparse.
    simpl. rewrite Hlookup. split; reflexivity.
Qed.

(** C10.  Calling [displayResult] a second time with the same text,
    sources and mode gives the same output and the same state as
    calling it once. *)
Theorem displayResult_idempotent text sources isStructured w :
  displayResult text sources isStructured
    (snd (displayResult text sources isStructured w))
  = displayResult text sources isStructured w.
Proof.
  rewrite !displayResult_eq.
  cbn [snd]. f_equal.
  unfold resolved.
  cbn [currentSystemPrompt page network fetches trace generateButton buttonText
       loadingIndicator responseContainer citationContainer citationsDiv
       structuredCheckbox jsonSchemaDisplay summarySection summaryContainer
       summaryText google_grounding user_query system_instruction
       summarize_button summary_loading].
  rewrite reset_appendLinks.
  reflexivity.
Qed.

End Resolver.

(** ** The handlers *)

Lemma generateResponse_frame userQuery systemPrompt isGrounded isStructured w :
  let w' := snd (generateResponse userQuery systemPrompt isGrounded isStructured w) in
  currentResponse w' = currentResponse w /\
  currentSystemPrompt w' = currentSystemPrompt w /\
  page w' = page w /\
  network w' = network w.
Proof. unfold generateResponse. apply (@retryLoop_frame maxRetries). reflexivity. Qed.

Section Handlers.
Context {engine : Engine}.

Lemma handleSummarize_frame w :
  currentResponse (snd (handleSummarize w)) = currentResponse w /\
  currentSystemPrompt (snd (handleSummarize w)) = currentSystemPrompt w.
Proof.
  unfold handleSummarize, bind, gets.
  destruct (negb (ToBoolean (currentResponse w))); [split; reflexivity|].
  unfold update, modify, try_finally, try_catch, destructure, bind, throw, ret,
    console_error.
  cbv beta iota.
  match goal with
  | |- context [generateResponse ?q ?s ?g ?st ?w0] =>
      destruct (generateResponse_frame q s g st w0) as (H1 & H2 & _ & _);
      destruct (generateResponse q s g st w0) as [[[result|]|error] w1]
  end; simpl in *; rewrite H1, H2; split; reflexivity.
Qed.

Lemma handleFormSubmit_prompt w :
  currentSystemPrompt (snd (handleFormSubmit w)) =
    if String.eqb (Str.trim (value (user_query (page w)))) ""
    then currentSystemPrompt w
    else Str.trim (value (system_instruction (page w))).
Proof.
  unfold handleFormSubmit, bind, gets, modify. cbv beta iota.
  cbn [page emit].
  destruct (String.eqb (Str.trim (value (user_query (page w)))) ""); [reflexivity|].
  unfold setUILoading, update, modify, try_finally, try_catch, destructure, bind,
    throw, ret, console_error.
  cbv beta iota.
  match goal with
  | |- context [generateResponse ?q ?s ?g ?st ?w0] =>
      destruct (generateResponse_frame q s g st w0) as (_ & H2 & _ & _);
      destruct (generateResponse q s g st w0) as [[[result|]|error] w1]
  end; simpl in H2.
  - rewrite displayResult_eq. cbn. exact H2.
  - cbn. exact H2.
  - cbn. exact H2.
Qed.

(** What a submit leaves in [currentResponse]: what [displayResult] stores
    for the text that [generateResponse] returned, when it returned one;
    what was there before, when the query is blank and when the generation
    fails, the handler of line 209 writing the page only. *)
Lemma handleFormSubmit_stores w :
  currentResponse (snd (handleFormSubmit w)) =
    if String.eqb (Str.trim (value (user_query (page w)))) ""
    then currentResponse w
    else
      match fst (generateResponse
                   (Str.trim (value (user_query (page w))))
                   (Str.trim (value (system_instruction (page w))))
                   (checked (google_grounding (page w)))
                   (checked (structuredCheckbox (page w)))
                   (submitted w)) with
      | Normal (Some result) =>
          storedResponse (text result) (checked (structuredCheckbox (page w)))
      | _ => currentResponse w
      end.
Proof.
  unfold handleFormSubmit, submitted, bind, gets, modify. cbv beta iota.
  cbn [page emit].
  destruct (String.eqb (Str.trim (value (user_query (page w)))) ""); [reflexivity|].
  unfold setUILoading, update, modify, try_finally, try_catch, destructure, bind,
    throw, ret, console_error.
  cbv beta iota. cbn [snd page emit set_currentSystemPrompt on_page].
  match goal with
  | |- context [generateResponse ?q ?s ?g ?st ?w0] =>
      destruct (generateResponse_frame q s g st w0) as (H1 & _ & _ & _);
      destruct (generateResponse q s g st w0) as [[[result|]|error] w1]
  end; simpl in H1.
  - rewrite displayResult_eq. reflexivity.
  - cbn. exact H1.
  - cbn. exact H1.
Qed.

(** The handlers keep in [currentResponse] a value whose string
    conversion returns: line 226 never throws. *)
Lemma handlers_keep_convertible w :
  convertible (currentResponse w) = true ->
  convertible (currentResponse (snd (handleFormSubmit w))) = true /\
  convertible (currentResponse (snd (handleSummarize w))) = true.
Proof.
  intros Hw. split.
  - rewrite handleFormSubmit_stores.
    destruct (String.eqb (Str.trim (value (user_query (page w)))) ""); [exact Hw|].
    destruct (fst (generateResponse _ _ _ _ (submitted w))) as [[result|]|error];
      [apply storedResponse_convertible|exact Hw|exact Hw].
  - destruct (handleSummarize_frame w) as [-> _]. exact Hw.
Qed.

Lemma page_writers_frame :
  (forall w,
     currentResponse (snd (closeSummary w)) = currentResponse w /\
     currentSystemPrompt (snd (closeSummary w)) = currentSystemPrompt w) /\
  (forall isLoading w,
     currentResponse (snd (setUILoading isLoading w)) = currentResponse w /\
     currentSystemPrompt (snd (setUILoading isLoading w)) = currentSystemPrompt w) /\
  (forall w,
     currentResponse (snd (onStructuredChange w)) = currentResponse w /\
     currentSystemPrompt (snd (onStructuredChange w)) = currentSystemPrompt w) /\
  (forall w,
     currentResponse (snd (onGroundingChange w)) = currentResponse w /\
     currentSystemPrompt (snd (onGroundingChange w)) = currentSystemPrompt w).
Proof.
  unfold closeSummary, setUILoading, onStructuredChange, onGroundingChange,
    bind, gets, update, modify, ret.
  repeat split;
    repeat match goal with
           | |- context [if ?b then _ else _] => destruct b
           end; reflexivity.
Qed.

(** C7, as amended.  Of the functions of the script, [displayResult] is
    the only one that writes [currentResponse], and it writes it on every
    path, also when the parse fails; [handleFormSubmit] is the only one
    that writes [currentSystemPrompt], before the generation is tried and
    whether or not it succeeds.  [handleSummarize], [generateResponse],
    [closeSummary], [setUILoading] and the two checkbox listeners write
    neither: the summary never becomes the current response.  After a
    submit, [currentResponse] is what [displayResult] stored for the text
    [generateResponse] returned, and it is what it was before when the
    query is blank or the generation fails. *)
Theorem state_pair_writers :
  (forall w,
     currentResponse (snd (handleSummarize w)) = currentResponse w /\
     currentSystemPrompt (snd (handleSummarize w)) = currentSystemPrompt w) /\
  (forall userQuery systemPrompt isGrounded isStructured w,
     currentResponse
       (snd (generateResponse userQuery systemPrompt isGrounded isStructured w))
       = currentResponse w /\
     currentSystemPrompt
       (snd (generateResponse userQuery systemPrompt isGrounded isStructured w))
       = currentSystemPrompt w) /\
  (forall w,
     currentResponse (snd (closeSummary w)) = currentResponse w /\
     currentSystemPrompt (snd (closeSummary w)) = currentSystemPrompt w) /\
  (forall isLoading w,
     currentResponse (snd (setUILoading isLoading w)) = currentResponse w /\
     currentSystemPrompt (snd (setUILoading isLoading w)) = currentSystemPrompt w) /\
  (forall w,
     currentResponse (snd (onStructuredChange w)) = currentResponse w /\
     currentSystemPrompt (snd (onStructuredChange w)) = currentSystemPrompt w) /\
  (forall w,
     currentResponse (snd (onGroundingChange w)) = currentResponse w /\
     currentSystemPrompt (snd (onGroundingChange w)) = currentSystemPrompt w) /\
  (forall text sources isStructured w,
     currentResponse (snd (displayResult text sources isStructured w))
       = (if isStructured then
            match parsed_final_summary text with
            | Some final_summary => final_summary
            | None => JString text
            end
          else JString text) /\
     currentSystemPrompt (snd (displayResult text sources isStructured w))
       = currentSystemPrompt w) /\
  (forall w,
     currentSystemPrompt (snd (handleFormSubmit w)) =
       if String.eqb (Str.trim (value (user_query (page w)))) ""
       then currentSystemPrompt w
       else Str.trim (value (system_instruction (page w)))) /\
  (forall w,
     currentResponse (snd (handleFormSubmit w)) =
       if String.eqb (Str.trim (value (user_query (page w)))) ""
       then currentResponse w
       else
         match fst (generateResponse
                      (Str.trim (value (user_query (page w))))
                      (Str.trim (value (system_instruction (page w))))
                      (checked (google_grounding (page w)))
                      (checked (structuredCheckbox (page w)))
                      (submitted w)) with
         | Normal (Some result) =>
             currentResponse
               (snd (displayResult (text result) (sources result)
                       (checked (structuredCheckbox (page w)))
                       (snd (generateResponse
                               (Str.trim (value (user_query (page w))))
                               (Str.trim (value (system_instruction (page w))))
                               (checked (google_grounding (page w)))
                               (checked (structuredCheckbox (page w)))
                               (submitted w)))))
         | _ => currentResponse w
         end).
Proof.
  destruct page_writers_frame as (Hclose & Hloading & Hstructured & Hgrounding).
  split; [exact handleSummarize_frame|].
  split.
  { intros userQuery systemPrompt isGrounded isStructured w.
    destruct (generateResponse_frame userQuery systemPrompt isGrounded isStructured w)
      as (H1 & H2 & _ & _).
    split; assumption. }
  split; [exact Hclose|].
  split; [exact Hloading|].
  split; [exact Hstructured|].
  split; [exact Hgrounding|].
  split; [exact displayResult_stores|].
  split; [exact handleFormSubmit_prompt|].
  intros w. rewrite handleFormSubmit_stores.
  destruct (String.eqb (Str.trim (value (user_query (page w)))) ""); [reflexivity|].
  destruct (fst (generateResponse _ _ _ _ (submitted w))) as [[result|]|error];
    try reflexivity.
  destruct (displayResult_stores (text result) (sources result)
              (checked (structuredCheckbox (page w)))
              (snd (generateResponse
                      (Str.trim (value (user_query (page w))))
                      (Str.trim (value (system_instruction (page w))))
                      (checked (google_grounding (page w)))
                      (checked (structuredCheckbox (page w)))
                      (submitted w)))) as [-> _].
  reflexivity.
Qed.

(** C9, as amended.  If [currentResponse] is empty when
    [handleSummarize] is invoked, or holds any other value the test of
    line 219 takes for false, [undefined] among them, the handler does not
    fail: it alerts that there is nothing to summarize and returns
    normally, the alert being its only effect; no network call is made. *)
Theorem handleSummarize_nothing_to_summarize w :
  ToBoolean (currentResponse w) = false ->
  handleSummarize w = (Normal tt, emit (Alert "No response to summarize") w) /\
  (forall error, fst (handleSummarize w) <> Throw error) /\
  fetches (snd (handleSummarize w)) = fetches w /\
  trace (snd (handleSummarize w)) = (trace w ++ [Alert "No response to summarize"])%list /\
  page (snd (handleSummarize w)) = page w.
Proof.
  intros Hempty.
  unfold handleSummarize, bind, gets, modify.
  rewrite Hempty. simpl. repeat split; try reflexivity. discriminate.
Qed.

(** After either checkbox listener has run, the two boxes are not both
    checked: this is where the page keeps the two modes apart. *)
Lemma listeners_exclusive w :
  let both w' :=
    checked (structuredCheckbox (page w')) && checked (google_grounding (page w')) in
  both (snd (onStructuredChange w)) = false /\
  both (snd (onGroundingChange w)) = false.
Proof.
  unfold onStructuredChange, onGroundingChange, bind, gets, update, modify, ret.
  cbv zeta. destruct w as [cr csp [] net n tr].
  destruct structuredCheckbox0 as [? ? ? ? ? [|] ?],
    google_grounding0 as [? ? ? ? ? [|] ?];
    split; reflexivity.
Qed.

End Handlers.

(** ** Sources *)

(** The filter of line 127, over the map of lines 123-126, keeps the
    attributions whose [uri] and [title] are both there and not empty. *)
Lemma filter_map_keptSources attributions :
  filter keepSource (map toSource attributions) = keptSources attributions.
Proof.
  induction attributions as [|attribution rest IH]; [reflexivity|].
  unfold keptSources in *. simpl. rewrite <- IH.
  unfold keepSource, toSource, truthy.
  destruct attribution as [[[[u|] [t|]]|]]; simpl; try reflexivity.
  - destruct (String.eqb u ""), (String.eqb t ""); reflexivity.
  - destruct (String.eqb u ""); reflexivity.
Qed.

Lemma extractResult_sources body result :
  extractResult body = Normal result ->
  exists candidate,
    first (Response.candidates body) = Some candidate /\
    sources result =
      match Response.groundingMetadata candidate with
      | None => []
      | Some metadata =>
          match Response.groundingAttributions metadata with
          | None => []
          | Some attributions => keptSources attributions
          end
      end.
Proof.
  unfold extractResult.
  destruct (first (Response.candidates body)) as [candidate|]; [|discriminate].
  destruct (match Response.content candidate with
            | Some content => first (Response.parts content)
            | None => None
            end) as [textPart|]; [|discriminate].
  destruct (negb (truthy (Response.text textPart))); [discriminate|].
  intros [= <-]. exists candidate. split; [reflexivity|]. simpl.
  destruct (Response.groundingMetadata candidate) as [metadata|]; [|reflexivity].
  destruct (Response.groundingAttributions metadata) as [attributions|]; [|reflexivity].
  apply filter_map_keptSources.
Qed.

(** C6, as amended.  For every successful call of [generateResponse], the
    sources are those of the first candidate of the response the call
    accepted, which is the response to its last network call, every call
    before it having failed: each attribution mapped to its pair of [uri]
    and [title], those whose [uri] or [title] is missing or empty excluded,
    the others in their order; they are the empty sequence when that
    candidate carries no grounding metadata, or metadata without
    attributions. *)
Theorem generateResponse_sources
    userQuery systemPrompt isGrounded isStructured w result w' :
  generateResponse userQuery systemPrompt isGrounded isStructured w
    = (Normal (Some result), w') ->
  exists response body candidate,
    fetches w < fetches w' /\
    (forall i, fetches w <= i < fetches w' - 1 ->
       failure (network w i
                  (buildPayload userQuery systemPrompt isGrounded isStructured))
         <> None) /\
    network w (fetches w' - 1)
      (buildPayload userQuery systemPrompt isGrounded isStructured)
      = Resolved response /\
    ok response = true /\
    json response = Parsed body /\
    extractResult body = Normal result /\
    first (Response.candidates body) = Some candidate /\
    sources result =
      match Response.groundingMetadata candidate with
      | None => []
      | Some metadata =>
          match Response.groundingAttributions metadata with
          | None => []
          | Some attributions => keptSources attributions
          end
      end.
Proof.
  unfold generateResponse. intros Hrun.
  apply (@retryLoop_success maxRetries) in Hrun; [|reflexivity].
  destruct Hrun as (n & response & body & Hn & Hlast & Hbefore & Hnet & Hok
                    & Hjson & Hextract).
  destruct (extractResult_sources _ Hextract) as (candidate & Hfirst & Hsources).
  exists response, body, candidate.
  rewrite Hlast. cbn [Nat.sub]. rewrite Nat.sub_0_r.
  repeat split; auto. lia.
Qed.

(** ** The properties on the sample sessions *)

Lemma generateResponse_five_attempts_offline :
  alwaysFails (network offlineWorld) /\
  exists w',
    generateResponse "What is 2+2?" "Be brief." false false offlineWorld
      = (Throw (Error "Max retries reached. Failed to generate content."), w') /\
    fetches w' = 5.
Proof.
  split; [intros n payload; simpl; discriminate|].
  destruct (@generateResponse_five_attempts "What is 2+2?" "Be brief." false false
              offlineWorld)
    as (e1 & e2 & e3 & e4 & e5 & w' & Hrun & _ & Hfetches);
    [intros n payload; simpl; discriminate|].
  exists w'. split; [exact Hrun|exact Hfetches].
Defined.

Lemma generateResponse_terminal_error_offline :
  alwaysFails (network offlineWorld) /\
  exists underlying events w',
    generateResponse "What is 2+2?" "Be brief." false false offlineWorld
      = (Throw (Error "Max retries reached. Failed to generate content."), w') /\
    trace w' = (events ++ [ConsoleError "Attempt 5 failed:" underlying])%list.
Proof.
  split; [intros n payload; simpl; discriminate|].
  destruct (@generateResponse_terminal_error "What is 2+2?" "Be brief." false false
              offlineWorld)
    as (underlying & events & w' & _ & Hrun & Htrace);
    [intros n payload; simpl; discriminate|].
  exists underlying, events, w'. split; [exact Hrun|exact Htrace].
Defined.

(** C3, as stated, fails: on a network that is down the fifth attempt fails
    with the rejection of [fetch], and the error thrown to the caller does
    not carry it; the same error is thrown when the provider answers 503. *)
Lemma terminal_error_drops_cause :
  failure (network offlineWorld 4 (buildPayload "What is 2+2?" "Be brief." false false))
    = Some offlineError /\
  exists terminal,
    fst (generateResponse "What is 2+2?" "Be brief." false false offlineWorld)
      = Throw terminal /\
    ~ wraps terminal offlineError /\
    fst (generateResponse "What is 2+2?" "Be brief." false false unavailableWorld)
      = Throw terminal.
Proof.
  split; [reflexivity|].
  exists exhausted.
  split; [vm_compute; reflexivity|].
  split; [unfold wraps; simpl; discriminate|vm_compute; reflexivity].
Qed.

Lemma displayResult_parse_failure_oops :
  JSON_parse "oops" = None /\
  exists w',
    @displayResult sampleEngine "oops" [] true offlineWorld = (Normal tt, w') /\
    innerHTML (responseContainer (page w')) = @parseErrorHtml "oops" /\
    currentResponse w' = JString "oops".
Proof.
  split; [vm_compute; reflexivity|].
  apply (@displayResult_parse_failure sampleEngine "oops" [] offlineWorld).
  vm_compute; reflexivity.
Defined.

(** C4, as stated, fails: when the text does not parse, [currentResponse]
    is not left as it was, it holds the raw text. *)
Lemma parse_failure_sets_currentResponse :
  JSON_parse "oops" = None /\
  currentResponse offlineWorld = JString "" /\
  currentResponse (snd (@displayResult sampleEngine "oops" [] true offlineWorld))
    = JString "oops" /\
  currentResponse (snd (@displayResult sampleEngine "oops" [] true offlineWorld))
    <> currentResponse offlineWorld.
Proof.
  split; [vm_compute; reflexivity|].
  split; [reflexivity|].
  split; [vm_compute; reflexivity|].
  vm_compute. discriminate.
Qed.

Lemma displayResult_parse_success_answer :
  JSON_parse structuredAnswer
    = Some (JObject [("reasoning_steps", JArray [JString "a"; JString "b"]);
                     ("final_summary", JString "Answer: 4");
                     ("confidence_score", JNumber "95")]) /\
  exists final_summary w',
    GetV (JObject [("reasoning_steps", JArray [JString "a"; JString "b"]);
                   ("final_summary", JString "Answer: 4");
                   ("confidence_score", JNumber "95")]) "final_summary"
      = Some final_summary /\
    @displayResult sampleEngine structuredAnswer [] true offlineWorld = (Normal tt, w') /\
    if convertible final_summary then
      innerHTML (responseContainer (page w')) = @summaryHtml sampleEngine final_summary /\
      currentResponse w' = final_summary
    else
      innerHTML (responseContainer (page w')) = parseErrorHtml structuredAnswer /\
      currentResponse w' = JString structuredAnswer.
Proof.
  split; [vm_compute; reflexivity|].
  apply (@displayResult_parse_success sampleEngine structuredAnswer).
  - vm_compute; reflexivity.
  - discriminate.
Defined.

(** A [final_summary] that is an object with a member named [toString]:
    the conversion of line 159 throws, the error indicator is shown and
    [currentResponse] keeps the raw text of line 152. *)
Lemma shadowed_toString_takes_error_path :
  JSON_parse shadowedAnswer
    = Some (JObject [("final_summary", JObject [("toString", JNumber "1")])]) /\
  convertible (JObject [("toString", JNumber "1")]) = false /\
  @displayResult sampleEngine shadowedAnswer [] true offlineWorld
    = (Normal tt, snd (@displayResult sampleEngine shadowedAnswer [] true offlineWorld)) /\
  innerHTML (responseContainer
               (page (snd (@displayResult sampleEngine shadowedAnswer [] true
                             offlineWorld))))
    = parseErrorHtml shadowedAnswer /\
  currentResponse (snd (@displayResult sampleEngine shadowedAnswer [] true offlineWorld))
    = JString shadowedAnswer.
Proof. repeat split; vm_compute; reflexivity. Qed.

(** C5, as stated, fails: the text [null] parses as JSON, reading
    [final_summary] from it throws, and what is shown and stored is the
    error indicator and the raw text. *)
Lemma null_document_takes_error_path :
  JSON_parse "null" = Some JNull /\
  GetV JNull "final_summary" = None /\
  (forall final_summary,
     innerHTML (responseContainer
                  (page (snd (@displayResult sampleEngine "null" [] true offlineWorld))))
       <> @summaryHtml sampleEngine final_summary) /\
  innerHTML (responseContainer
               (page (snd (@displayResult sampleEngine "null" [] true offlineWorld))))
    = @parseErrorHtml "null" /\
  currentResponse (snd (@displayResult sampleEngine "null" [] true offlineWorld))
    = JString "null".
Proof.
  split; [vm_compute; reflexivity|].
  split; [reflexivity|].
  split.
  - intros final_summary H. symmetry in H. revert H.
    replace (innerHTML _) with (@parseErrorHtml "null") by (vm_compute; reflexivity).
    apply summaryHtml_not_error.
  - split; vm_compute; reflexivity.
Qed.

Lemma generateResponse_sources_grounded :
  generateResponse "What is 2+2?" "Be brief." true false groundedWorld
    = (Normal (Some {| text := "4.";
                       sources := [ {| uri := Some "https://example.org/a";
                                       title := Some "A" |} ] |}),
       snd (generateResponse "What is 2+2?" "Be brief." true false groundedWorld)) /\
  exists response body candidate,
    fetches groundedWorld
      < fetches (snd (generateResponse "What is 2+2?" "Be brief." true false
                        groundedWorld)) /\
    (forall i,
       fetches groundedWorld <= i
         < fetches (snd (generateResponse "What is 2+2?" "Be brief." true false
                           groundedWorld)) - 1 ->
       failure (network groundedWorld i
                  (buildPayload "What is 2+2?" "Be brief." true false)) <> None) /\
    network groundedWorld
      (fetches (snd (generateResponse "What is 2+2?" "Be brief." true false
                       groundedWorld)) - 1)
      (buildPayload "What is 2+2?" "Be brief." true false)
      = Resolved response /\
    ok response = true /\
    json response = Parsed body /\
    extractResult body
      = Normal {| text := "4.";
                  sources := [ {| uri := Some "https://example.org/a";
                                  title := Some "A" |} ] |} /\
    first (Response.candidates body) = Some candidate /\
    [ {| uri := Some "https://example.org/a"; title := Some "A" |} ] =
      match Response.groundingMetadata candidate with
      | None => []
      | Some metadata =>
          match Response.groundingAttributions metadata with
          | None => []
          | Some attributions => keptSources attributions
          end
      end.
Proof.
  split; [vm_compute; reflexivity|].
  apply (@generateResponse_sources "What is 2+2?" "Be brief." true false groundedWorld
           {| text := "4.";
              sources := [ {| uri := Some "https://example.org/a"; title := Some "A" |} ] |}
           (snd (generateResponse "What is 2+2?" "Be brief." true false groundedWorld))).
  vm_compute; reflexivity.
Defined.

(** C6, as stated, fails: an attribution whose [uri] is the empty string
    misses neither [uri] nor [title], and it is excluded. *)
Lemma empty_uri_is_excluded :
  claimedSources emptyUri = [ {| uri := Some ""; title := Some "T" |} ] /\
  exists result,
    fst (generateResponse "What is 2+2?" "Be brief." true false emptyUriWorld)
      = Normal (Some result) /\
    sources result = [] /\
    sources result <> claimedSources emptyUri.
Proof.
  split; [reflexivity|].
  exists {| text := "4."; sources := [] |}.
  split; [vm_compute; reflexivity|].
  split; [reflexivity|discriminate].
Qed.

(** C7, as stated, fails: with the network down no result is ever
    resolved, and [handleFormSubmit] has written [currentSystemPrompt];
    and [displayResult] writes [currentResponse] when the parse fails. *)
Lemma state_pair_written_without_resolution :
  currentSystemPrompt offlineWorld = "" /\
  currentSystemPrompt (snd (@handleFormSubmit sampleEngine offlineWorld)) = "Be brief." /\
  last (trace (snd (@handleFormSubmit sampleEngine offlineWorld))) PreventDefault
    = ConsoleError "Critical Generation Error:" exhausted /\
  parsed_final_summary "oops" = None /\
  currentResponse (snd (@displayResult sampleEngine "oops" [] true offlineWorld))
    <> currentResponse offlineWorld.
Proof.
  split; [reflexivity|].
  split; [vm_compute; reflexivity|].
  split; [vm_compute; reflexivity|].
  split; [vm_compute; reflexivity|].
  vm_compute. discriminate.
Qed.

Lemma displayResult_error_path_empty_object :
  JSON_parse "{}" = Some (JObject []) /\
  lookup_last "final_summary" [] = None /\
  innerHTML (responseContainer
               (page (snd (@displayResult sampleEngine "{}" [] true offlineWorld))))
    = @summaryHtml sampleEngine JUndefined /\
  currentResponse (snd (@displayResult sampleEngine "{}" [] true offlineWorld))
    = JUndefined.
Proof.
  split; [vm_compute; reflexivity|].
  split; [reflexivity|].
  apply (proj2 (@displayResult_error_path sampleEngine "{}" [] offlineWorld) []).
  - vm_compute; reflexivity.
  - reflexivity.
Defined.

(** C8, as stated, fails: the text [{}] is a valid JSON document without
    [final_summary], and [displayResult] does not take the error path: it
    shows the string conversion of [undefined]. *)
Lemma missing_final_summary_is_no_error :
  JSON_parse "{}" = Some (JObject []) /\
  GetV (JObject []) "final_summary" = Some JUndefined /\
  innerHTML (responseContainer
               (page (snd (@displayResult sampleEngine "{}" [] true offlineWorld))))
    = Str.dq "<pre class='code-block'>undefined</pre>" /\
  innerHTML (responseContainer
               (page (snd (@displayResult sampleEngine "{}" [] true offlineWorld))))
    <> @parseErrorHtml "{}".
Proof.
  split; [vm_compute; reflexivity|].
  split; [reflexivity|].
  split; [vm_compute; reflexivity|].
  vm_compute. discriminate.
Qed.

Lemma handleSummarize_nothing_to_summarize_fresh :
  currentResponse offlineWorld = JString "" /\
  @handleSummarize sampleEngine offlineWorld
    = (Normal tt, emit (Alert "No response to summarize") offlineWorld) /\
  (forall error, fst (@handleSummarize sampleEngine offlineWorld) <> Throw error) /\
  fetches (snd (@handleSummarize sampleEngine offlineWorld)) = fetches offlineWorld /\
  trace (snd (@handleSummarize sampleEngine offlineWorld))
    = (trace offlineWorld ++ [Alert "No response to summarize"])%list /\
  page (snd (@handleSummarize sampleEngine offlineWorld)) = page offlineWorld.
Proof.
  split; [reflexivity|].
  apply (@handleSummarize_nothing_to_summarize sampleEngine offlineWorld).
  reflexivity.
Defined.

(** C9, as stated, fails: with [currentResponse] empty the summarize
    action does not fail with an error, it completes normally; what the
    user gets is an alert. *)
Lemma nothing_to_summarize_returns_normally :
  currentResponse offlineWorld = JString "" /\
  fst (@handleSummarize sampleEngine offlineWorld) = Normal tt /\
  (forall error, fst (@handleSummarize sampleEngine offlineWorld) <> Throw error) /\
  trace (snd (@handleSummarize sampleEngine offlineWorld))
    = [Alert "No response to summarize"].
Proof.
  split; [reflexivity|].
  split; [reflexivity|].
  split; [discriminate|reflexivity].
Qed.

(** The submit handler reads the two boxes as they are: on a page where
    both are checked, the request it sends holds the tool and the
    directive. *)
Lemma both_boxes_checked_sends_both :
  nth 1 (trace (snd (@handleFormSubmit sampleEngine
                       (freshWorld (formPage "What is 2+2?" "Be brief." true true)
                          offline))))
    PreventDefault
  = Fetch apiUrlBase
      {| Request.contents :=
           [ {| Request.parts := [ {| Request.text := "What is 2+2?" |} ] |} ];
         Request.systemInstruction :=
           {| Request.parts := [ {| Request.text := "Be brief." |} ] |};
         Request.tools := Some [Request.google_search];
         Request.generationConfig := Some structuredDirective |}.
Proof. vm_compute. reflexivity. Qed.

(** ** The shape of a run of the loop *)

(** A run entered below the limit makes between one call and as many as
    the limit leaves, all of them the same request; it waits before each
    call but the first, each wait the double of the one before; and it ends
    in a result or in the terminal error, the latter only when the calls
    are used up. *)
Lemma retryLoop_shape k : forall payload retryCount w,
  maxRetries - retryCount = S k ->
  exists n events,
    1 <= n <= S k /\
    trace (snd (retryLoop payload retryCount w)) = (trace w ++ events)%list /\
    fetches (snd (retryLoop payload retryCount w)) = fetches w + n /\
    requestsOf events = repeat (apiUrlBase, payload) n /\
    waitsOf events = map backoffDelay (seq (S retryCount) (n - 1)) /\
    ((exists result, fst (retryLoop payload retryCount w) = Normal (Some result)) \/
     (fst (retryLoop payload retryCount w) = Throw exhausted /\ n = S k)).
Proof.
  induction k as [|k IH]; intros payload retryCount w Hk;
    rewrite retryLoop_eq;
    (destruct (lt_dec retryCount maxRetries) as [Hlt|Hge]; [|lia]);
    rewrite attempt_eq;
    (destruct (match network w (fetches w) payload with
               | Rejected reason => Throw reason
               | Resolved response => handleResponse response
               end) as [result|error];
     [exists 1, [Fetch apiUrlBase payload]; simpl;
      repeat split; try lia; eauto|]);
    cbv zeta;
    (destruct (le_dec maxRetries (S retryCount)) as [Hle|Hgt]; [|try lia]).
  - eexists 1, _. simpl. rewrite <- app_assoc.
    repeat split; try reflexivity; try lia. right. split; reflexivity.
  - lia.
  - destruct (IH payload (S retryCount)
                (emit (Wait (2 ^ Z.of_nat (S retryCount) * 1000))
                   (emit (ConsoleError
                            ("Attempt " ++ Str.of_nat (retryCount + 1) ++ " failed:")
                            error)
                      (count_fetch (emit (Fetch apiUrlBase payload) w)))))
      as (n & events & Hn & Htrace & Hfetches & Hreq & Hwaits & Hend); [lia|].
    exists (S n). eexists.
    split; [lia|].
    split; [rewrite Htrace; simpl; rewrite <- !app_assoc; reflexivity|].
    split; [rewrite Hfetches; simpl; lia|].
    split; [simpl; rewrite Hreq; reflexivity|].
    split.
    + simpl. rewrite Hwaits.
      destruct n as [|m]; [lia|]. simpl. rewrite Nat.sub_0_r. reflexivity.
    + destruct Hend as [Hres|[Hthrow ->]]; [left; exact Hres|right; split; [exact Hthrow|reflexivity]].
Qed.

(** X7.  [generateResponse] ends in one of two ways only: it returns a
    result, or it throws the terminal error of line 136 after five calls.
    It never returns [undefined] and no other exception leaves it. *)
Theorem generateResponse_outcomes userQuery systemPrompt isGrounded isStructured w :
  (exists result,
     fst (generateResponse userQuery systemPrompt isGrounded isStructured w)
       = Normal (Some result)) \/
  (fst (generateResponse userQuery systemPrompt isGrounded isStructured w)
     = Throw (Error "Max retries reached. Failed to generate content.") /\
   fetches (snd (generateResponse userQuery systemPrompt isGrounded isStructured w))
     = fetches w + 5).
Proof.
  unfold generateResponse. cbv zeta.
  destruct (@retryLoop_shape 4 (buildPayload userQuery systemPrompt isGrounded isStructured)
              0 w eq_refl)
    as (n & events & _ & _ & Hfetches & _ & _ & [Hres|[Hthrow ->]]).
  - left. exact Hres.
  - right. split; [exact Hthrow|exact Hfetches].
Qed.

(** X8.  One call of [generateResponse] makes at least one and at most
    five network calls, and every one of them, retries included, posts the
    same payload to the same URL. *)
Theorem generateResponse_requests userQuery systemPrompt isGrounded isStructured w :
  exists n events,
    1 <= n <= 5 /\
    trace (snd (generateResponse userQuery systemPrompt isGrounded isStructured w))
      = (trace w ++ events)%list /\
    fetches (snd (generateResponse userQuery systemPrompt isGrounded isStructured w))
      = fetches w + n /\
    requestsOf events
      = repeat (apiUrlBase,
                buildPayload userQuery systemPrompt isGrounded isStructured) n.
Proof.
  unfold generateResponse. cbv zeta.
  destruct (@retryLoop_shape 4 (buildPayload userQuery systemPrompt isGrounded isStructured)
              0 w eq_refl)
    as (n & events & Hn & Htrace & Hfetches & Hreq & _ & _).
  exists n, events. auto.
Qed.

(** X9.  The waits of one call of [generateResponse] are the first ones of
    2000, 4000, 8000 and 16000 ms, one before each call but the first; all
    together they never exceed 30 seconds. *)
Theorem generateResponse_backoff userQuery systemPrompt isGrounded isStructured w :
  exists n events,
    trace (snd (generateResponse userQuery systemPrompt isGrounded isStructured w))
      = (trace w ++ events)%list /\
    length (requestsOf events) = n /\
    waitsOf events = firstn (n - 1) [2000; 4000; 8000; 16000]%Z /\
    (fold_right Z.add 0 (waitsOf events) <= 30000)%Z.
Proof.
  unfold generateResponse. cbv zeta.
  destruct (@retryLoop_shape 4 (buildPayload userQuery systemPrompt isGrounded isStructured)
              0 w eq_refl)
    as (n & events & Hn & Htrace & _ & Hreq & Hwaits & _).
  exists n, events.
  split; [exact Htrace|].
  split; [rewrite Hreq; apply repeat_length|].
  rewrite Hwaits.
  destruct n as [|[|[|[|[|[|n]]]]]]; try lia; split; (reflexivity || (vm_compute; discriminate)).
Qed.

(** A run whose first [k] attempts fail and whose next one succeeds
    returns the result of that one. *)
Lemma retryLoop_recovers k : forall payload retryCount w response result,
  retryCount + k < maxRetries ->
  (forall i, i < k -> failure (network w (fetches w + i) payload) <> None) ->
  network w (fetches w + k) payload = Resolved response ->
  handleResponse response = Normal result ->
  exists events,
    fst (retryLoop payload retryCount w) = Normal (Some result) /\
    trace (snd (retryLoop payload retryCount w)) = (trace w ++ events)%list /\
    fetches (snd (retryLoop payload retryCount w)) = fetches w + S k /\
    length (requestsOf events) = S k /\
    waitsOf events = map backoffDelay (seq (S retryCount) k).
Proof.
  induction k as [|k IH]; intros payload retryCount w response result Hlt Hfail Hnet Hok.
  - rewrite Nat.add_0_r in Hnet.
    rewrite retryLoop_eq.
    destruct (lt_dec retryCount maxRetries) as [_|Hge]; [|lia].
    rewrite attempt_eq, Hnet, Hok.
    exists [Fetch apiUrlBase payload]. simpl.
    repeat split; try reflexivity. lia.
  - destruct (failure (network w (fetches w) payload)) as [e|] eqn:He.
    2:{ exfalso. apply (Hfail 0); [lia|]. rewrite Nat.add_0_r. exact He. }
    rewrite (@retryLoop_failed payload retryCount w e); [|lia|exact He].
    cbv zeta.
    destruct (le_dec maxRetries (S retryCount)) as [Hle|_]; [lia|].
    edestruct (IH payload (S retryCount)
                 (emit (Wait (2 ^ Z.of_nat (S retryCount) * 1000))
                    (emit (ConsoleError
                             ("Attempt " ++ Str.of_nat (retryCount + 1) ++ " failed:") e)
                       (count_fetch (emit (Fetch apiUrlBase payload) w))))
                 response result)
      as (events & Hres & Htrace & Hfetches & Hreq & Hwaits).
    + lia.
    + intros i Hi. simpl.
      replace (S (fetches w + i)) with (fetches w + S i) by lia.
      apply Hfail. lia.
    + simpl. replace (S (fetches w + k)) with (fetches w + S k) by lia. exact Hnet.
    + exact Hok.
    + eexists.
      split; [exact Hres|].
      split; [rewrite Htrace; simpl; rewrite <- !app_assoc; reflexivity|].
      split; [rewrite Hfetches; simpl; lia|].
      split; [simpl; rewrite Hreq; reflexivity|].
      simpl. rewrite Hwaits. reflexivity.
Qed.

(** X10.  [generateResponse] stops at the first attempt that succeeds: when
    the first [k] attempts fail, [k] at most 4, and the next one succeeds,
    it returns the result of that attempt after [k + 1] calls and the first
    [k] waits of the schedule. *)
Theorem generateResponse_stops_at_first_success
    userQuery systemPrompt isGrounded isStructured w k response result :
  k <= 4 ->
  (forall i, i < k ->
     failure (network w (fetches w + i)
                (buildPayload userQuery systemPrompt isGrounded isStructured)) <> None) ->
  network w (fetches w + k) (buildPayload userQuery systemPrompt isGrounded isStructured)
    = Resolved response ->
  handleResponse response = Normal result ->
  exists events,
    fst (generateResponse userQuery systemPrompt isGrounded isStructured w)
      = Normal (Some result) /\
    trace (snd (generateResponse userQuery systemPrompt isGrounded isStructured w))
      = (trace w ++ events)%list /\
    fetches (snd (generateResponse userQuery systemPrompt isGrounded isStructured w))
      = fetches w + k + 1 /\
    length (requestsOf events) = k + 1 /\
    waitsOf events = firstn k [2000; 4000; 8000; 16000]%Z.
Proof.
  intros Hk Hfail Hnet Hok.
  unfold generateResponse. cbv zeta.
  destruct (@retryLoop_recovers k (buildPayload userQuery systemPrompt isGrounded isStructured)
              0 w response result)
    as (events & Hres & Htrace & Hfetches & Hreq & Hwaits);
    [unfold maxRetries; lia|exact Hfail|exact Hnet|exact Hok|].
  exists events.
  split; [exact Hres|].
  split; [exact Htrace|].
  split; [lia|].
  split; [lia|].
  rewrite Hwaits.
  destruct k as [|[|[|[|[|k]]]]]; try lia; reflexivity.
Qed.

Lemma generateResponse_stops_at_first_success_flaky :
  exists events,
    fst (generateResponse "What is 2+2?" "Be brief." false false flakyWorld)
      = Normal (Some {| text := "4."; sources := [] |}) /\
    trace (snd (generateResponse "What is 2+2?" "Be brief." false false flakyWorld))
      = (trace flakyWorld ++ events)%list /\
    fetches (snd (generateResponse "What is 2+2?" "Be brief." false false flakyWorld))
      = fetches flakyWorld + 2 + 1 /\
    length (requestsOf events) = 2 + 1 /\
    waitsOf events = firstn 2 [2000; 4000; 8000; 16000]%Z.
Proof.
  apply (@generateResponse_stops_at_first_success
           "What is 2+2?" "Be brief." false false flakyWorld 2
           {| status := 200; json := Parsed (bodyOf "4." None) |}
           {| text := "4."; sources := [] |}).
  - lia.
  - intros i Hi. destruct i as [|[|i]]; simpl; [discriminate|discriminate|lia].
  - reflexivity.
  - reflexivity.
Defined.

(** X11.  A result that [generateResponse] returns has a text that is not
    empty, and each of its sources has a [uri] and a [title], neither of
    them empty. *)
Theorem generateResponse_result_wellformed
    userQuery systemPrompt isGrounded isStructured w result w' :
  generateResponse userQuery systemPrompt isGrounded isStructured w
    = (Normal (Some result), w') ->
  text result <> "" /\
  Forall (fun source =>
            exists u t, uri source = Some u /\ title source = Some t /\
                        u <> "" /\ t <> "")
         (sources result).
Proof.
  unfold generateResponse. intros Hrun.
  apply (@retryLoop_success maxRetries) in Hrun; [|reflexivity].
  destruct Hrun as (n & response & body & _ & _ & _ & _ & _ & _ & Hextract).
  unfold extractResult in Hextract.
  destruct (first (Response.candidates body)) as [candidate|]; [|discriminate].
  destruct (match Response.content candidate with
            | Some content => first (Response.parts content)
            | None => None
            end) as [textPart|]; [|discriminate].
  destruct (Response.text textPart) as [t|]; simpl in Hextract; [|discriminate].
  destruct (String.eqb t "") eqn:Ht; simpl in Hextract; [discriminate|].
  injection Hextract as <-. simpl.
  split; [apply String.eqb_neq; exact Ht|].
  assert (forall l, Forall (fun source =>
            exists u t, uri source = Some u /\ title source = Some t /\
                        u <> "" /\ t <> "") (filter keepSource l)) as Hfilter.
  { intros l. apply Forall_forall. intros source Hin.
    apply filter_In in Hin. destruct Hin as [_ Hkeep].
    unfold keepSource, truthy in Hkeep.
    destruct (uri source) as [u|]; [|discriminate].
    destruct (title source) as [t'|]; [|rewrite andb_false_r in Hkeep; discriminate].
    apply andb_true_iff in Hkeep. destruct Hkeep as [Hu Ht'].
    exists u, t'. repeat split.
    - apply String.eqb_neq. apply negb_true_iff. exact Hu.
    - apply String.eqb_neq. apply negb_true_iff. exact Ht'. }
  destruct (Response.groundingMetadata candidate) as [metadata|]; [|constructor].
  destruct (Response.groundingAttributions metadata) as [attributions|]; [|constructor].
  apply Hfilter.
Qed.

Lemma generateResponse_result_wellformed_grounded :
  "4." <> "" /\
  Forall (fun source =>
            exists u t, uri source = Some u /\ title source = Some t /\
                        u <> "" /\ t <> "")
         [ {| uri := Some "https://example.org/a"; title := Some "A" |} ].
Proof.
  apply (@generateResponse_result_wellformed "What is 2+2?" "Be brief." true false
           groundedWorld
           {| text := "4.";
              sources := [ {| uri := Some "https://example.org/a"; title := Some "A" |} ] |}
           (snd (generateResponse "What is 2+2?" "Be brief." true false groundedWorld))).
  vm_compute; reflexivity.
Defined.

(** ** The submit handler *)

Lemma appendLinks_children sources : forall index e,
  childNodes (appendLinks sources index e)
    = (childNodes e ++ linksFrom sources index)%list.
Proof.
  induction sources as [|source rest IH]; intros index e; simpl.
  - rewrite app_nil_r. reflexivity.
  - rewrite IH. simpl. rewrite <- app_assoc. reflexivity.
Qed.

Lemma linksFrom_nth sources : forall index i,
  nth_error (linksFrom sources index) i
    = option_map (fun source => citationLink source (index + i)) (nth_error sources i).
Proof.
  induction sources as [|source rest IH]; intros index i.
  - destruct i; reflexivity.
  - destruct i as [|i]; simpl.
    + rewrite Nat.add_0_r. reflexivity.
    + rewrite IH. rewrite Nat.add_succ_r. reflexivity.
Qed.

Lemma linksFrom_length sources : forall index,
  length (linksFrom sources index) = length sources.
Proof.
  induction sources as [|source rest IH]; intros index; simpl; [|rewrite IH]; reflexivity.
Qed.

Section Submit.
Context {engine : Engine}.

(** X5.  [displayResult] replaces the citations shown before by one link
    per source, in the order of the sources: the link of the source at
    position [i] is numbered [i + 1], shows its title, points at its [uri]
    and opens in a new tab; the citation container is shown exactly when
    there is a source. *)
Theorem displayResult_citations text sources isStructured w :
  let w' := snd (displayResult text sources isStructured w) in
  length (childNodes (citationsDiv (page w'))) = length sources /\
  (forall i source,
     nth_error sources i = Some source ->
     exists link,
       nth_error (childNodes (citationsDiv (page w'))) i = Some link /\
       href link = text_of (uri source) /\
       anchor_text link = Str.of_nat (i + 1) ++ ". " ++ text_of (title source) /\
       target link = "_blank") /\
  hidden (citationContainer (page w'))
    = match sources with [] => true | _ :: _ => false end.
Proof.
  cbv zeta. rewrite displayResult_eq.
  cbn [snd resolved page citationsDiv citationContainer].
  rewrite appendLinks_children. cbn [El.set_innerHTML childNodes app].
  split; [apply linksFrom_length|].
  split; [|reflexivity].
  intros i source Hnth.
  rewrite linksFrom_nth, Hnth. simpl.
  eexists. split; [reflexivity|]. repeat split; reflexivity.
Qed.

(** X1.  When the query is empty once trimmed, [handleFormSubmit] asks for
    a query and returns: it makes no network call, it does not touch the
    two variables of the module, and it does not put the page in its
    loading state. *)
Theorem handleFormSubmit_rejects_blank_query w :
  Str.trim (value (user_query (page w))) = "" ->
  handleFormSubmit w =
    (Normal tt,
     on_page (on_responseContainer
                (El.set_innerHTML
                   (Str.dq "<p class='text-red-500'>Please enter a user query.</p>")))
       (emit PreventDefault w)) /\
  requestsOf (skipn (length (trace w)) (trace (snd (handleFormSubmit w)))) = [] /\
  fetches (snd (handleFormSubmit w)) = fetches w /\
  currentResponse (snd (handleFormSubmit w)) = currentResponse w /\
  currentSystemPrompt (snd (handleFormSubmit w)) = currentSystemPrompt w /\
  generateButton (page (snd (handleFormSubmit w))) = generateButton (page w).
Proof.
  intros Hblank.
  assert (handleFormSubmit w =
    (Normal tt,
     on_page (on_responseContainer
                (El.set_innerHTML
                   (Str.dq "<p class='text-red-500'>Please enter a user query.</p>")))
       (emit PreventDefault w))) as Hrun.
  { unfold handleFormSubmit, bind, gets, modify. cbv beta iota. cbn [page emit].
    rewrite Hblank. reflexivity. }
  rewrite Hrun. cbn [snd].
  split; [reflexivity|].
  split.
  { cbn [on_page emit trace].
    rewrite skipn_app, skipn_all, Nat.sub_diag. reflexivity. }
  repeat split; reflexivity.
Qed.

(** X2.  When the query is not empty, [handleFormSubmit] returns normally
    whatever the network does, and it leaves the page out of its loading
    state: the button is enabled and carries its label again, the
    indicator is hidden, and the response container no longer shows the
    spinner. *)
Theorem handleFormSubmit_settles w :
  Str.trim (value (user_query (page w))) <> "" ->
  fst (handleFormSubmit w) = Normal tt /\
  disabled (generateButton (page (snd (handleFormSubmit w)))) = false /\
  textContent (buttonText (page (snd (handleFormSubmit w)))) = "Generate Response" /\
  hidden (loadingIndicator (page (snd (handleFormSubmit w)))) = true /\
  innerHTML (responseContainer (page (snd (handleFormSubmit w)))) <> loadingHtml.
Proof.
  intros Hquery. apply String.eqb_neq in Hquery.
  unfold handleFormSubmit, bind, gets, modify. cbv beta iota. cbn [page emit].
  rewrite Hquery.
  unfold setUILoading, update, modify, try_finally, try_catch, destructure, bind,
    throw, ret, console_error.
  cbv beta iota.
  match goal with
  | |- context [generateResponse ?q ?s ?g ?st ?w0] =>
      destruct (generateResponse q s g st w0) as [[[result|]|error] w1]
  end.
  - rewrite displayResult_eq. cbn.
    repeat split.
    unfold shownHtml, summaryHtml, parseErrorHtml, loadingHtml.
    destruct (checked (structuredCheckbox (page w)));
      [destruct (parsed_final_summary (text result))|]; simpl; discriminate.
  - cbn. repeat split. unfold loadingHtml. simpl. discriminate.
  - cbn. repeat split. unfold loadingHtml. simpl. discriminate.
Qed.

(** X3.  When the query is not empty and every network attempt fails,
    [handleFormSubmit] makes the five calls, logs the terminal error and
    shows its message in the response container; [currentResponse] keeps
    the value it had. *)
Theorem handleFormSubmit_reports_failure w :
  Str.trim (value (user_query (page w))) <> "" ->
  alwaysFails (network w) ->
  exists events,
    trace (snd (handleFormSubmit w))
      = (events ++ [ConsoleError "Critical Generation Error:"
                      (Error "Max retries reached. Failed to generate content.")])%list /\
    innerHTML (responseContainer (page (snd (handleFormSubmit w))))
      = Str.dq "<p class='text-red-500'>Generation failed: Max retries reached. Failed to generate content.. Check the console for details.</p>" /\
    fetches (snd (handleFormSubmit w)) = fetches w + 5 /\
    currentResponse (snd (handleFormSubmit w)) = currentResponse w.
Proof.
  intros Hquery Hfail. apply String.eqb_neq in Hquery.
  unfold handleFormSubmit, bind, gets, modify. cbv beta iota. cbn [page emit].
  rewrite Hquery.
  unfold setUILoading, update, modify, try_finally, try_catch, destructure, bind,
    throw, ret, console_error, generateResponse.
  cbv beta iota zeta.
  match goal with
  | |- context [retryLoop ?payload 0 ?w0] =>
      destruct (@retryLoop_exhausts payload w0 Hfail)
        as (e1 & e2 & e3 & e4 & e5 & _ & _ & _ & _ & _ & Hrun);
      rewrite Hrun
  end.
  cbn. eexists.
  split; [reflexivity|].
  split; [reflexivity|].
  split; [lia|reflexivity].
Qed.

(** X4.  When the query is not empty and the first network attempt
    succeeds, [handleFormSubmit] makes that one call and resolves its
    result: the response container shows it, [currentResponse] holds what
    [displayResult] stores for it, one citation is listed per source, and
    [currentSystemPrompt] holds the trimmed system instruction.  In
    structured mode what is shown and stored is the value of
    [final_summary], or the error indicator and the raw text when the
    parse, the property read or the string conversion throws. *)
Theorem handleFormSubmit_shows_first_answer w response result :
  Str.trim (value (user_query (page w))) <> "" ->
  network w (fetches w)
    (buildPayload (Str.trim (value (user_query (page w))))
       (Str.trim (value (system_instruction (page w))))
       (checked (google_grounding (page w)))
       (checked (structuredCheckbox (page w))))
    = Resolved response ->
  handleResponse response = Normal result ->
  fetches (snd (handleFormSubmit w)) = fetches w + 1 /\
  innerHTML (responseContainer (page (snd (handleFormSubmit w))))
    = shownHtml (text result) (checked (structuredCheckbox (page w))) /\
  currentResponse (snd (handleFormSubmit w))
    = storedResponse (text result) (checked (structuredCheckbox (page w))) /\
  childNodes (citationsDiv (page (snd (handleFormSubmit w))))
    = linksFrom (sources result) 0 /\
  currentSystemPrompt (snd (handleFormSubmit w))
    = Str.trim (value (system_instruction (page w))).
Proof.
  intros Hquery Hnet Hok. apply String.eqb_neq in Hquery.
  unfold handleFormSubmit, bind, gets, modify. cbv beta iota. cbn [page emit].
  rewrite Hquery.
  unfold setUILoading, update, modify, try_finally, try_catch, destructure, bind,
    throw, ret, console_error, generateResponse.
  cbv beta iota zeta.
  match goal with
  | |- context [retryLoop ?payload 0 ?w0] =>
      rewrite (retryLoop_eq payload 0 w0)
  end.
  destruct (lt_dec 0 maxRetries) as [_|Hge]; [|unfold maxRetries in Hge; lia].
  rewrite attempt_eq.
  cbn [network fetches on_page emit set_currentSystemPrompt].
  rewrite Hnet, Hok.
  rewrite displayResult_eq.
  cbn -[shownHtml storedResponse appendLinks Nat.add].
  rewrite appendLinks_children.
  repeat split; try reflexivity. lia.
Qed.

(** The state a submit whose first attempt succeeds leaves behind. *)
Lemma handleFormSubmit_first_answer_state w response result :
  Str.trim (value (user_query (page w))) <> "" ->
  network w (fetches w)
    (buildPayload (Str.trim (value (user_query (page w))))
       (Str.trim (value (system_instruction (page w))))
       (checked (google_grounding (page w)))
       (checked (structuredCheckbox (page w))))
    = Resolved response ->
  handleResponse response = Normal result ->
  currentResponse (snd (handleFormSubmit w))
    = storedResponse (text result) (checked (structuredCheckbox (page w))) /\
  network (snd (handleFormSubmit w)) = network w /\
  fetches (snd (handleFormSubmit w)) = fetches w + 1.
Proof.
  intros Hquery Hnet Hok. apply String.eqb_neq in Hquery.
  unfold handleFormSubmit, bind, gets, modify. cbv beta iota. cbn [page emit].
  rewrite Hquery.
  unfold setUILoading, update, modify, try_finally, try_catch, destructure, bind,
    throw, ret, console_error, generateResponse.
  cbv beta iota zeta.
  match goal with
  | |- context [retryLoop ?payload 0 ?w0] =>
      rewrite (retryLoop_eq payload 0 w0)
  end.
  destruct (lt_dec 0 maxRetries) as [_|Hge]; [|unfold maxRetries in Hge; lia].
  rewrite attempt_eq.
  cbn [network fetches on_page emit set_currentSystemPrompt].
  rewrite Hnet, Hok.
  rewrite displayResult_eq.
  cbn -[shownHtml storedResponse appendLinks Nat.add].
  repeat split; try reflexivity. lia.
Qed.


End Submit.

Lemma handleFormSubmit_rejects_blank_query_spaces :
  @handleFormSubmit sampleEngine blankQueryWorld =
    (Normal tt,
     on_page (on_responseContainer
                (El.set_innerHTML
                   (Str.dq "<p class='text-red-500'>Please enter a user query.</p>")))
       (emit PreventDefault blankQueryWorld)) /\
  requestsOf (skipn (length (trace blankQueryWorld))
                (trace (snd (@handleFormSubmit sampleEngine blankQueryWorld)))) = [] /\
  fetches (snd (@handleFormSubmit sampleEngine blankQueryWorld)) = fetches blankQueryWorld /\
  currentResponse (snd (@handleFormSubmit sampleEngine blankQueryWorld))
    = currentResponse blankQueryWorld /\
  currentSystemPrompt (snd (@handleFormSubmit sampleEngine blankQueryWorld))
    = currentSystemPrompt blankQueryWorld /\
  generateButton (page (snd (@handleFormSubmit sampleEngine blankQueryWorld)))
    = generateButton (page blankQueryWorld).
Proof.
  apply (@handleFormSubmit_rejects_blank_query sampleEngine blankQueryWorld).
  vm_compute; reflexivity.
Defined.

Lemma handleFormSubmit_settles_offline :
  fst (@handleFormSubmit sampleEngine offlineWorld) = Normal tt /\
  disabled (generateButton (page (snd (@handleFormSubmit sampleEngine offlineWorld))))
    = false /\
  textContent (buttonText (page (snd (@handleFormSubmit sampleEngine offlineWorld))))
    = "Generate Response" /\
  hidden (loadingIndicator (page (snd (@handleFormSubmit sampleEngine offlineWorld))))
    = true /\
  innerHTML (responseContainer (page (snd (@handleFormSubmit sampleEngine offlineWorld))))
    <> loadingHtml.
Proof.
  apply (@handleFormSubmit_settles sampleEngine offlineWorld).
  vm_compute. discriminate.
Defined.

Lemma handleFormSubmit_reports_failure_offline :
  exists events,
    trace (snd (@handleFormSubmit sampleEngine offlineWorld))
      = (events ++ [ConsoleError "Critical Generation Error:"
                      (Error "Max retries reached. Failed to generate content.")])%list /\
    innerHTML (responseContainer (page (snd (@handleFormSubmit sampleEngine offlineWorld))))
      = Str.dq "<p class='text-red-500'>Generation failed: Max retries reached. Failed to generate content.. Check the console for details.</p>" /\
    fetches (snd (@handleFormSubmit sampleEngine offlineWorld)) = fetches offlineWorld + 5 /\
    currentResponse (snd (@handleFormSubmit sampleEngine offlineWorld))
      = currentResponse offlineWorld.
Proof.
  apply (@handleFormSubmit_reports_failure sampleEngine offlineWorld).
  - vm_compute. discriminate.
  - intros n payload. simpl. discriminate.
Defined.

Lemma handleFormSubmit_shows_first_answer_structured :
  (@shownHtml sampleEngine structuredAnswer true
     = Str.dq "<pre class='code-block'>Answer: 4</pre>" /\
   storedResponse structuredAnswer true = JString "Answer: 4") /\
  fetches (snd (@handleFormSubmit sampleEngine structuredWorld))
    = fetches structuredWorld + 1 /\
  innerHTML (responseContainer (page (snd (@handleFormSubmit sampleEngine structuredWorld))))
    = @shownHtml sampleEngine structuredAnswer true /\
  currentResponse (snd (@handleFormSubmit sampleEngine structuredWorld))
    = storedResponse structuredAnswer true /\
  childNodes (citationsDiv (page (snd (@handleFormSubmit sampleEngine structuredWorld))))
    = linksFrom [] 0 /\
  currentSystemPrompt (snd (@handleFormSubmit sampleEngine structuredWorld)) = "Be brief.".
Proof.
  split; [split; vm_compute; reflexivity|].
  apply (@handleFormSubmit_shows_first_answer sampleEngine structuredWorld
           {| status := 200; json := Parsed (bodyOf structuredAnswer None) |}
           {| text := structuredAnswer; sources := [] |}).
  - vm_compute. discriminate.
  - reflexivity.
  - reflexivity.
Defined.

(** ** The summarize action and the listeners *)

Lemma requestsOf_app events1 events2 :
  requestsOf (events1 ++ events2)%list = (requestsOf events1 ++ requestsOf events2)%list.
Proof. unfold requestsOf. apply flat_map_app. Qed.

Section Summarize.
Context {engine : Engine}.

(** X13.  When there is a response to summarize, every network call of
    [handleSummarize], and there is at least one and at most five, posts
    the same request: the response wrapped in the instruction of line 226,
    the fixed system prompt, no search tool and no output schema. *)
Theorem handleSummarize_request w :
  ToBoolean (currentResponse w) = true ->
  exists n events,
    1 <= n <= 5 /\
    trace (snd (handleSummarize w)) = (trace w ++ events)%list /\
    requestsOf events = repeat (apiUrlBase, summaryPayload (currentResponse w)) n.
Proof.
  intros Htruthy.
  unfold handleSummarize, bind, gets. rewrite Htruthy. cbn [negb].
  unfold update, modify, try_finally, try_catch, destructure, bind, throw, ret,
    console_error, generateResponse.
  cbv beta iota zeta.
  match goal with
  | |- context [retryLoop ?payload 0 ?w0] =>
      destruct (@retryLoop_shape 4 payload 0 w0 eq_refl)
        as (n & events & Hn & Htrace & _ & Hreq & _ & _);
      destruct (retryLoop payload 0 w0) as [[[result|]|error] w1]
  end; cbn [snd] in Htrace; cbn in Htrace.
  - exists n, events. cbn. auto.
  - exists n, (events ++ [ConsoleError "Summary Generation Error:"
                            destructuring_undefined])%list.
    cbn. rewrite Htrace, <- app_assoc, requestsOf_app, Hreq. cbn.
    rewrite app_nil_r. auto.
  - exists n, (events ++ [ConsoleError "Summary Generation Error:" error])%list.
    cbn. rewrite Htrace, <- app_assoc, requestsOf_app, Hreq. cbn.
    rewrite app_nil_r. auto.
Qed.

(** X14.  When there is a response to summarize, [handleSummarize] returns
    normally whatever the network does: the summarize button is enabled
    again, its loading indicator is hidden, the summary container is
    shown, and the response and its citations stay as they were. *)
Theorem handleSummarize_settles w :
  ToBoolean (currentResponse w) = true ->
  fst (handleSummarize w) = Normal tt /\
  disabled (summarize_button (page (snd (handleSummarize w)))) = false /\
  hidden (summary_loading (page (snd (handleSummarize w)))) = true /\
  hidden (summaryContainer (page (snd (handleSummarize w)))) = false /\
  responseContainer (page (snd (handleSummarize w))) = responseContainer (page w) /\
  citationsDiv (page (snd (handleSummarize w))) = citationsDiv (page w) /\
  citationContainer (page (snd (handleSummarize w))) = citationContainer (page w).
Proof.
  intros Htruthy.
  unfold handleSummarize, bind, gets. rewrite Htruthy. cbn [negb].
  unfold update, modify, try_finally, try_catch, destructure, bind, throw, ret,
    console_error.
  cbv beta iota.
  match goal with
  | |- context [generateResponse ?q ?s ?g ?st ?w0] =>
      destruct (generateResponse_frame q s g st w0) as (_ & _ & Hpage & _);
      destruct (generateResponse q s g st w0) as [[[result|]|error] w1]
  end; cbn in Hpage; cbn; rewrite Hpage; cbn; repeat split; reflexivity.
Qed.

(** X15.  When there is a response to summarize and the first network
    attempt succeeds, [handleSummarize] makes that one call and shows its
    text as the summary, each line feed replaced by a line break. *)
Theorem handleSummarize_shows_summary w response result :
  ToBoolean (currentResponse w) = true ->
  network w (fetches w) (summaryPayload (currentResponse w)) = Resolved response ->
  handleResponse response = Normal result ->
  fetches (snd (handleSummarize w)) = fetches w + 1 /\
  innerHTML (summaryText (page (snd (handleSummarize w))))
    = Str.replace_newlines "<br>" (text result) /\
  hidden (summaryContainer (page (snd (handleSummarize w)))) = false.
Proof.
  intros Htruthy Hnet Hok.
  unfold handleSummarize, bind, gets. rewrite Htruthy. cbn [negb].
  unfold update, modify, try_finally, try_catch, destructure, bind, throw, ret,
    console_error, generateResponse.
  cbv beta iota zeta.
  match goal with
  | |- context [retryLoop ?payload 0 ?w0] =>
      rewrite (retryLoop_eq payload 0 w0)
  end.
  destruct (lt_dec 0 maxRetries) as [_|Hge]; [|unfold maxRetries in Hge; lia].
  rewrite attempt_eq.
  cbn [network fetches on_page].
  change (buildPayload (summaryPromptFor (currentResponse w)) summarySystemPrompt
            false false)
    with (summaryPayload (currentResponse w)).
  rewrite Hnet, Hok.
  cbn -[Str.replace_newlines Nat.add].
  repeat split; try reflexivity. lia.
Qed.

(** X16.  When there is a response to summarize and every network attempt
    fails, [handleSummarize] makes the five calls, logs the terminal error
    and shows its message where the summary goes. *)
Theorem handleSummarize_reports_failure w :
  ToBoolean (currentResponse w) = true ->
  alwaysFails (network w) ->
  exists events,
    trace (snd (handleSummarize w))
      = (events ++ [ConsoleError "Summary Generation Error:"
                      (Error "Max retries reached. Failed to generate content.")])%list /\
    innerHTML (summaryText (page (snd (handleSummarize w))))
      = Str.dq "<p class='text-red-500'>Failed to generate summary: Max retries reached. Failed to generate content.</p>" /\
    hidden (summaryContainer (page (snd (handleSummarize w)))) = false /\
    fetches (snd (handleSummarize w)) = fetches w + 5.
Proof.
  intros Htruthy Hfail.
  unfold handleSummarize, bind, gets. rewrite Htruthy. cbn [negb].
  unfold update, modify, try_finally, try_catch, destructure, bind, throw, ret,
    console_error, generateResponse.
  cbv beta iota zeta.
  match goal with
  | |- context [retryLoop ?payload 0 ?w0] =>
      destruct (@retryLoop_exhausts payload w0 Hfail)
        as (e1 & e2 & e3 & e4 & e5 & _ & _ & _ & _ & _ & Hrun);
      rewrite Hrun
  end.
  cbn. eexists.
  split; [reflexivity|].
  split; [reflexivity|].
  split; [reflexivity|lia].
Qed.

(** X17.  After the listener of either checkbox has run, the two boxes are
    not both checked.  The listener of the structured-output box leaves
    that box as it is and shows the schema exactly when it is checked; the
    listener of the grounding box, when that box is checked, hides the
    schema, and otherwise changes nothing. *)
Theorem listeners_keep_modes_apart w :
  (checked (structuredCheckbox (page (snd (onStructuredChange w))))
   && checked (google_grounding (page (snd (onStructuredChange w)))) = false) /\
  checked (structuredCheckbox (page (snd (onStructuredChange w))))
    = checked (structuredCheckbox (page w)) /\
  hidden (jsonSchemaDisplay (page (snd (onStructuredChange w))))
    = negb (checked (structuredCheckbox (page w))) /\
  (checked (structuredCheckbox (page (snd (onGroundingChange w))))
   && checked (google_grounding (page (snd (onGroundingChange w)))) = false) /\
  checked (google_grounding (page (snd (onGroundingChange w))))
    = checked (google_grounding (page w)) /\
  (if checked (google_grounding (page w))
   then hidden (jsonSchemaDisplay (page (snd (onGroundingChange w)))) = true
   else snd (onGroundingChange w) = w).
Proof.
  unfold onStructuredChange, onGroundingChange, bind, gets, update, modify, ret.
  cbv beta iota.
  destruct (checked (structuredCheckbox (page w))) eqn:Hs;
    destruct (checked (google_grounding (page w))) eqn:Hg;
    cbn; rewrite ?Hs, ?Hg; repeat split; reflexivity.
Qed.

(** X18.  When the two boxes are not both checked, no request that
    [handleFormSubmit] sends carries both the search tool and the output
    schema. *)
Theorem handleFormSubmit_one_mode_at_most w :
  checked (structuredCheckbox (page w)) && checked (google_grounding (page w)) = false ->
  exists events,
    trace (snd (handleFormSubmit w)) = (trace w ++ events)%list /\
    Forall (fun request =>
              fst request = apiUrlBase /\
              (Request.tools (snd request) = None \/
               Request.generationConfig (snd request) = None))
           (requestsOf events).
Proof.
  intros Hmodes.
  unfold handleFormSubmit, bind, gets, modify. cbv beta iota. cbn [page emit].
  destruct (String.eqb (Str.trim (value (user_query (page w)))) "").
  { exists [PreventDefault]. cbn. split; [reflexivity|constructor]. }
  unfold setUILoading, update, modify, try_finally, try_catch, destructure, bind,
    throw, ret, console_error, generateResponse.
  cbv beta iota zeta.
  assert (forall q s n,
            Forall (fun request =>
                      fst request = apiUrlBase /\
                      (Request.tools (snd request) = None \/
                       Request.generationConfig (snd request) = None))
                   (repeat (apiUrlBase,
                            buildPayload q s (checked (google_grounding (page w)))
                              (checked (structuredCheckbox (page w)))) n)) as Hall.
  { intros q s n. apply Forall_forall. intros request Hin.
    apply repeat_spec in Hin. subst request. cbn [fst snd].
    split; [reflexivity|].
    destruct (checked (structuredCheckbox (page w))),
      (checked (google_grounding (page w)));
      try discriminate; cbn; auto. }
  match goal with
  | |- context [retryLoop ?payload 0 ?w0] =>
      destruct (@retryLoop_shape 4 payload 0 w0 eq_refl)
        as (n & events & _ & Htrace & _ & Hreq & _ & _);
      destruct (retryLoop payload 0 w0) as [[[result|]|error] w1]
  end; cbn [snd] in Htrace; cbn in Htrace.
  - rewrite displayResult_eq. cbn. rewrite Htrace, <- app_assoc.
    eexists. split; [reflexivity|].
    rewrite (requestsOf_app [PreventDefault] events), Hreq. cbn. apply Hall.
  - cbn. rewrite Htrace, <- !app_assoc.
    eexists. split; [reflexivity|].
    rewrite (requestsOf_app [PreventDefault]), requestsOf_app, Hreq. cbn.
    rewrite app_nil_r. apply Hall.
  - cbn. rewrite Htrace, <- !app_assoc.
    eexists. split; [reflexivity|].
    rewrite (requestsOf_app [PreventDefault]), requestsOf_app, Hreq. cbn.
    rewrite app_nil_r. apply Hall.
Qed.

End Summarize.

Lemma handleSummarize_request_answered :
  exists n events,
    1 <= n <= 5 /\
    trace (snd (@handleSummarize sampleEngine answeredOffline))
      = (trace answeredOffline ++ events)%list /\
    requestsOf events
      = repeat (apiUrlBase, @summaryPayload sampleEngine (currentResponse answeredOffline)) n.
Proof.
  apply (@handleSummarize_request sampleEngine answeredOffline).
  reflexivity.
Defined.

Lemma handleSummarize_settles_answered :
  fst (@handleSummarize sampleEngine answeredOffline) = Normal tt /\
  disabled (summarize_button (page (snd (@handleSummarize sampleEngine answeredOffline))))
    = false /\
  hidden (summary_loading (page (snd (@handleSummarize sampleEngine answeredOffline))))
    = true /\
  hidden (summaryContainer (page (snd (@handleSummarize sampleEngine answeredOffline))))
    = false /\
  responseContainer (page (snd (@handleSummarize sampleEngine answeredOffline)))
    = responseContainer (page answeredOffline) /\
  citationsDiv (page (snd (@handleSummarize sampleEngine answeredOffline)))
    = citationsDiv (page answeredOffline) /\
  citationContainer (page (snd (@handleSummarize sampleEngine answeredOffline)))
    = citationContainer (page answeredOffline).
Proof.
  apply (@handleSummarize_settles sampleEngine answeredOffline).
  reflexivity.
Defined.

Lemma handleSummarize_shows_summary_answered :
  fetches (snd (@handleSummarize sampleEngine answeredOnline)) = fetches answeredOnline + 1 /\
  innerHTML (summaryText (page (snd (@handleSummarize sampleEngine answeredOnline))))
    = Str.replace_newlines "<br>" "Four." /\
  hidden (summaryContainer (page (snd (@handleSummarize sampleEngine answeredOnline))))
    = false.
Proof.
  apply (@handleSummarize_shows_summary sampleEngine answeredOnline
           {| status := 200; json := Parsed (bodyOf "Four." None) |}
           {| text := "Four."; sources := [] |}).
  - reflexivity.
  - reflexivity.
  - reflexivity.
Defined.

Lemma handleSummarize_reports_failure_answered :
  exists events,
    trace (snd (@handleSummarize sampleEngine answeredOffline))
      = (events ++ [ConsoleError "Summary Generation Error:"
                      (Error "Max retries reached. Failed to generate content.")])%list /\
    innerHTML (summaryText (page (snd (@handleSummarize sampleEngine answeredOffline))))
      = Str.dq "<p class='text-red-500'>Failed to generate summary: Max retries reached. Failed to generate content.</p>" /\
    hidden (summaryContainer (page (snd (@handleSummarize sampleEngine answeredOffline))))
      = false /\
    fetches (snd (@handleSummarize sampleEngine answeredOffline))
      = fetches answeredOffline + 5.
Proof.
  apply (@handleSummarize_reports_failure sampleEngine answeredOffline).
  - reflexivity.
  - intros n payload. simpl. discriminate.
Defined.

Lemma handleFormSubmit_one_mode_at_most_after_listener :
  exists events,
    trace (snd (@handleFormSubmit sampleEngine afterStructuredListener))
      = (trace afterStructuredListener ++ events)%list /\
    Forall (fun request =>
              fst request = apiUrlBase /\
              (Request.tools (snd request) = None \/
               Request.generationConfig (snd request) = None))
           (requestsOf events).
Proof.
  apply (@handleFormSubmit_one_mode_at_most sampleEngine afterStructuredListener).
  vm_compute; reflexivity.
Defined.

(** ** Responses that are refused *)

(** X12.  A response whose status is outside 200-299 is never accepted:
    the attempt fails.  When its body is not JSON, the error names the
    status twice; when its body is the JSON value [null], the attempt fails
    with the [TypeError] of reading a property of [null]; when its body
    parses to anything else, the error names the status, followed by the
    message of the provider when the body carries one that is not empty,
    and by the status again when it carries none or an empty one. *)
Theorem handleResponse_refuses_status response :
  ok response = false ->
  (forall result, handleResponse response <> Normal result) /\
  (forall reason,
     json response = Unparsable reason ->
     handleResponse response
       = Throw (Error ("API Error (" ++ Str.of_nat (status response) ++ "): "
                       ++ "HTTP error! status: " ++ Str.of_nat (status response)))) /\
  (forall typeError,
     json response = ParsedNull typeError ->
     handleResponse response = Throw typeError) /\
  (forall body,
     json response = Parsed body ->
     handleResponse response
       = Throw (Error ("API Error (" ++ Str.of_nat (status response) ++ "): "
                       ++ match providerMessage body with
                          | Some detail => detail
                          | None => "HTTP error! status: "
                                      ++ Str.of_nat (status response)
                          end))) /\
  (forall body detail,
     providerMessage body = Some detail <->
     detail <> "" /\
     exists info,
       Response.error body = Some info /\ Response.message info = Some detail).
Proof.
  intros Hok. unfold handleResponse. rewrite Hok. cbn [negb].
  split; [|split; [|split; [|split]]].
  - intros result. destruct (json response); discriminate.
  - intros reason ->. reflexivity.
  - intros typeError ->. reflexivity.
  - intros body ->. unfold providerMessage.
    destruct (Response.error body) as [info|]; [|reflexivity].
    destruct (Response.message info) as [m|]; [|reflexivity].
    cbn. destruct (String.eqb m ""); reflexivity.
  - intros body detail. unfold providerMessage. split.
    + destruct (Response.error body) as [info|]; [|discriminate].
      destruct (Response.message info) as [m|] eqn:Hmessage; [|discriminate].
      destruct (String.eqb m "") eqn:Hm; [discriminate|].
      intros [= <-]. split; [apply String.eqb_neq; exact Hm|].
      exists info. split; [reflexivity|exact Hmessage].
    + intros [Hdetail (info & -> & ->)].
      apply String.eqb_neq in Hdetail. rewrite Hdetail. reflexivity.
Qed.

Lemma handleResponse_refuses_status_quota :
  ok quotaExceeded = false /\
  providerMessage (bodyOfError "Quota exceeded.") = Some "Quota exceeded." /\
  handleResponse quotaExceeded
    = Throw (Error "API Error (429): Quota exceeded.").
Proof.
  split; [reflexivity|]. split; [reflexivity|].
  destruct (@handleResponse_refuses_status quotaExceeded eq_refl)
    as (_ & _ & _ & Hbody & _).
  exact (Hbody (bodyOfError "Quota exceeded.") eq_refl).
Defined.

(** ** The four replacements *)

Module MarkdownFacts.
Import Str.
Local Open Scope list_scope.

Lemma chars_app s1 s2 : chars (s1 ++ s2)%string = chars s1 ++ chars s2.
Proof.
  unfold chars. induction s1 as [|c s1 IH]; simpl; [|rewrite IH]; reflexivity.
Qed.

Lemma of_chars_app l1 l2 : of_chars (l1 ++ l2) = (of_chars l1 ++ of_chars l2)%string.
Proof.
  unfold of_chars. induction l1 as [|c l1 IH]; simpl; [|rewrite IH]; reflexivity.
Qed.

Lemma chars_of_chars l : chars (of_chars l) = l.
Proof. apply list_ascii_of_string_of_list_ascii. Qed.

Lemma of_chars_chars s : of_chars (chars s) = s.
Proof. apply string_of_list_ascii_of_string. Qed.

(** What [terminator_at] tests, read off its patterns. *)
Lemma terminator_at_eq cs :
  terminator_at cs =
    match cs with
    | [] => false
    | a :: rest =>
        ((code a =? 10) || (code a =? 13)
         || ((code a =? 226)
             && match rest with
                | b :: c :: _ => (code b =? 128) && ((code c =? 168) || (code c =? 169))
                | _ => false
                end))%N
    end.
Proof.
  destruct cs as [|a rest]; [reflexivity|].
  destruct a as [[] [] [] [] [] [] [] []]; try reflexivity.
  destruct rest as [|b [|c rest]]; try reflexivity.
  - destruct b as [[] [] [] [] [] [] [] []]; reflexivity.
  - destruct b as [[] [] [] [] [] [] [] []]; try reflexivity.
    destruct c as [[] [] [] [] [] [] [] []]; reflexivity.
Qed.

Lemma has_close_step c c2 r :
  has_close (c :: c2 :: r) =
    if is_star c && is_star c2 then true
    else if terminator_at (c :: c2 :: r) then false
    else has_close (c2 :: r).
Proof. reflexivity. Qed.

Lemma replace_bold_step inside c c2 r :
  replace_bold inside (c :: c2 :: r) =
    if is_star c && is_star c2 then
      if inside then chars "</strong>" ++ replace_bold false r
      else if has_close r then chars "<strong>" ++ replace_bold true r
      else c :: replace_bold false (c2 :: r)
    else c :: replace_bold inside (c2 :: r).
Proof. reflexivity. Qed.

Lemma replace_line_step marker open_ close_ skip inside c cs :
  replace_line marker open_ close_ skip inside (c :: cs) =
    match skip with
    | S k => replace_line marker open_ close_ k inside cs
    | O =>
        if inside then
          if terminator_at (c :: cs)
          then close_ ++ c :: replace_line marker open_ close_ 0 false cs
          else c :: replace_line marker open_ close_ 0 true cs
        else if starts_with marker (c :: cs)
        then open_ ++ replace_line marker open_ close_ (length marker - 1) true cs
        else c :: replace_line marker open_ close_ 0 false cs
    end.
Proof. reflexivity. Qed.

Lemma terminator_at_split l1 l2 :
  l1 <> [] -> terminator_at (l1 ++ lineFeed :: l2) = terminator_at l1.
Proof.
  intros Hne. rewrite !terminator_at_eq.
  destruct l1 as [|a [|b [|c r]]]; [congruence| | |reflexivity]; simpl.
  - destruct l2; simpl; rewrite ?andb_false_r; reflexivity.
  - rewrite !andb_false_r. reflexivity.
Qed.

Lemma terminator_at_lineFeed l : terminator_at (lineFeed :: l) = true.
Proof. rewrite terminator_at_eq. reflexivity. Qed.

Lemma has_close_lineFeed l : has_close (lineFeed :: l) = false.
Proof.
  destruct l as [|c l]; [reflexivity|].
  rewrite has_close_step, terminator_at_lineFeed. reflexivity.
Qed.

(** A closing pair is looked for on the line only. *)
Lemma has_close_split l1 l2 :
  has_close (l1 ++ lineFeed :: l2) = has_close l1.
Proof.
  induction l1 as [|c l1 IH]; [apply has_close_lineFeed|].
  destruct l1 as [|c2 r].
  - change ([c] ++ lineFeed :: l2) with (c :: lineFeed :: l2).
    rewrite has_close_step, has_close_lineFeed.
    replace (is_star lineFeed) with false by reflexivity.
    rewrite andb_false_r.
    destruct (terminator_at (c :: lineFeed :: l2)); reflexivity.
  - change ((c :: c2 :: r) ++ lineFeed :: l2) with (c :: c2 :: (r ++ lineFeed :: l2)).
    rewrite !has_close_step.
    destruct (is_star c && is_star c2); [reflexivity|].
    change (c :: c2 :: r ++ lineFeed :: l2) with ((c :: c2 :: r) ++ lineFeed :: l2).
    rewrite terminator_at_split by discriminate.
    destruct (terminator_at (c :: c2 :: r)); [reflexivity|].
    exact IH.
Qed.

(** The first replacement works line by line. *)
Lemma replace_bold_split n : forall l1 inside l2,
  length l1 <= n ->
  (inside = true -> has_close l1 = true) ->
  replace_bold inside (l1 ++ lineFeed :: l2)
    = replace_bold inside l1 ++ lineFeed :: replace_bold false l2.
Proof.
  induction n as [|n IH]; intros l1 inside l2 Hlen Hinv.
  - destruct l1; [|simpl in Hlen; lia].
    destruct inside; [specialize (Hinv eq_refl); discriminate|].
    destruct l2; reflexivity.
  - destruct l1 as [|c [|c2 r]].
    + destruct inside; [specialize (Hinv eq_refl); discriminate|].
      destruct l2; reflexivity.
    + destruct inside; [specialize (Hinv eq_refl); discriminate|].
      change ([c] ++ lineFeed :: l2) with (c :: lineFeed :: l2).
      rewrite replace_bold_step.
      replace (is_star lineFeed) with false by reflexivity.
      rewrite andb_false_r.
      destruct l2; reflexivity.
    + change ((c :: c2 :: r) ++ lineFeed :: l2) with (c :: c2 :: (r ++ lineFeed :: l2)).
      rewrite !replace_bold_step.
      simpl in Hlen.
      destruct (is_star c && is_star c2) eqn:Hstar.
      * destruct inside.
        -- rewrite IH; [|lia|discriminate]. rewrite <- app_assoc. reflexivity.
        -- rewrite has_close_split.
           destruct (has_close r) eqn:Hclose.
           ++ rewrite IH; [|lia|intros _; exact Hclose].
              rewrite <- app_assoc. reflexivity.
           ++ change (c2 :: r ++ lineFeed :: l2) with ((c2 :: r) ++ lineFeed :: l2).
              rewrite IH; [reflexivity|simpl; lia|discriminate].
      * change (c2 :: r ++ lineFeed :: l2) with ((c2 :: r) ++ lineFeed :: l2).
        rewrite IH; [reflexivity|simpl; lia|].
        intros Hin. specialize (Hinv Hin).
        rewrite has_close_step, Hstar in Hinv.
        destruct (terminator_at (c :: c2 :: r)); [discriminate|exact Hinv].
Qed.

Lemma starts_with_split marker s l2 :
  ~ In lineFeed marker ->
  starts_with marker (s ++ lineFeed :: l2) = starts_with marker s.
Proof.
  intros Hnot. unfold starts_with.
  rewrite firstn_app.
  destruct (le_lt_dec (length marker) (length s)) as [Hle|Hlt].
  - replace (length marker - length s) with 0 by lia.
    rewrite app_nil_r. reflexivity.
  - destruct (length marker - length s) as [|k] eqn:Hk; [lia|].
    cbn [firstn].
    rewrite firstn_all2 by lia.
    destruct (list_eq_dec ascii_dec (s ++ lineFeed :: firstn k l2) marker) as [E|_].
    + exfalso. apply Hnot. rewrite <- E. apply in_or_app. right. left. reflexivity.
    + destruct (list_eq_dec ascii_dec s marker) as [E|_]; [|reflexivity].
      subst s. lia.
Qed.

(** So do the two replacements of headings. *)
Lemma replace_line_split marker open_ close_ l1 : forall skip inside l2,
  marker <> [] -> ~ In lineFeed marker ->
  skip <= length l1 ->
  replace_line marker open_ close_ skip inside (l1 ++ lineFeed :: l2)
    = replace_line marker open_ close_ skip inside l1
      ++ lineFeed :: replace_line marker open_ close_ 0 false l2.
Proof.
  induction l1 as [|a l1 IH]; intros skip inside l2 Hne Hnot Hskip.
  - simpl in Hskip. assert (skip = 0) as -> by lia.
    change ([] ++ lineFeed :: l2) with (lineFeed :: l2).
    rewrite replace_line_step, terminator_at_lineFeed.
    destruct inside; [reflexivity|].
    assert (starts_with marker (lineFeed :: l2) = false) as ->; [|reflexivity].
    unfold starts_with.
    destruct marker as [|m marker']; [congruence|]. cbn [length firstn].
    destruct (list_eq_dec ascii_dec (lineFeed :: firstn (length marker') l2)
                (m :: marker')) as [E|_]; [|reflexivity].
    exfalso. apply Hnot. injection E as <- _. left. reflexivity.
  - simpl in Hskip.
    change ((a :: l1) ++ lineFeed :: l2) with (a :: (l1 ++ lineFeed :: l2)).
    rewrite !replace_line_step.
    destruct skip as [|k]; [|apply IH; auto; lia].
    change (a :: l1 ++ lineFeed :: l2) with ((a :: l1) ++ lineFeed :: l2).
    rewrite terminator_at_split by discriminate.
    rewrite starts_with_split by exact Hnot.
    destruct inside.
    + destruct (terminator_at (a :: l1));
        rewrite IH by (auto; lia); rewrite <- ?app_assoc; reflexivity.
    + destruct (starts_with marker (a :: l1)) eqn:Hstart.
      * apply ParserFacts.starts_with_length in Hstart. simpl in Hstart.
        rewrite IH by (auto; lia). rewrite <- app_assoc. reflexivity.
      * rewrite IH by (auto; lia). reflexivity.
Qed.

Lemma string_app_assoc (s1 s2 s3 : string) :
  ((s1 ++ s2) ++ s3 = s1 ++ s2 ++ s3)%string.
Proof. induction s1 as [|c s1 IH]; simpl; [|rewrite IH]; reflexivity. Qed.

Lemma replace_newlines_split by_ s1 s2 :
  replace_newlines by_ (s1 ++ String lineFeed s2)%string
    = (replace_newlines by_ s1 ++ by_ ++ replace_newlines by_ s2)%string.
Proof.
  induction s1 as [|c s1 IH]; [reflexivity|].
  simpl. rewrite IH.
  destruct (code c =? 10)%N; [|reflexivity].
  rewrite string_app_assoc. reflexivity.
Qed.

Lemma unmarkedChar_spec c :
  unmarkedChar c = true ->
  is_star c = false /\ (code c =? 35)%N = false /\ (code c =? 10)%N = false.
Proof.
  unfold unmarkedChar, is_star. intros H. apply negb_true_iff in H.
  apply orb_false_iff in H. destruct H as [H H3].
  apply orb_false_iff in H. destruct H as [H1 H2]. auto.
Qed.

Lemma inlineChars_spec c cs :
  inlineChars (c :: cs) = true ->
  unmarkedChar c = true /\ terminator_at (c :: cs) = false /\ inlineChars cs = true.
Proof.
  cbn [inlineChars]. intros H.
  apply andb_true_iff in H. destruct H as [H Hrest].
  apply andb_true_iff in H. destruct H as [Hu Hterm].
  apply negb_true_iff in Hterm. auto.
Qed.

Lemma inline_unmarked cs :
  inlineChars cs = true -> forallb unmarkedChar cs = true.
Proof.
  induction cs as [|c cs IH]; intros H; [reflexivity|].
  apply inlineChars_spec in H. destruct H as (Hu & _ & Hrest).
  cbn [forallb]. rewrite Hu, (IH Hrest). reflexivity.
Qed.

(** Whether a line terminator starts a text does not depend on what
    follows the text, when that is not one of the last bytes of a line or
    paragraph separator. *)
Lemma terminator_at_before x l1 l2 :
  l1 <> [] ->
  (code x =? 128)%N = false -> (code x =? 168)%N = false -> (code x =? 169)%N = false ->
  terminator_at (l1 ++ x :: l2) = terminator_at l1.
Proof.
  intros Hne H128 H168 H169. rewrite !terminator_at_eq.
  destruct l1 as [|a [|b [|c r]]]; [congruence| | |reflexivity]; simpl.
  - destruct l2; simpl; rewrite ?H128, ?andb_false_r; reflexivity.
  - rewrite H168, H169, !andb_false_r. reflexivity.
Qed.

(** A text without star goes through the first replacement unchanged. *)
Lemma replace_bold_no_star cs : forall inside,
  forallb (fun c => negb (is_star c)) cs = true ->
  replace_bold inside cs = cs.
Proof.
  induction cs as [|c cs IH]; intros inside H; [reflexivity|].
  simpl in H. apply andb_true_iff in H. destruct H as [Hc H].
  apply negb_true_iff in Hc.
  destruct cs as [|c2 r]; [reflexivity|].
  rewrite replace_bold_step, Hc. cbn [andb].
  rewrite IH by exact H. reflexivity.
Qed.

Lemma unmarked_no_star cs :
  forallb unmarkedChar cs = true -> forallb (fun c => negb (is_star c)) cs = true.
Proof.
  rewrite !forallb_forall. intros H c Hin.
  destruct (unmarkedChar_spec c (H c Hin)) as (-> & _). reflexivity.
Qed.

Lemma starts_with_head h marker c cs :
  starts_with (h :: marker) (c :: cs) = true -> c = h.
Proof.
  unfold starts_with. cbn [length firstn].
  destruct (list_eq_dec ascii_dec (c :: firstn (length marker) cs) (h :: marker))
    as [E|_]; [|discriminate].
  intros _. congruence.
Qed.

(** A text without hash goes through the replacements of headings
    unchanged. *)
Lemma replace_line_no_hash h marker open_ close_ cs :
  (code h =? 35)%N = true ->
  forallb (fun c => negb (code c =? 35)%N) cs = true ->
  replace_line (h :: marker) open_ close_ 0 false cs = cs.
Proof.
  intros Hh. induction cs as [|c cs IH]; intros H; [reflexivity|].
  simpl in H. apply andb_true_iff in H. destruct H as [Hc H].
  apply negb_true_iff in Hc.
  rewrite replace_line_step.
  destruct (starts_with (h :: marker) (c :: cs)) eqn:Hstart.
  - apply starts_with_head in Hstart. subst c. congruence.
  - rewrite IH by exact H. reflexivity.
Qed.

Lemma unmarked_no_hash cs :
  forallb unmarkedChar cs = true -> forallb (fun c => negb (code c =? 35)%N) cs = true.
Proof.
  rewrite !forallb_forall. intros H c Hin.
  destruct (unmarkedChar_spec c (H c Hin)) as (_ & -> & _). reflexivity.
Qed.

Lemma replace_newlines_unmarked by_ cs :
  forallb unmarkedChar cs = true ->
  replace_newlines by_ (of_chars cs) = of_chars cs.
Proof.
  induction cs as [|c cs IH]; intros H; [reflexivity|].
  simpl in H. apply andb_true_iff in H. destruct H as [Hc H].
  destruct (unmarkedChar_spec c Hc) as (_ & _ & H10).
  unfold of_chars in *. simpl. rewrite H10, IH by exact H. reflexivity.
Qed.

Lemma replace_heading_unmarked marker tag cs :
  (marker = "### " \/ marker = "## ")%string ->
  forallb unmarkedChar cs = true ->
  replace_heading marker tag (of_chars cs) = of_chars cs.
Proof.
  intros Hmarker H. unfold replace_heading. rewrite chars_of_chars.
  destruct Hmarker as [-> | ->]; cbn [chars list_ascii_of_string];
    rewrite replace_line_no_hash; auto using unmarked_no_hash.
Qed.

(** What the three last replacements make of a text the first one has left
    unmarked. *)
Lemma after_bold_unmarked cs :
  forallb unmarkedChar cs = true ->
  replace_newlines "<br>"
    (replace_heading "## " "h2" (replace_heading "### " "h3" (of_chars cs)))
    = of_chars cs.
Proof.
  intros H.
  rewrite !replace_heading_unmarked by auto.
  apply replace_newlines_unmarked. exact H.
Qed.

Lemma replace_bold_prefix pre rest :
  forallb unmarkedChar pre = true ->
  replace_bold false (pre ++ chars "**" ++ rest)
    = pre ++ replace_bold false (chars "**" ++ rest).
Proof.
  induction pre as [|c pre IH]; intros H; [reflexivity|].
  simpl in H. apply andb_true_iff in H. destruct H as [Hc H].
  destruct (unmarkedChar_spec c Hc) as (Hstar & _).
  destruct pre as [|c2 r].
  - cbn [app chars list_ascii_of_string].
    rewrite replace_bold_step, Hstar. reflexivity.
  - change ((c :: c2 :: r) ++ chars "**" ++ rest)
      with (c :: c2 :: (r ++ chars "**" ++ rest)).
    rewrite replace_bold_step, Hstar. cbn [andb].
    change (c2 :: r ++ chars "**" ++ rest) with ((c2 :: r) ++ chars "**" ++ rest).
    rewrite IH by exact H. reflexivity.
Qed.

Lemma has_close_inline b rest :
  inlineChars b = true -> has_close (b ++ chars "**" ++ rest) = true.
Proof.
  induction b as [|c b IH]; intros H; [reflexivity|].
  apply inlineChars_spec in H. destruct H as (Hu & Hterm & H).
  destruct (unmarkedChar_spec c Hu) as (Hstar & _).
  specialize (IH H).
  assert (terminator_at ((c :: b) ++ chars "**" ++ rest) = false) as Hline.
  { cbn [chars list_ascii_of_string app].
    change (c :: b ++ "*"%char :: "*"%char :: rest)
      with ((c :: b) ++ "*"%char :: "*"%char :: rest).
    rewrite terminator_at_before by (discriminate || reflexivity). exact Hterm. }
  destruct b as [|c2 r].
  - cbn [app chars list_ascii_of_string] in *.
    rewrite has_close_step, Hstar, Hline. exact IH.
  - change ((c :: c2 :: r) ++ chars "**" ++ rest)
      with (c :: c2 :: (r ++ chars "**" ++ rest)) in *.
    rewrite has_close_step, Hstar, Hline. cbn [andb]. exact IH.
Qed.

Lemma replace_bold_inside b rest :
  forallb unmarkedChar b = true ->
  replace_bold true (b ++ chars "**" ++ rest)
    = b ++ chars "</strong>" ++ replace_bold false rest.
Proof.
  induction b as [|c b IH]; intros H; [reflexivity|].
  simpl in H. apply andb_true_iff in H. destruct H as [Hc H].
  destruct (unmarkedChar_spec c Hc) as (Hstar & _).
  destruct b as [|c2 r].
  - cbn [app chars list_ascii_of_string].
    rewrite replace_bold_step, Hstar. reflexivity.
  - change ((c :: c2 :: r) ++ chars "**" ++ rest)
      with (c :: c2 :: (r ++ chars "**" ++ rest)).
    rewrite replace_bold_step, Hstar. cbn [andb].
    change (c2 :: r ++ chars "**" ++ rest) with ((c2 :: r) ++ chars "**" ++ rest).
    rewrite IH by exact H. reflexivity.
Qed.

(** Inside a heading, an inline text is copied up to the end, where the
    tag is closed. *)
Lemma replace_line_inline marker open_ close_ cs :
  inlineChars cs = true ->
  replace_line marker open_ close_ 0 true cs = cs ++ close_.
Proof.
  induction cs as [|c cs IH]; intros H; [reflexivity|].
  apply inlineChars_spec in H. destruct H as (_ & Hterm & H).
  rewrite replace_line_step, Hterm, IH by exact H. reflexivity.
Qed.

End MarkdownFacts.

(** X19.  The markup [displayResult] shows for a plain answer, and the one
    [handleSummarize] shows for a summary, hold no line feed: each one of
    the text has become a line break. *)
Theorem rendered_text_has_no_line_feed text :
  ~ In lineFeed (Str.chars (markdownToHtml text)) /\
  ~ In lineFeed (Str.chars (Str.replace_newlines "<br>" text)).
Proof.
  assert (forall s, ~ In lineFeed (Str.chars (Str.replace_newlines "<br>" s))) as Hnl.
  { induction s as [|c s IH]; [intros []|].
    cbn [Str.replace_newlines]. destruct (Str.code c =? 10)%N eqn:Hc.
    - rewrite MarkdownFacts.chars_app. intros Hin. apply in_app_or in Hin.
      destruct Hin as [Hin|Hin]; [|exact (IH Hin)].
      simpl in Hin. repeat (destruct Hin as [Hin|Hin]; [discriminate|]). exact Hin.
    - change (Str.chars (String c (Str.replace_newlines "<br>" s)))
        with (c :: Str.chars (Str.replace_newlines "<br>" s)).
      intros [Heq|Hin]; [|exact (IH Hin)].
      subst c. discriminate. }
  split; [apply Hnl|apply Hnl].
Qed.

(** X20.  [markdownToHtml] leaves unchanged a text that holds no star, no
    hash and no line feed. *)
Theorem markdownToHtml_unmarked text :
  unmarked text = true -> markdownToHtml text = text.
Proof.
  unfold unmarked, markdownToHtml. intros H.
  rewrite MarkdownFacts.replace_bold_no_star
    by (apply MarkdownFacts.unmarked_no_star; exact H).
  rewrite MarkdownFacts.after_bold_unmarked by exact H.
  apply MarkdownFacts.of_chars_chars.
Qed.

Lemma markdownToHtml_unmarked_answer :
  markdownToHtml "The answer is 4." = "The answer is 4.".
Proof. apply markdownToHtml_unmarked. reflexivity. Defined.

(** X21.  [markdownToHtml] turns a text between two pairs of stars into a
    strong element, when that text is inline and what comes before and
    after it is unmarked. *)
Theorem markdownToHtml_bold pre b post :
  unmarked pre = true -> inline b = true -> unmarked post = true ->
  markdownToHtml (pre ++ "**" ++ b ++ "**" ++ post)
    = pre ++ "<strong>" ++ b ++ "</strong>" ++ post.
Proof.
  unfold unmarked, inline. intros Hpre Hb Hpost.
  pose proof (MarkdownFacts.inline_unmarked _ Hb) as Hb'.
  unfold markdownToHtml.
  rewrite !MarkdownFacts.chars_app.
  rewrite MarkdownFacts.replace_bold_prefix by exact Hpre.
  change (Str.chars "**" ++ Str.chars b ++ Str.chars "**" ++ Str.chars post)%list
    with ("*"%char :: "*"%char :: (Str.chars b ++ Str.chars "**" ++ Str.chars post))%list.
  rewrite MarkdownFacts.replace_bold_step. cbn [Str.is_star andb].
  replace (Str.is_star "*") with true by reflexivity. cbn [andb].
  rewrite MarkdownFacts.has_close_inline by exact Hb.
  rewrite MarkdownFacts.replace_bold_inside by exact Hb'.
  rewrite MarkdownFacts.replace_bold_no_star
    by (apply MarkdownFacts.unmarked_no_star; exact Hpost).
  rewrite MarkdownFacts.after_bold_unmarked.
  - rewrite !MarkdownFacts.of_chars_app, !MarkdownFacts.of_chars_chars. reflexivity.
  - rewrite !forallb_app, Hpre, Hb', Hpost. reflexivity.
Qed.

Lemma markdownToHtml_bold_dashed :
  inline dashedTitle = true /\
  markdownToHtml ("The answer: " ++ "**" ++ dashedTitle ++ "**" ++ ".")
    = "The answer: " ++ "<strong>" ++ dashedTitle ++ "</strong>" ++ ".".
Proof. split; [reflexivity|]. apply markdownToHtml_bold; reflexivity. Defined.




(** X22.  [markdownToHtml] turns a line that starts with two hashes and a
    space into a heading of level 2, and one that starts with three hashes
    and a space into a heading of level 3, when the title is inline. *)
Theorem markdownToHtml_heading title :
  inline title = true ->
  markdownToHtml ("## " ++ title) = "<h2>" ++ title ++ "</h2>" /\
  markdownToHtml ("### " ++ title) = "<h3>" ++ title ++ "</h3>".
Proof.
  unfold inline. intros Htitle.
  pose proof (MarkdownFacts.inline_unmarked _ Htitle) as Hunmarked.
  pose proof (MarkdownFacts.unmarked_no_star _ Hunmarked) as Hstar.
  pose proof (MarkdownFacts.unmarked_no_hash _ Hunmarked) as Hhash.
  split; unfold markdownToHtml; rewrite MarkdownFacts.chars_app.
  - rewrite MarkdownFacts.replace_bold_no_star
      by (cbn [Str.chars list_ascii_of_string app forallb]; exact Hstar).
    unfold Str.replace_heading at 2. rewrite MarkdownFacts.chars_of_chars.
    cbn [Str.chars list_ascii_of_string app].
    change (list_ascii_of_string title) with (Str.chars title).
    rewrite MarkdownFacts.replace_line_step.
    replace (Str.starts_with ["#"; "#"; "#"; " "]%char
               ("#"%char :: "#"%char :: " "%char :: Str.chars title)) with false.
    2:{ unfold Str.starts_with. cbn [length firstn].
        destruct (list_eq_dec _ _ _) as [E|_]; [discriminate|reflexivity]. }
    rewrite MarkdownFacts.replace_line_step.
    replace (Str.starts_with ["#"; "#"; "#"; " "]%char
               ("#"%char :: " "%char :: Str.chars title)) with false.
    2:{ unfold Str.starts_with. cbn [length firstn].
        destruct (list_eq_dec _ _ _) as [E|_]; [discriminate|reflexivity]. }
    rewrite MarkdownFacts.replace_line_no_hash
      by (try reflexivity; cbn [forallb]; exact Hhash).
    unfold Str.replace_heading. rewrite MarkdownFacts.chars_of_chars.
    cbn [Str.chars list_ascii_of_string app String.append].
    change (list_ascii_of_string title) with (Str.chars title).
    rewrite MarkdownFacts.replace_line_step.
    replace (Str.starts_with ["#"; "#"; " "]%char
               ("#"%char :: "#"%char :: " "%char :: Str.chars title)) with true.
    2:{ unfold Str.starts_with. cbn [length firstn].
        destruct (list_eq_dec _ _ _) as [_|E]; [reflexivity|congruence]. }
    cbn [length Nat.sub].
    rewrite !MarkdownFacts.replace_line_step.
    rewrite MarkdownFacts.replace_line_inline by exact Htitle.
    replace (["<"; "h"; "2"; ">"]%char ++ Str.chars title ++ ["<"; "/"; "h"; "2"; ">"]%char)%list
      with (Str.chars "<h2>" ++ Str.chars title ++ Str.chars "</h2>")%list by reflexivity.
    rewrite MarkdownFacts.replace_newlines_unmarked
      by (rewrite !forallb_app, Hunmarked; reflexivity).
    rewrite !MarkdownFacts.of_chars_app, !MarkdownFacts.of_chars_chars. reflexivity.
  - rewrite MarkdownFacts.replace_bold_no_star
      by (cbn [Str.chars list_ascii_of_string app forallb]; exact Hstar).
    unfold Str.replace_heading at 2. rewrite MarkdownFacts.chars_of_chars.
    cbn [Str.chars list_ascii_of_string app String.append].
    change (list_ascii_of_string title) with (Str.chars title).
    rewrite MarkdownFacts.replace_line_step.
    replace (Str.starts_with ["#"; "#"; "#"; " "]%char
               ("#"%char :: "#"%char :: "#"%char :: " "%char :: Str.chars title)) with true.
    2:{ unfold Str.starts_with. cbn [length firstn].
        destruct (list_eq_dec _ _ _) as [_|E]; [reflexivity|congruence]. }
    cbn [length Nat.sub].
    rewrite !MarkdownFacts.replace_line_step.
    rewrite MarkdownFacts.replace_line_inline by exact Htitle.
    replace (["<"; "h"; "3"; ">"]%char ++ Str.chars title ++ ["<"; "/"; "h"; "3"; ">"]%char)%list
      with (Str.chars "<h3>" ++ Str.chars title ++ Str.chars "</h3>")%list by reflexivity.
    rewrite MarkdownFacts.replace_heading_unmarked
      by (auto; rewrite !forallb_app, Hunmarked; reflexivity).
    rewrite MarkdownFacts.replace_newlines_unmarked
      by (rewrite !forallb_app, Hunmarked; reflexivity).
    rewrite !MarkdownFacts.of_chars_app, !MarkdownFacts.of_chars_chars. reflexivity.
Qed.

Lemma markdownToHtml_heading_dashed :
  inline dashedTitle = true /\
  markdownToHtml ("## " ++ dashedTitle) = "<h2>" ++ dashedTitle ++ "</h2>" /\
  markdownToHtml ("### " ++ dashedTitle) = "<h3>" ++ dashedTitle ++ "</h3>".
Proof. split; [reflexivity|]. apply markdownToHtml_heading. reflexivity. Defined.

(** X23.  [markdownToHtml] works line by line: the markup of two texts
    joined by a line feed is the markup of the first, a line break, and the
    markup of the second. *)
Theorem markdownToHtml_lines text1 text2 :
  markdownToHtml (text1 ++ Str.newline ++ text2)
    = markdownToHtml text1 ++ "<br>" ++ markdownToHtml text2.
Proof.
  unfold markdownToHtml, Str.replace_heading.
  rewrite (MarkdownFacts.chars_app text1).
  change (Str.chars (Str.newline ++ text2)) with (lineFeed :: Str.chars text2).
  rewrite (@MarkdownFacts.replace_bold_split (length (Str.chars text1)))
    by (auto; discriminate).
  rewrite !MarkdownFacts.chars_of_chars.
  rewrite MarkdownFacts.replace_line_split;
    [|discriminate|intros [H|[H|[H|[H|[]]]]]; discriminate|lia].
  rewrite MarkdownFacts.replace_line_split;
    [|discriminate|intros [H|[H|[H|[]]]]; discriminate|lia].
  rewrite MarkdownFacts.of_chars_app.
  change (Str.of_chars (lineFeed :: ?l)) with (String lineFeed (Str.of_chars l)).
  apply MarkdownFacts.replace_newlines_split.
Qed.

(** ** Submit, then summarize *)

Lemma handleResponse_text response result :
  handleResponse response = Normal result -> text result <> "".
Proof.
  unfold handleResponse.
  destruct (negb (ok response)); [destruct (json response); discriminate|].
  destruct (json response) as [reason|typeError|body]; [discriminate|discriminate|].
  unfold extractResult.
  destruct (first (Response.candidates body)) as [candidate|]; [|discriminate].
  destruct (match Response.content candidate with
            | Some content => first (Response.parts content)
            | None => None
            end) as [textPart|]; [|discriminate].
  destruct (Response.text textPart) as [t|]; simpl; [|discriminate].
  destruct (String.eqb t "") eqn:Ht; simpl; [discriminate|].
  intros [= <-]. simpl. apply String.eqb_neq. exact Ht.
Qed.

Section SubmitThenSummarize.
Context {engine : Engine}.

(** X24.  After a submit in plain mode whose first attempt succeeded, the
    summarize action always has something to summarize: its first effect
    is the call that posts the text of the answer, wrapped in the
    instruction of line 226. *)
Theorem summarize_after_plain_answer w response result :
  Str.trim (value (user_query (page w))) <> "" ->
  checked (structuredCheckbox (page w)) = false ->
  network w (fetches w)
    (buildPayload (Str.trim (value (user_query (page w))))
       (Str.trim (value (system_instruction (page w))))
       (checked (google_grounding (page w)))
       (checked (structuredCheckbox (page w))))
    = Resolved response ->
  handleResponse response = Normal result ->
  exists rest,
    trace (snd (handleSummarize (snd (handleFormSubmit w))))
      = (trace (snd (handleFormSubmit w))
         ++ Fetch apiUrlBase (summaryPayload (JString (text result))) :: rest)%list.
Proof.
  intros Hquery Hplain Hnet Hok.
  destruct (@handleFormSubmit_first_answer_state _ w response result Hquery Hnet Hok)
    as (Hstored & _ & _).
  rewrite Hplain in Hstored. cbn [storedResponse] in Hstored.
  pose proof (handleResponse_text _ Hok) as Htext.
  apply String.eqb_neq in Htext.
  remember (snd (handleFormSubmit w)) as w1 eqn:Hw1. clear Hw1.
  unfold handleSummarize, bind, gets. rewrite Hstored.
  cbn [ToBoolean]. rewrite Htext. cbn [negb].
  unfold update, modify, try_finally, try_catch, destructure, bind, throw, ret,
    console_error.
  cbv beta iota.
  match goal with
  | |- context [generateResponse ?q ?s ?g ?st ?w0] =>
      destruct (generateResponse_first_call q s g st w0) as [rest Htrace];
      destruct (generateResponse q s g st w0) as [[[summary|]|error] w2]
  end; cbn [snd] in Htrace; cbn in Htrace; cbn; rewrite Htrace.
  - eexists. reflexivity.
  - eexists. rewrite <- app_assoc. reflexivity.
  - eexists. rewrite <- app_assoc. reflexivity.
Qed.

(** X6.  After a submit in structured mode whose first attempt returned a
    JSON object without [final_summary], [currentResponse] is [undefined]
    and the summarize action finds nothing to summarize: it alerts and
    makes no call. *)
Theorem summarize_after_answer_without_summary w response result members :
  Str.trim (value (user_query (page w))) <> "" ->
  checked (structuredCheckbox (page w)) = true ->
  network w (fetches w)
    (buildPayload (Str.trim (value (user_query (page w))))
       (Str.trim (value (system_instruction (page w))))
       (checked (google_grounding (page w)))
       (checked (structuredCheckbox (page w))))
    = Resolved response ->
  handleResponse response = Normal result ->
  JSON_parse (text result) = Some (JObject members) ->
  lookup_last "final_summary" members = None ->
  currentResponse (snd (handleFormSubmit w)) = JUndefined /\
  handleSummarize (snd (handleFormSubmit w))
    = (Normal tt, emit (Alert "No response to summarize") (snd (handleFormSubmit w))).
Proof.
  intros Hquery Hstructured Hnet Hok Hparse Hlookup.
  destruct (@handleFormSubmit_first_answer_state _ w response result Hquery Hnet Hok)
    as (Hstored & _ & _).
  rewrite Hstructured in Hstored.
  unfold storedResponse, parsed_final_summary in Hstored.
  rewrite Hparse in Hstored. cbn [GetV] in Hstored. rewrite Hlookup in Hstored.
  split; [exact Hstored|].
  unfold handleSummarize, bind, gets. rewrite Hstored. reflexivity.
Qed.

End SubmitThenSummarize.

Lemma summarize_after_plain_answer_sample :
  exists rest,
    trace (snd (@handleSummarize sampleEngine
                  (snd (@handleFormSubmit sampleEngine answeringWorld))))
      = (trace (snd (@handleFormSubmit sampleEngine answeringWorld))
         ++ Fetch apiUrlBase (@summaryPayload sampleEngine (JString "4.")) :: rest)%list.
Proof.
  apply (@summarize_after_plain_answer sampleEngine answeringWorld
           {| status := 200; json := Parsed (bodyOf "4." None) |}
           {| text := "4."; sources := [] |}).
  - vm_compute. discriminate.
  - reflexivity.
  - reflexivity.
  - reflexivity.
Defined.

Lemma summarize_after_answer_without_summary_sample :
  currentResponse (snd (@handleFormSubmit sampleEngine schemaLessWorld)) = JUndefined /\
  @handleSummarize sampleEngine (snd (@handleFormSubmit sampleEngine schemaLessWorld))
    = (Normal tt,
       emit (Alert "No response to summarize")
         (snd (@handleFormSubmit sampleEngine schemaLessWorld))).
Proof.
  apply (@summarize_after_answer_without_summary sampleEngine schemaLessWorld
           {| status := 200; json := Parsed (bodyOf "{}" None) |}
           {| text := "{}"; sources := [] |} []).
  - vm_compute. discriminate.
  - reflexivity.
  - reflexivity.
  - reflexivity.
  - vm_compute. reflexivity.
  - reflexivity.
Defined.
